(** * Thai Travel Share: token service, tax calculator and domain services

    A shallow embedding of the request handlers of [thaitravelshare]
    (routers/v1/user_router.py, routers/v1/travel_router.py), of
    core/security.py and of the models they use, together with the
    properties of the specification that concern them.

    Conventions.
    - [datetime] values are integers: microseconds since the epoch (UTC);
      [timedelta] values are integers: microseconds.
    - The clock ([utc_now()]), the identifiers drawn by [uuid4()] and the
      salt drawn by the password hasher are explicit arguments.
    - The relational store is a record of tables; a handler maps a store
      to an outcome and the store left behind.
    - The database is SQLite (tests/conftest.py: sqlite+aiosqlite): a
      Numeric column holds a binary64 float, and a [Decimal] read from
      it is that float written with ten decimals. *)

From Stdlib Require Import ZArith QArith Qpower Qfield Lia.
From Stdlib Require OrderedTypeEx.
From stdpp Require Import gmap strings list fin_maps sorting.

Local Open Scope Z_scope.

(** ** decimal.Decimal in the default context *)

Module Dec.

(** A finite [Decimal]: the number [coef * 10 ^ dexp]. The sign is the
    sign of [coef]. [fix_], [mul] and [div100] are the operations as
    long as the exponent limits of the context are not met;
    [fix_in_context], [mul_in_context] and [div100_in_context] have
    the limits. *)
Record Decimal : Type := mkDec { coef : Z; dexp : Z }.

(** [getcontext().prec] *)
Definition prec : Z := 28.

(** [Decimal.__bool__]: a finite Decimal is true when it is not zero. *)
Definition truthy (d : Decimal) : bool := negb (coef d =? 0).

(** The exact value, as a rational. *)
Definition to_Q (d : Decimal) : Q := (inject_Z (coef d) * Qpower (10 # 1) (dexp d))%Q.

(** Number of decimal digits of [n >= 0] ([len(self._int)]). *)
Fixpoint ndigits_fuel (fuel : nat) (n : Z) : Z :=
  match fuel with
  | O => 1
  | S f => if n <? 10 then 1 else 1 + ndigits_fuel f (n / 10)
  end.

Definition ndigits (n : Z) : Z := ndigits_fuel (Z.to_nat (Z.log2 n)) n.

(** ROUND_HALF_EVEN of [n >= 0] to a multiple of [10 ^ k], divided by
    [10 ^ k] ([k >= 1]). *)
Definition round_half_even (n k : Z) : Z :=
  let q := n / 10 ^ k in
  let r := n mod 10 ^ k in
  let half := 5 * 10 ^ (k - 1) in
  if (half <? r) || ((r =? half) && Z.odd q) then q + 1 else q.

(** [Decimal._fix(context)] away from the exponent limits: a
    coefficient of more than [prec] digits is rounded to [prec] digits,
    half to even; a carry out of the rounding ([99..9] becoming
    [100..0]) drops one more digit. *)
Definition fix_ (d : Decimal) : Decimal :=
  let n := Z.abs (coef d) in
  if n <? 10 ^ prec then d
  else
    let k := ndigits n - prec in
    let q := round_half_even n k in
    if q =? 10 ^ prec
    then mkDec (Z.sgn (coef d) * 10 ^ (prec - 1)) (dexp d + k + 1)
    else mkDec (Z.sgn (coef d) * q) (dexp d + k).

(** [a * b] ([Decimal.__mul__]) away from the exponent limits: exact
    product, then [_fix]. *)
Definition mul (a b : Decimal) : Decimal :=
  fix_ (mkDec (coef a * coef b) (dexp a + dexp b)).

(** [a / 100] ([Decimal.__truediv__] with the int 100): the quotient
    [coef a * 10 ^ (dexp a - 2)] is a decimal number and is rounded to
    the context precision. Python afterwards moves the exponent of an
    exact quotient towards [dexp a] by dropping trailing zeros, which
    changes the representation and not the number. *)
Definition div100 (a : Decimal) : Decimal :=
  fix_ (mkDec (coef a) (dexp a - 2)).

(** [Decimal.__eq__] on finite values: equality of numbers. *)
Definition eqb (a b : Decimal) : bool :=
  let m := Z.min (dexp a) (dexp b) in
  coef a * 10 ^ (dexp a - m) =? coef b * 10 ^ (dexp b - m).

(** The exponent limits of the default context ([Emax], [Emin]), with
    [Context.Etiny()] and [Context.Etop()]. *)
Definition Emax : Z := 999999.
Definition Emin : Z := -999999.
Definition Etiny : Z := Emin - prec + 1.
Definition Etop : Z := Emax - prec + 1.

(** [Decimal._fix(context)] in the default context ([clamp = 0], the
    Overflow trap enabled): [None] stands for [decimal.Overflow] being
    raised. A zero keeps its exponent within the limits. A number whose
    leading digit is above [Emax] overflows, also when the carry of
    the rounding takes it there. A number is rounded, half to even, to
    [prec] digits, or to the exponent [Etiny] when that keeps fewer
    digits (a subnormal result, possibly zero). *)
Definition fix_in_context (d : Decimal) : option Decimal :=
  let n := Z.abs (coef d) in
  if n =? 0 then Some (mkDec 0 (Z.min (Z.max (dexp d) Etiny) Emax))
  else
    let exp_min := ndigits n + dexp d - prec in
    if Etop <? exp_min then None
    else
      let exp_min := Z.max exp_min Etiny in
      if dexp d <? exp_min then
        let q := round_half_even n (exp_min - dexp d) in
        if q =? 10 ^ prec then
          if Etop <? exp_min + 1 then None
          else Some (mkDec (Z.sgn (coef d) * 10 ^ (prec - 1)) (exp_min + 1))
        else Some (mkDec (Z.sgn (coef d) * q) exp_min)
      else Some d.

(** [a * b] and [a / 100] in the default context. As for [div100], the
    number returned is the one Python returns; the exponent of an exact
    quotient may differ. *)
Definition mul_in_context (a b : Decimal) : option Decimal :=
  fix_in_context (mkDec (coef a * coef b) (dexp a + dexp b)).

Definition div100_in_context (a : Decimal) : option Decimal :=
  fix_in_context (mkDec (coef a) (dexp a - 2)).

(** The absolute value as a fraction of two positive integers. *)
Definition ratio (d : Decimal) : Z * Z :=
  if 0 <=? dexp d then (Z.abs (coef d) * 10 ^ dexp d, 1)
  else (Z.abs (coef d), 10 ^ (- dexp d)).

(** [d] is a multiple of [10 ^ k]: written out, it has no digit below
    the position [k]. *)
Definition multiple_of_pow10 (d : Decimal) (k : Z) : bool :=
  if k <=? dexp d then true else coef d mod 10 ^ (k - dexp d) =? 0.

End Dec.

Import Dec.

(** ** Outcomes of a request handler *)

(** What a handler can raise: an [HTTPException] of its own, or an
    exception nobody catches (the framework answers 500 and the session
    of [get_session] rolls back what was not yet committed):
    [DecimalOverflow] is [decimal.Overflow], [ValidationError] is
    pydantic's. *)
Inductive exn : Type :=
  | HTTPException (status_code : Z) (detail : string)
                  (headers : option (list (string * string)))
  | IntegrityError
  | AttributeError
  | DecimalOverflow
  | ValidationError.

Inductive outcome (A : Type) : Type :=
  | Return (a : A)
  | Raise (e : exn).
Arguments Return {A} a.
Arguments Raise {A} e.

Definition HTTP_400_BAD_REQUEST : Z := 400.
Definition HTTP_401_UNAUTHORIZED : Z := 401.
Definition HTTP_404_NOT_FOUND : Z := 404.

(** [float(x)]: the binary64 number nearest to [x], kept as the exact
    number it was converted from. *)
Inductive pyfloat : Type :=
  | float_of_Decimal (d : Decimal)
  | float_of_int (z : Z).

(** ** Python's float: binary64 *)

Module Float.

(** A float that is not a NaN: the number [m * 2 ^ e], or an
    infinity. The sign of a zero is not kept. *)
Inductive float : Type :=
  | Finite (m e : Z)
  | Infinite (negative : bool).

(** The integer nearest to [n / d], the even one of two that are
    equally near ([0 <= n], [0 < d]). *)
Definition nearest_even (n d : Z) : Z :=
  let q := n / d in
  let r := n mod d in
  if (d <? 2 * r) || ((2 * r =? d) && Z.odd q) then q + 1 else q.

(** The fraction [(n / d) / 2 ^ s]. *)
Definition scaled (n d s : Z) : Z * Z :=
  if 0 <=? s then (n, d * 2 ^ s) else (n * 2 ^ (- s), d).

(** The [e] with [2 ^ e <= n / d < 2 ^ (e + 1)] ([0 < n], [0 < d]). *)
Definition floor_log2 (n d : Z) : Z :=
  let e0 := Z.log2 n - Z.log2 d in
  let '(n1, d1) := scaled n d e0 in
  if d1 <=? n1 then e0 else e0 - 1.

(** Rounding [n / d > 0] to binary64, to nearest and half to even: 53
    bits are kept, fewer below the smallest normal number, where the
    unit is [2 ^ -1074]; a result of [2 ^ 1024] or more is an
    infinity. [None] stands for the infinity. *)
Definition of_ratio (n d : Z) : option (Z * Z) :=
  let p := Z.max (floor_log2 n d - 52) (-1074) in
  let '(n2, d2) := scaled n d p in
  let m := nearest_even n2 d2 in
  if (971 <? p) || ((p =? 971) && (2 ^ 53 <=? m)) then None else Some (m, p).

(** [float(d)] for a Decimal [d] ([Decimal.__float__]): the float
    nearest to the number. *)
Definition of_Decimal (d : Decimal) : float :=
  if coef d =? 0 then Finite 0 0
  else
    let '(n, k) := ratio d in
    match of_ratio n k with
    | Some (m, e) => Finite (Z.sgn (coef d) * m) e
    | None => Infinite (coef d <? 0)
    end.

(** ["%.10f" % x] read as a Decimal: the multiple of [10 ^ -10]
    nearest to the float, half to even; [None] for the string
    ["inf"] or ["-inf"]. *)
Definition format_10f (x : float) : option Decimal :=
  match x with
  | Finite m e =>
      let '(n, d) := scaled (Z.abs m * 10 ^ 10) 1 (- e) in
      Some (mkDec (Z.sgn m * nearest_even n d) (-10))
  | Infinite _ => None
  end.

End Float.

(** ** sqlalchemy.Numeric on SQLite *)

(** The columns declared [Decimal] are [Numeric()] columns: neither
    precision nor scale is given. SQLite has no decimal type, so a
    value is bound as [float(value)] ([processors.to_float]) and a
    result is turned back into [Decimal("%.10f" % value)]
    ([processors.to_decimal_processor_factory], ten being the default
    scale). *)
Module Numeric.

Definition bind_processor (value : Decimal) : Float.float := Float.of_Decimal value.

Definition result_processor (value : Float.float) : option Decimal :=
  Float.format_10f value.

(** What [session.refresh] reads after [value] was written: [None]
    when the column holds an infinity. *)
Definition read_back (value : Decimal) : option Decimal :=
  result_processor (bind_processor value).

(** The same for a nullable column: NULL is read back as [None]. *)
Definition read_back_nullable (value : option Decimal) : option (option Decimal) :=
  match value with
  | Some d => Some <$> read_back d
  | None => Some None
  end.

End Numeric.

(** ** models/travel_model.py *)

Module DBProvince.
Record t : Type := mk {
  id : Z;
  name_th : string;
  name_en : string;
  region : string;
  is_secondary_province : bool;
  tax_reduction_percentage : Decimal;
  description : option string
}.
End DBProvince.

Module Province.
Record t : Type := mk {
  id : Z;
  name_th : string;
  name_en : string;
  region : string;
  is_secondary_province : bool;
  tax_reduction_percentage : Decimal;
  description : option string
}.
End Province.

Module DBTravelPlan.
Record t : Type := mk {
  id : string;
  user_id : string;
  province_id : Z;
  start_date : Z;
  end_date : Z;
  budget : option Decimal;
  estimated_tax_reduction : option Decimal;
  status : string;
  notes : option string;
  created_at : Z;
  updated_at : option Z
}.
End DBTravelPlan.

Module TravelPlan.
Record t : Type := mk {
  id : string;
  user_id : string;
  province_id : Z;
  province : Province.t;
  start_date : Z;
  end_date : Z;
  budget : option Decimal;
  estimated_tax_reduction : option Decimal;
  status : string;
  notes : option string;
  created_at : Z
}.
End TravelPlan.

Module CreateTravelPlan.
Record t : Type := mk {
  province_id : Z;
  start_date : Z;
  end_date : Z;
  budget : option Decimal;
  notes : option string
}.
End CreateTravelPlan.

(** Every field of the update model is [Optional[...] = None]. A field
    is [None] here when the request did not mention it (it is left out by
    [model_dump(exclude_unset=True)]), [Some None] when the request set
    it to null, and [Some (Some v)] when it set it to [v]. *)
Module UpdateTravelPlan.
Record t : Type := mk {
  start_date : option (option Z);
  end_date : option (option Z);
  budget : option (option Decimal);
  status : option (option string);
  notes : option (option string)
}.
End UpdateTravelPlan.

(** ** models/user_model.py *)

Module DBUser.
Record t : Type := mk {
  id : string;
  email : string;
  username : string;
  hashed_password : string;
  first_name : string;
  last_name : string;
  phone : option string;
  date_of_birth : option Z;
  national_id : option string;
  is_active : bool;
  created_at : Z;
  updated_at : option Z
}.
End DBUser.

Module User.
Record t : Type := mk {
  id : string;
  email : string;
  username : string;
  first_name : string;
  last_name : string;
  phone : option string;
  date_of_birth : option Z;
  is_active : bool;
  created_at : Z
}.
End User.

Module RegisteredUser.
Record t : Type := mk {
  email : string;
  username : string;
  password : string;
  first_name : string;
  last_name : string;
  phone : option string;
  date_of_birth : option Z;
  national_id : option string
}.
End RegisteredUser.

Module UserLogin.
Record t : Type := mk {
  username : string;
  password : string
}.
End UserLogin.

(** ** The relational store *)

(** [users] lists the rows of the table in the order a [select] without
    [order_by] returns them; the other two tables are read by primary
    key only. *)
Record store : Type := mkStore {
  users : list DBUser.t;
  provinces : gmap Z DBProvince.t;
  travel_plans : gmap string DBTravelPlan.t
}.

Definition set_users (st : store) (us : list DBUser.t) : store :=
  mkStore us (provinces st) (travel_plans st).

Definition set_travel_plans (st : store) (tps : gmap string DBTravelPlan.t) : store :=
  mkStore (users st) (provinces st) tps.

(** ** routers/v1/travel_router.py *)

Module TravelRouter.

Local Open Scope string_scope.
Local Open Scope Z_scope.

(** The [tax_benefits] dict of the creation response. *)
Record tax_benefits_t : Type := mkTaxBenefits {
  estimated_reduction : pyfloat;
  tax_rate : pyfloat;
  is_secondary_province : bool
}.

(** schemas.TravelPlanCreationResponse *)
Record TravelPlanCreationResponse : Type := mkCreationResponse {
  travel_plan : TravelPlan.t;
  message : string;
  tax_benefits : tax_benefits_t;
  suggestions : list string;
  next_steps : list string
}.

Definition not_found (detail : string) : exn :=
  HTTPException HTTP_404_NOT_FOUND detail None.

(** The exception of the three plan handlers below. *)
Definition travel_plan_not_found : exn := not_found "Travel plan not found".

(** [models.Province(id=province.id, ...)] *)
Definition province_model (province : DBProvince.t) : Province.t :=
  Province.mk (DBProvince.id province) (DBProvince.name_th province)
    (DBProvince.name_en province) (DBProvince.region province)
    (DBProvince.is_secondary_province province)
    (DBProvince.tax_reduction_percentage province)
    (DBProvince.description province).

(** [models.TravelPlan(id=travel_plan.id, ..., province=province_model, ...)] *)
Definition travel_plan_model (tp : DBTravelPlan.t) (province : DBProvince.t)
  : TravelPlan.t :=
  TravelPlan.mk (DBTravelPlan.id tp) (DBTravelPlan.user_id tp)
    (DBTravelPlan.province_id tp) (province_model province)
    (DBTravelPlan.start_date tp) (DBTravelPlan.end_date tp)
    (DBTravelPlan.budget tp) (DBTravelPlan.estimated_tax_reduction tp)
    (DBTravelPlan.status tp) (DBTravelPlan.notes tp)
    (DBTravelPlan.created_at tp).

(** The body of [if travel_plan.budget:] in both handlers:
    [tax_rate = province.tax_reduction_percentage / 100] and
    [budget * tax_rate]. *)
Definition tax_reduction (budget : Decimal) (province : DBProvince.t) : Decimal :=
  let tax_rate := div100 (DBProvince.tax_reduction_percentage province) in
  mul budget tax_rate.

(** The same two lines with the exponent limits of the context, for a
    budget that comes with the request: [None] stands for
    [decimal.Overflow] being raised by one of them. *)
Definition tax_reduction_in_context (budget : Decimal) (province : DBProvince.t)
  : option Decimal :=
  match div100_in_context (DBProvince.tax_reduction_percentage province) with
  | Some tax_rate => mul_in_context budget tax_rate
  | None => None
  end.

(** [float(x or 0)] for an optional Decimal [x]. *)
Definition float_or_0 (x : option Decimal) : pyfloat :=
  match x with
  | Some d => if truthy d then float_of_Decimal d else float_of_int 0
  | None => float_of_int 0
  end.

(** Lines 33 to 36 of [create_travel_plan]: no reduction without a
    budget, nor for a budget of zero ([if travel_plan.budget:]); the
    outer [None] stands for [decimal.Overflow]. *)
Definition estimate_of_request (budget : option Decimal) (province : DBProvince.t)
  : option (option Decimal) :=
  match budget with
  | Some budget =>
      if truthy budget then Some <$> tax_reduction_in_context budget province
      else Some None
  | None => Some None
  end.

(** [create_travel_plan]; [new_id] is the [uuid4()] drawn for the new
    row and [now] the clock read for [created_at]. A primary key that
    is already taken makes the commit fail. The response is built from
    the row as [session.refresh] reads it: the budget and the
    reduction come back from their Numeric columns. A budget or a
    reduction beyond the binary64 range is stored as an infinity, which
    [models.TravelPlan] refuses; the records here hold no infinity, and
    the row of that case is left out of the store. *)
Definition create_travel_plan (st : store) (new_id : string) (now : Z)
    (current_user : User.t) (travel_plan : CreateTravelPlan.t)
  : outcome TravelPlanCreationResponse * store :=
  match provinces st !! CreateTravelPlan.province_id travel_plan with
  | None => (Raise (not_found "Province not found"), st)
  | Some province =>
    match estimate_of_request (CreateTravelPlan.budget travel_plan) province with
    | None => (Raise DecimalOverflow, st)
    | Some estimated_tax_reduction =>
      match travel_plans st !! new_id with
      | Some _ => (Raise IntegrityError, st)
      | None =>
        match Numeric.read_back_nullable (CreateTravelPlan.budget travel_plan),
              Numeric.read_back_nullable estimated_tax_reduction with
        | Some budget, Some estimated =>
          let db_travel_plan :=
            DBTravelPlan.mk new_id (User.id current_user)
              (CreateTravelPlan.province_id travel_plan)
              (CreateTravelPlan.start_date travel_plan)
              (CreateTravelPlan.end_date travel_plan)
              budget
              estimated
              "planned"
              (CreateTravelPlan.notes travel_plan)
              now None in
          let st' :=
            set_travel_plans st (<[new_id := db_travel_plan]> (travel_plans st)) in
          (Return (mkCreationResponse
                     (travel_plan_model db_travel_plan province)
                     "Travel plan created successfully"
                     (mkTaxBenefits
                        (float_or_0 (DBTravelPlan.estimated_tax_reduction db_travel_plan))
                        (float_of_Decimal (DBProvince.tax_reduction_percentage province))
                        (DBProvince.is_secondary_province province))
                     [ "Visit " ++ DBProvince.name_th province
                         ++ " during off-peak season for better deals";
                       "Consider extending your stay to maximize tax benefits";
                       "Keep all receipts for tax deduction claims" ]
                     [ "Review your itinerary"; "Book accommodations";
                       "Prepare necessary documents"; "Check weather conditions" ]),
           st')
        | _, _ => (Raise ValidationError, st)
        end
      end
    end
  end.

(** [get_travel_plan]: the query joins the plan with its province and
    filters on the plan id and on the owner. *)
Definition get_travel_plan (st : store) (current_user : User.t) (plan_id : string)
  : outcome TravelPlan.t :=
  match travel_plans st !! plan_id with
  | None => Raise travel_plan_not_found
  | Some tp =>
    if decide (DBTravelPlan.user_id tp = User.id current_user) then
      match provinces st !! DBTravelPlan.province_id tp with
      | None => Raise travel_plan_not_found
      | Some province => Return (travel_plan_model tp province)
      end
    else Raise travel_plan_not_found
  end.

(** [setattr(travel_plan, field, value)] for a field of [update_data]
    whose column accepts null; a field that is not in [update_data] is
    not visited by the loop. *)
Definition setattr_nullable {A : Type} (supplied : option (option A))
    (old : option A) : option A :=
  match supplied with
  | None => old
  | Some value => value
  end.

(** The same for a column declared without [Optional] (NOT NULL):
    [None] is the attribute holding a null that the commit will
    refuse. *)
Definition setattr_required {A : Type} (supplied : option (option A))
    (old : A) : option A :=
  match supplied with
  | None => Some old
  | Some value => value
  end.

(** [update_travel_plan]; [now] is the clock read for [updated_at].
    The loop over [update_data.items()] is written out field by field,
    in the order of the fields of the update model; ["budget" in
    update_data] is [Some _] for the budget of the request. The
    attributes are assigned first, the reduction is recomputed, then
    the row is committed and refreshed: an attribute that was assigned
    is read back from its column, the others are as they were loaded.
    The province is read again after the commit for the response. As in
    [create_travel_plan], a row that would hold an infinity is left out
    of the store. *)
Definition update_travel_plan (st : store) (now : Z) (current_user : User.t)
    (plan_id : string) (travel_plan_update : UpdateTravelPlan.t)
  : outcome TravelPlan.t * store :=
  match travel_plans st !! plan_id with
  | None => (Raise travel_plan_not_found, st)
  | Some tp =>
    if decide (DBTravelPlan.user_id tp = User.id current_user) then
      let start_date' :=
        setattr_required (UpdateTravelPlan.start_date travel_plan_update)
          (DBTravelPlan.start_date tp) in
      let end_date' :=
        setattr_required (UpdateTravelPlan.end_date travel_plan_update)
          (DBTravelPlan.end_date tp) in
      let budget' :=
        setattr_nullable (UpdateTravelPlan.budget travel_plan_update)
          (DBTravelPlan.budget tp) in
      let status' :=
        setattr_required (UpdateTravelPlan.status travel_plan_update)
          (DBTravelPlan.status tp) in
      let notes' :=
        setattr_nullable (UpdateTravelPlan.notes travel_plan_update)
          (DBTravelPlan.notes tp) in
      let recomputed : option (option Decimal) :=
        match UpdateTravelPlan.budget travel_plan_update, budget' with
        | Some _, Some budget =>
            if truthy budget then
              match provinces st !! DBTravelPlan.province_id tp with
              | Some province => Some (tax_reduction_in_context budget province)
              | None => None
              end
            else None
        | _, _ => None
        end in
      match recomputed with
      | Some None => (Raise DecimalOverflow, st)
      | _ =>
        match start_date', end_date', status' with
        | Some start_date, Some end_date, Some status =>
          let budget_read :=
            match UpdateTravelPlan.budget travel_plan_update with
            | Some _ => Numeric.read_back_nullable budget'
            | None => Some (DBTravelPlan.budget tp)
            end in
          let estimated_read :=
            match recomputed with
            | Some (Some estimated) => Some <$> Numeric.read_back estimated
            | _ => Some (DBTravelPlan.estimated_tax_reduction tp)
            end in
          match budget_read, estimated_read with
          | Some budget, Some estimated =>
            let tp' :=
              DBTravelPlan.mk (DBTravelPlan.id tp) (DBTravelPlan.user_id tp)
                (DBTravelPlan.province_id tp) start_date end_date budget
                estimated status notes' (DBTravelPlan.created_at tp) (Some now) in
            let st' := set_travel_plans st (<[plan_id := tp']> (travel_plans st)) in
            match provinces st' !! DBTravelPlan.province_id tp' with
            | None => (Raise AttributeError, st')
            | Some province => (Return (travel_plan_model tp' province), st')
            end
          | _, _ =>
            match provinces st !! DBTravelPlan.province_id tp with
            | None => (Raise AttributeError, st)
            | Some _ => (Raise ValidationError, st)
            end
          end
        | _, _, _ => (Raise IntegrityError, st)
        end
      end
    else (Raise travel_plan_not_found, st)
  end.

(** [delete_travel_plan]; the answer is the dict [{"message": ...}]. *)
Definition delete_travel_plan (st : store) (current_user : User.t)
    (plan_id : string) : outcome string * store :=
  match travel_plans st !! plan_id with
  | None => (Raise travel_plan_not_found, st)
  | Some tp =>
    if decide (DBTravelPlan.user_id tp = User.id current_user) then
      (Return "Travel plan deleted successfully",
       set_travel_plans st (delete plan_id (travel_plans st)))
    else (Raise travel_plan_not_found, st)
  end.

End TravelRouter.

(** ** python-jose: jwt.encode and jwt.decode with HS256 *)

(** The library called by core/security.py, written down from
    jose/jwt.py and jose/jws.py as far as [verify_token] depends on it:
    the checks of [jws.verify] and of [_validate_claims] with the
    default options, and the time claims kept in whole seconds. *)
Module Jose.

Local Open Scope string_scope.
Local Open Scope Z_scope.

(** A claim value of the JSON payload: a string or an integer. *)
Inductive value : Type :=
  | VStr (s : string)
  | VInt (z : Z).

#[global] Instance value_eq_dec : EqDecision value.
Proof. solve_decision. Defined.

(** A token string: either it splits into the three segments of the
    compact serialisation and they decode to a header naming [alg], a
    JSON object of claims and a signature, or it does not. *)
Inductive token : Type :=
  | Malformed (raw : string)
  | Compact (alg : string) (claims : gmap string value) (signature : string).

Inductive JWTError : Type :=
  | JWSError (reason : string)
  | ExpiredSignatureError
  | JWTClaimsError (reason : string).

(** What the library leaves to the platform: the keyed hash over the
    signing input (header and payload), and Python's [int(s)] on a
    string ([None] for ValueError). *)
Class Backend : Type := {
  sign : string -> string -> gmap string value -> string;
  int_of_str : string -> option Z
}.

(** [timegm(d.utctimetuple())]: whole seconds, the microseconds are
    dropped. *)
Definition timegm (d : Z) : Z := d / 1000000.

Section WithBackend.
Context `{Backend}.

(** [jwt.encode(claims, key, algorithm)]. The expiry is handed over
    as a datetime and is stored as [timegm] of it; this conversion
    is written at the call sites, where the claim is inserted. *)
Definition encode (claims : gmap string value) (key algorithm : string) : token :=
  Compact algorithm claims (sign key algorithm claims).

(** [int(claims[name])] *)
Definition as_int (v : value) : option Z :=
  match v with
  | VInt z => Some z
  | VStr s => int_of_str s
  end.

Definition validate_iat (claims : gmap string value) : option JWTError :=
  match claims !! "iat" with
  | None => None
  | Some v =>
    match as_int v with
    | Some _ => None
    | None => Some (JWTClaimsError "Issued At claim (iat) must be an integer.")
    end
  end.

Definition validate_nbf (now : Z) (claims : gmap string value) : option JWTError :=
  match claims !! "nbf" with
  | None => None
  | Some v =>
    match as_int v with
    | None => Some (JWTClaimsError "Not Before claim (nbf) must be an integer.")
    | Some nbf =>
      if timegm now <? nbf
      then Some (JWTClaimsError "The token is not yet valid (nbf)")
      else None
    end
  end.

(** [_validate_exp]: [if exp < now: raise ExpiredSignatureError],
    both in whole seconds. *)
Definition validate_exp (now : Z) (claims : gmap string value) : option JWTError :=
  match claims !! "exp" with
  | None => None
  | Some v =>
    match as_int v with
    | None => Some (JWTClaimsError "Expiration Time claim (exp) must be an integer.")
    | Some exp => if exp <? timegm now then Some ExpiredSignatureError else None
    end
  end.

(** No audience is passed to [decode], so a token that carries one is
    refused. *)
Definition validate_aud (claims : gmap string value) : option JWTError :=
  match claims !! "aud" with
  | None => None
  | Some (VStr _) => Some (JWTClaimsError "Invalid audience")
  | Some (VInt _) => Some (JWTClaimsError "Invalid claim format in token")
  end.

Definition validate_str (name reason : string) (claims : gmap string value)
  : option JWTError :=
  match claims !! name with
  | Some (VInt _) => Some (JWTClaimsError reason)
  | _ => None
  end.

Definition validate_at_hash (claims : gmap string value) : option JWTError :=
  match claims !! "at_hash" with
  | None => None
  | Some _ =>
    Some (JWTClaimsError "No access_token provided to compare against at_hash claim.")
  end.

(** The first check that fails decides the exception. *)
Fixpoint first_error (checks : list (option JWTError)) : option JWTError :=
  match checks with
  | [] => None
  | Some e :: _ => Some e
  | None :: rest => first_error rest
  end.

(** [_validate_claims] with the default options. *)
Definition validate_claims (now : Z) (claims : gmap string value) : option JWTError :=
  first_error
    [ validate_iat claims;
      validate_nbf now claims;
      validate_exp now claims;
      validate_aud claims;
      validate_str "sub" "Subject must be a string." claims;
      validate_str "jti" "JWT ID must be a string." claims;
      validate_at_hash claims ].

(** [jwt.decode(token, key, algorithms=...)] at clock [now]: the
    claims, or the [JWTError] raised. *)
Definition decode (now : Z) (t : token) (key : string) (algorithms : list string)
  : JWTError + gmap string value :=
  match t with
  | Malformed _ => inl (JWSError "Not enough segments")
  | Compact alg claims signature =>
    if decide (alg ∈ algorithms) then
      if decide (signature = sign key alg claims) then
        match validate_claims now claims with
        | Some e => inl e
        | None => inr claims
        end
      else inl (JWSError "Signature verification failed.")
    else inl (JWSError "The specified alg value is not allowed")
  end.

End WithBackend.

End Jose.

(** ** core/security.py *)

Module Security.

Import Jose.
Local Open Scope string_scope.
Local Open Scope Z_scope.

(** passlib's [pwd_context]: bcrypt with a salt drawn at each call,
    passed here as [salt]. *)
Class CryptContext : Type := {
  pwd_hash : string -> string -> string;
  pwd_verify : string -> string -> bool
}.

Definition ALGORITHM : string := "HS256".
Definition SECRET_KEY : string := "dev-secret-key-replace-in-production".
Definition ACCESS_TOKEN_EXPIRE_MINUTES : Z := 300.
Definition REFRESH_TOKEN_EXPIRE_MINUTES : Z := 10080.

(** [timedelta(minutes=m)] *)
Definition minutes (m : Z) : Z := m * 60000000.

(** The [expire] of both token constructors: [utc_now() + expires_delta]
    under [if expires_delta:], which holds for a timedelta other than
    zero, and [utc_now()] plus the default otherwise. *)
Definition expiry (now : Z) (expires_delta : option Z) (default_minutes : Z) : Z :=
  match expires_delta with
  | Some delta => if delta =? 0 then now + minutes default_minutes else now + delta
  | None => now + minutes default_minutes
  end.

Section WithBackend.
Context `{Backend} `{CryptContext}.

Definition verify_password (plain_password hashed_password : string) : bool :=
  pwd_verify plain_password hashed_password.

Definition get_password_hash (salt password : string) : string :=
  pwd_hash salt password.

(** [create_access_token]; [now] is the clock read by [utc_now()].
    [jwt.encode] stores the datetime under ["exp"] as [timegm] of it. *)
Definition create_access_token (now : Z) (data : gmap string value)
    (expires_delta : option Z) : token :=
  let expire := expiry now expires_delta ACCESS_TOKEN_EXPIRE_MINUTES in
  let to_encode :=
    <["type" := VStr "access"]> (<["exp" := VInt (timegm expire)]> data) in
  encode to_encode SECRET_KEY ALGORITHM.

Definition create_refresh_token (now : Z) (data : gmap string value)
    (expires_delta : option Z) : token :=
  let expire := expiry now expires_delta REFRESH_TOKEN_EXPIRE_MINUTES in
  let to_encode :=
    <["type" := VStr "refresh"]> (<["exp" := VInt (timegm expire)]> data) in
  encode to_encode SECRET_KEY ALGORITHM.

(** [verify_token]; [now] is the clock at verification. The result
    is [payload.get("sub")], or [None]. *)
Definition verify_token (now : Z) (t : token) (token_type : string) : option value :=
  match decode now t SECRET_KEY [ALGORITHM] with
  | inl _ => None
  | inr payload =>
    let username := payload !! "sub" in
    let token_type_claim := payload !! "type" in
    match username with
    | None => None
    | Some u =>
      if decide (token_type_claim = Some (VStr token_type)) then Some u else None
    end
  end.

Definition verify_access_token (now : Z) (t : token) : option value :=
  verify_token now t "access".

Definition verify_refresh_token (now : Z) (t : token) : option value :=
  verify_token now t "refresh".

End WithBackend.

End Security.

(** ** routers/v1/user_router.py *)

Module UserRouter.

Import Jose Security.
Local Open Scope string_scope.
Local Open Scope Z_scope.

(** The two settings read from [core.config.get_settings()]. *)
Class Settings : Type := {
  settings_ACCESS_TOKEN_EXPIRE_MINUTES : Z;
  settings_REFRESH_TOKEN_EXPIRE_MINUTES : Z
}.

(** schemas.UserRegistrationResponse *)
Record UserRegistrationResponse : Type := mkRegistrationResponse {
  reg_user : User.t;
  reg_message : string;
  reg_next_steps : list string
}.

(** schemas.LoginResponse *)
Record LoginResponse : Type := mkLoginResponse {
  access_token : token;
  refresh_token : token;
  token_type : string;
  expires_in : Z;
  user : User.t
}.

(** [models.User(id=db_user.id, ...)]: the public view, without the
    password hash. *)
Definition user_model (u : DBUser.t) : User.t :=
  User.mk (DBUser.id u) (DBUser.email u) (DBUser.username u)
    (DBUser.first_name u) (DBUser.last_name u) (DBUser.phone u)
    (DBUser.date_of_birth u) (DBUser.is_active u) (DBUser.created_at u).

(** The exceptions raised by [register] and [login]. *)
Definition email_already_registered : exn :=
  HTTPException HTTP_400_BAD_REQUEST "Email already registered" None.

Definition username_already_taken : exn :=
  HTTPException HTTP_400_BAD_REQUEST "Username already taken" None.

Definition incorrect_username_or_password : exn :=
  HTTPException HTTP_401_UNAUTHORIZED "Incorrect username or password"
    (Some [("WWW-Authenticate", "Bearer")]).

Definition inactive_user : exn :=
  HTTPException HTTP_400_BAD_REQUEST "Inactive user" None.

(** [select(DBUser).where(DBUser.email == email)] then [.first()] *)
Definition first_by_email (st : store) (email : string) : option DBUser.t :=
  find (fun u => bool_decide (DBUser.email u = email)) (users st).

(** [select(DBUser).where(DBUser.username == username)] then [.first()] *)
Definition first_by_username (st : store) (username : string) : option DBUser.t :=
  find (fun u => bool_decide (DBUser.username u = username)) (users st).

Section WithBackend.
Context `{Backend} `{CryptContext} `{Settings}.

(** [register]; [new_id] is the [uuid4()] of the new row, [now] the
    clock read for [created_at], [salt] the salt drawn by the
    hasher. *)
Definition register (st : store) (new_id : string) (now : Z) (salt : string)
    (user_info : RegisteredUser.t)
  : outcome UserRegistrationResponse * store :=
  match first_by_email st (RegisteredUser.email user_info) with
  | Some _ => (Raise email_already_registered, st)
  | None =>
    match first_by_username st (RegisteredUser.username user_info) with
    | Some _ => (Raise username_already_taken, st)
    | None =>
      let hashed_password :=
        get_password_hash salt (RegisteredUser.password user_info) in
      let db_user :=
        DBUser.mk new_id (RegisteredUser.email user_info)
          (RegisteredUser.username user_info) hashed_password
          (RegisteredUser.first_name user_info)
          (RegisteredUser.last_name user_info)
          (RegisteredUser.phone user_info)
          (RegisteredUser.date_of_birth user_info)
          (RegisteredUser.national_id user_info)
          true now None in
      if existsb (fun u => bool_decide (DBUser.id u = new_id)) (users st)
      then (Raise IntegrityError, st)
      else
        (Return (mkRegistrationResponse (user_model db_user)
                   "User registered successfully"
                   [ "Please verify your email address";
                     "Complete your profile information";
                     "Start planning your first trip" ]),
         set_users st (users st ++ [db_user]))
    end
  end.

(** [login]; the two tokens read the clock one after the other. *)
Definition login (st : store) (now_access now_refresh : Z)
    (user_login : UserLogin.t) : outcome LoginResponse :=
  match first_by_username st (UserLogin.username user_login) with
  | None => Raise incorrect_username_or_password
  | Some u =>
    if negb (verify_password (UserLogin.password user_login)
               (DBUser.hashed_password u))
    then Raise incorrect_username_or_password
    else if negb (DBUser.is_active u)
    then Raise inactive_user
    else
      let access_token_expires := minutes settings_ACCESS_TOKEN_EXPIRE_MINUTES in
      let refresh_token_expires := minutes settings_REFRESH_TOKEN_EXPIRE_MINUTES in
      let data : gmap string value := {[ "sub" := VStr (DBUser.username u) ]} in
      Return (mkLoginResponse
                (create_access_token now_access data (Some access_token_expires))
                (create_refresh_token now_refresh data (Some refresh_token_expires))
                "bearer"
                (settings_ACCESS_TOKEN_EXPIRE_MINUTES * 60)
                (user_model u))
  end.

End WithBackend.

End UserRouter.

(** ** core/deps.py *)

Module Deps.

Import Jose Security.
Local Open Scope string_scope.
Local Open Scope Z_scope.

Definition credentials_exception : exn :=
  HTTPException HTTP_401_UNAUTHORIZED "Could not validate credentials"
    (Some [("WWW-Authenticate", "Bearer")]).

Definition inactive_user : exn :=
  HTTPException HTTP_400_BAD_REQUEST "Inactive user" None.

Section WithBackend.
Context `{Backend}.

(** [get_current_user]; [credentials] is the bearer string of the
    request and [now] the clock at verification. The subject of a
    verified token is a string; the public view built at the end has
    the fields of [UserRouter.user_model]. *)
Definition get_current_user (st : store) (now : Z) (credentials : token)
  : outcome User.t :=
  match verify_token now credentials "access" with
  | None => Raise credentials_exception
  | Some username =>
    let user :=
      match username with
      | VStr s => UserRouter.first_by_username st s
      | VInt _ => None
      end in
    match user with
    | None => Raise credentials_exception
    | Some user =>
      if negb (DBUser.is_active user) then Raise inactive_user
      else Return (UserRouter.user_model user)
    end
  end.

End WithBackend.

(** [get_current_active_user] *)
Definition get_current_active_user (current_user : User.t) : outcome User.t :=
  if negb (User.is_active current_user) then Raise inactive_user
  else Return current_user.

End Deps.

(** ** routers/v1/travel_router.py: the listing and the tax information *)

Module TravelPlanWithTaxInfo.
Record t : Type := mk {
  id : string;
  user_id : string;
  province : Province.t;
  start_date : Z;
  end_date : Z;
  budget : option Decimal;
  estimated_tax_reduction : option Decimal;
  actual_tax_savings : option Decimal;
  status : string;
  notes : option string;
  created_at : Z
}.
End TravelPlanWithTaxInfo.

(** schemas.TravelPlanListResponse. [total_estimated_savings] is
    [Decimal(str(s))] for the float sum [s] of the listed terms, added
    in this order to the int 0; the terms are kept, not the sum. *)
Module TravelPlanListResponse.
Record t : Type := mk {
  travel_plans : list TravelPlan.t;
  total_count : nat;
  total_estimated_savings : list pyfloat;
  plans_by_status : gmap string nat;
  upcoming_trips : list TravelPlan.t
}.
End TravelPlanListResponse.

Module TravelRouterRead.

Import TravelRouter.
Local Open Scope string_scope.
Local Open Scope Z_scope.

(** The rows of [select(DBTravelPlan, DBProvince).join(DBProvince)]:
    each plan with the province its foreign key names; a plan whose
    province is missing has no row. The rows come in the order of the
    table scan, which SQL leaves open: here the order of
    [map_to_list]. *)
Definition joined_rows (st : store) : list (DBTravelPlan.t * DBProvince.t) :=
  omap (fun entry : string * DBTravelPlan.t =>
          match provinces st !! DBTravelPlan.province_id (snd entry) with
          | Some province => Some (snd entry, province)
          | None => None
          end)
       (map_to_list (travel_plans st)).

(** [order_by(DBTravelPlan.created_at.desc())] *)
Definition created_later_first (a b : DBTravelPlan.t * DBProvince.t) : Prop :=
  DBTravelPlan.created_at (fst b) <= DBTravelPlan.created_at (fst a).

#[global] Instance created_later_first_dec a b : Decision (created_later_first a b).
Proof. unfold created_later_first. apply _. Defined.

(** The query of [get_user_travel_plans]: the rows of the caller, those
    of status [status_filter] when the filter is a non-empty string
    ([if status_filter:]), latest creation first. *)
Definition user_plan_rows (st : store) (current_user : User.t)
    (status_filter : option string) : list (DBTravelPlan.t * DBProvince.t) :=
  let owned :=
    filter (fun row : DBTravelPlan.t * DBProvince.t =>
              DBTravelPlan.user_id (fst row) = User.id current_user)
           (joined_rows st) in
  let filtered :=
    match status_filter with
    | Some s =>
        if decide (s = "") then owned
        else filter (fun row : DBTravelPlan.t * DBProvince.t =>
                       DBTravelPlan.status (fst row) = s) owned
    | None => owned
    end in
  merge_sort created_later_first filtered.

(** [plans_by_status[status] = plans_by_status.get(status, 0) + 1] *)
Definition count_status (plans_by_status : gmap string nat) (tp : TravelPlan.t)
  : gmap string nat :=
  <[TravelPlan.status tp := S (default 0%nat (plans_by_status !! TravelPlan.status tp))]>
    plans_by_status.

(** The comprehension of [upcoming_trips]: [utc_now()] is read once for
    each plan, [clock i] being the read for the plan at index [i]. *)
Fixpoint upcoming (clock : nat -> Z) (i : nat) (tps : list TravelPlan.t)
  : list TravelPlan.t :=
  match tps with
  | [] => []
  | tp :: rest =>
    if (clock i <? TravelPlan.start_date tp)
       && bool_decide (TravelPlan.status tp ∈ ["planned"; "confirmed"])
    then tp :: upcoming clock (S i) rest
    else upcoming clock (S i) rest
  end.

(** [get_user_travel_plans] *)
Definition get_user_travel_plans (st : store) (clock : nat -> Z)
    (current_user : User.t) (status_filter : option string)
  : TravelPlanListResponse.t :=
  let travel_plans :=
    map (fun row : DBTravelPlan.t * DBProvince.t =>
           travel_plan_model (fst row) (snd row))
        (user_plan_rows st current_user status_filter) in
  let total_savings :=
    map (fun tp => float_or_0 (TravelPlan.estimated_tax_reduction tp)) travel_plans in
  let plans_by_status := foldl count_status ∅ travel_plans in
  let upcoming_trips := upcoming clock 0 travel_plans in
  TravelPlanListResponse.mk travel_plans (length travel_plans) total_savings
    plans_by_status (take 5 upcoming_trips).

(** [get_travel_plan_tax_info]. The budget and the rate of the product
    were both read from Numeric columns: numbers within the binary64
    range written with ten decimals, whose product is far from the
    exponent limits of the context. *)
Definition get_travel_plan_tax_info (st : store) (current_user : User.t)
    (plan_id : string) : outcome TravelPlanWithTaxInfo.t :=
  match travel_plans st !! plan_id with
  | None => Raise travel_plan_not_found
  | Some tp =>
    if decide (DBTravelPlan.user_id tp = User.id current_user) then
      match provinces st !! DBTravelPlan.province_id tp with
      | None => Raise travel_plan_not_found
      | Some province =>
        let actual_tax_savings :=
          match DBTravelPlan.budget tp with
          | Some budget =>
              if truthy budget && bool_decide (DBTravelPlan.status tp = "completed")
              then Some (tax_reduction budget province)
              else None
          | None => None
          end in
        Return (TravelPlanWithTaxInfo.mk (DBTravelPlan.id tp) (DBTravelPlan.user_id tp)
                  (province_model province)
                  (DBTravelPlan.start_date tp) (DBTravelPlan.end_date tp)
                  (DBTravelPlan.budget tp) (DBTravelPlan.estimated_tax_reduction tp)
                  actual_tax_savings
                  (DBTravelPlan.status tp) (DBTravelPlan.notes tp)
                  (DBTravelPlan.created_at tp))
      end
    else Raise travel_plan_not_found
  end.

End TravelRouterRead.

(** ** routers/v1/user_router.py: profile and password *)

Module ChangedPassword.
Record t : Type := mk {
  old_password : string;
  new_password : string
}.
End ChangedPassword.

(** As for [UpdateTravelPlan]: [None] for a field the request did not
    mention, [Some None] for null, [Some (Some v)] for a value. *)
Module UpdatedUser.
Record t : Type := mk {
  first_name : option (option string);
  last_name : option (option string);
  phone : option (option string);
  date_of_birth : option (option Z)
}.
End UpdatedUser.

Module UserRouterAccount.

Import Security UserRouter.
Local Open Scope string_scope.
Local Open Scope Z_scope.

Definition HTTP_403_FORBIDDEN : Z := 403.

Definition not_enough_permissions : exn :=
  HTTPException HTTP_403_FORBIDDEN "Not enough permissions" None.

Definition user_not_found : exn :=
  HTTPException HTTP_404_NOT_FOUND "User not found" None.

Definition incorrect_old_password : exn :=
  HTTPException HTTP_400_BAD_REQUEST "Incorrect old password" None.

(** [session.get(models.DBUser, user_id)] *)
Definition get_by_id (st : store) (user_id : string) : option DBUser.t :=
  find (fun u => bool_decide (DBUser.id u = user_id)) (users st).

(** [session.add(user)] and [commit] for a row read by [session.get]:
    the UPDATE of the rows with the primary key of [user]. *)
Definition save_user (st : store) (user : DBUser.t) : store :=
  set_users st
    (map (fun u => if bool_decide (DBUser.id u = DBUser.id user) then user else u)
         (users st)).

(** [get_me] *)
Definition get_me (current_user : User.t) : User.t := current_user.

(** [get_user]: any authenticated caller reads any user by id. *)
Definition get_user (st : store) (current_user : User.t) (user_id : string)
  : outcome User.t :=
  match get_by_id st user_id with
  | None => Raise user_not_found
  | Some user => Return (user_model user)
  end.

Section WithBackend.
Context `{CryptContext}.

(** [change_password]; [now] is the clock read for [updated_at] and
    [salt] the salt drawn by the hasher. The answer is the dict
    [{"message": ...}]. *)
Definition change_password (st : store) (now : Z) (salt : string)
    (current_user : User.t) (user_id : string) (password_update : ChangedPassword.t)
  : outcome string * store :=
  if decide (User.id current_user = user_id) then
    match get_by_id st user_id with
    | None => (Raise user_not_found, st)
    | Some user =>
      if negb (verify_password (ChangedPassword.old_password password_update)
                 (DBUser.hashed_password user))
      then (Raise incorrect_old_password, st)
      else
        let user' :=
          DBUser.mk (DBUser.id user) (DBUser.email user) (DBUser.username user)
            (get_password_hash salt (ChangedPassword.new_password password_update))
            (DBUser.first_name user) (DBUser.last_name user) (DBUser.phone user)
            (DBUser.date_of_birth user) (DBUser.national_id user)
            (DBUser.is_active user) (DBUser.created_at user) (Some now) in
        (Return "Password updated successfully", save_user st user')
    end
  else (Raise not_enough_permissions, st).

End WithBackend.

(** [update_user]; the loop over [update_data.items()] is written out
    field by field; [first_name] and [last_name] are NOT NULL
    columns. *)
Definition update_user (st : store) (now : Z) (current_user : User.t)
    (user_id : string) (user_update : UpdatedUser.t) : outcome User.t * store :=
  if decide (User.id current_user = user_id) then
    match get_by_id st user_id with
    | None => (Raise user_not_found, st)
    | Some user =>
      let first_name' :=
        TravelRouter.setattr_required (UpdatedUser.first_name user_update)
          (DBUser.first_name user) in
      let last_name' :=
        TravelRouter.setattr_required (UpdatedUser.last_name user_update)
          (DBUser.last_name user) in
      let phone' :=
        TravelRouter.setattr_nullable (UpdatedUser.phone user_update)
          (DBUser.phone user) in
      let date_of_birth' :=
        TravelRouter.setattr_nullable (UpdatedUser.date_of_birth user_update)
          (DBUser.date_of_birth user) in
      match first_name', last_name' with
      | Some first_name, Some last_name =>
        let user' :=
          DBUser.mk (DBUser.id user) (DBUser.email user) (DBUser.username user)
            (DBUser.hashed_password user) first_name last_name phone' date_of_birth'
            (DBUser.national_id user) (DBUser.is_active user)
            (DBUser.created_at user) (Some now) in
        (Return (user_model user'), save_user st user')
      | _, _ => (Raise IntegrityError, st)
      end
    end
  else (Raise not_enough_permissions, st).

End UserRouterAccount.

(** ** routers/v1/province_router.py *)

(** The [metadata] dict of the province listing. *)
Module ProvinceListMetadata.
Record filter_applied_t : Type := mkFilterApplied {
  region : option string;
  secondary_only : option bool
}.
Record t : Type := mk {
  description : string;
  last_updated : string;
  filter_applied : filter_applied_t
}.
End ProvinceListMetadata.

(** schemas.ProvinceListResponse *)
Module ProvinceListResponse.
Record t : Type := mk {
  provinces : list Province.t;
  total_count : nat;
  secondary_province_count : nat;
  regions : list string;
  metadata : ProvinceListMetadata.t
}.
End ProvinceListResponse.

Module ProvinceRouter.

Import TravelRouter.
Local Open Scope string_scope.
Local Open Scope Z_scope.

(** [order_by(tax_reduction_percentage.desc(), name_th)]: the higher
    rate first, rates compared as numbers; among equal rates the names
    in the order of their bytes (the binary collation). *)
Definition listed_before (a b : DBProvince.t) : bool :=
  let ra := to_Q (DBProvince.tax_reduction_percentage a) in
  let rb := to_Q (DBProvince.tax_reduction_percentage b) in
  negb (Qle_bool ra rb)
  || (Qeq_bool ra rb && String.leb (DBProvince.name_th a) (DBProvince.name_th b)).

Definition listing_order (a b : DBProvince.t) : Prop := listed_before a b = true.

#[global] Instance listing_order_dec a b : Decision (listing_order a b).
Proof. unfold listing_order. apply _. Defined.

(** [sorted(...)] on strings. *)
Definition string_le (a b : string) : Prop := String.leb a b = true.

#[global] Instance string_le_dec a b : Decision (string_le a b).
Proof. unfold string_le. apply _. Defined.

(** The rows of [select(models.DBProvince)], in the order of the table
    scan (here that of [map_to_list]). *)
Definition province_rows (st : store) : list DBProvince.t :=
  map snd (map_to_list (provinces st)).

(** The query of [get_all_provinces]: [if region:] holds for a
    non-empty string, [if secondary_only is not None:] for both
    booleans. *)
Definition listed_rows (st : store) (region : option string)
    (secondary_only : option bool) : list DBProvince.t :=
  let by_region :=
    match region with
    | Some r =>
        if decide (r = "") then province_rows st
        else filter (fun p => DBProvince.region p = r) (province_rows st)
    | None => province_rows st
    end in
  let by_kind :=
    match secondary_only with
    | Some flag => filter (fun p => DBProvince.is_secondary_province p = flag) by_region
    | None => by_region
    end in
  merge_sort listing_order by_kind.

(** [get_all_provinces] *)
Definition get_all_provinces (st : store) (region : option string)
    (secondary_only : option bool) : ProvinceListResponse.t :=
  let provinces := listed_rows st region secondary_only in
  let provinces_list := map province_model provinces in
  let secondary_count :=
    length (filter (fun p => DBProvince.is_secondary_province p = true) provinces) in
  let all_regions := remove_dups (map DBProvince.region provinces) in
  ProvinceListResponse.mk provinces_list (length provinces_list) secondary_count
    (merge_sort string_le all_regions)
    (ProvinceListMetadata.mk
       "List of Thai provinces with tax reduction information" "2025-07-13"
       (ProvinceListMetadata.mkFilterApplied region secondary_only)).

(** [get_regions]: [select(models.DBProvince.region).distinct()], then
    [sorted]. *)
Definition get_regions (st : store) : list string :=
  merge_sort string_le (remove_dups (map DBProvince.region (province_rows st))).

(** [get_province] *)
Definition get_province (st : store) (province_id : Z) : outcome Province.t :=
  match provinces st !! province_id with
  | None => Raise (not_found "Province not found")
  | Some province => Return (province_model province)
  end.

End ProvinceRouter.

(** ** core/database.py: the seed of the province table *)

Module Database.

Local Open Scope string_scope.
Local Open Scope Z_scope.

Definition provinces_data : list DBProvince.t :=
  [ DBProvince.mk 1 "แม่ฮ่องสอน" "Mae Hong Son" "North" true
      (mkDec 1500 (-2)) (Some "จังหวัดชายแดนภาคเหนือ");
    DBProvince.mk 2 "ตาก" "Tak" "North" true
      (mkDec 1200 (-2)) (Some "จังหวัดชายแดนภาคเหนือ");
    DBProvince.mk 3 "กาญจนบุรี" "Kanchanaburi" "West" true
      (mkDec 1000 (-2)) (Some "จังหวัดภาคตะวันตก");
    DBProvince.mk 4 "เพชรบุรี" "Phetchaburi" "Central" true
      (mkDec 800 (-2)) (Some "จังหวัดภาคกลาง");
    DBProvince.mk 5 "ประจุมบคีรีขันธ์" "Prachuap Khiri Khan" "Central" true
      (mkDec 1000 (-2)) (Some "จังหวัดภาคกลางตอนล่าง");
    DBProvince.mk 6 "เชียงใหม่" "Chiang Mai" "North" false
      (mkDec 500 (-2)) (Some "จังหวัดใหญ่ภาคเหนือ");
    DBProvince.mk 7 "กรุงเทพมหานคร" "Bangkok" "Central" false
      (mkDec 0 (-2)) (Some "เมืองหลวง");
    DBProvince.mk 8 "ภูเก็ต" "Phuket" "South" false
      (mkDec 300 (-2)) (Some "จังหวัดท่องเที่ยวภาคใต้");
    DBProvince.mk 9 "ขอนแก่น" "Khon Kaen" "Northeast" false
      (mkDec 600 (-2)) (Some "จังหวัดใหญ่ภาคอีสาน");
    DBProvince.mk 10 "อุดรธานี" "Udon Thani" "Northeast" true
      (mkDec 800 (-2)) (Some "จังหวัดชายแดนภาคอีสาน") ].

(** [session.add(province)] for a row with an explicit primary key. *)
Definition add_province (table : gmap Z DBProvince.t) (province : DBProvince.t)
  : gmap Z DBProvince.t :=
  <[DBProvince.id province := province]> table.

(** [init_provinces_data]: the rows are added only when the table is
    empty ([if not existing_provinces:]). *)
Definition init_provinces_data (st : store) : store :=
  if decide (map_to_list (provinces st) = [])
  then mkStore (users st) (foldl add_province (provinces st) provinces_data)
         (travel_plans st)
  else st.

End Database.

(** ** Invariants of the store *)

(** Primary keys and foreign keys: a plan is stored under its own id
    and names a province of the catalogue; a province is stored under
    its own id. *)
Definition store_keys_consistent (st : store) : Prop :=
  (forall plan_id tp,
      travel_plans st !! plan_id = Some tp ->
      DBTravelPlan.id tp = plan_id
      /\ is_Some (provinces st !! DBTravelPlan.province_id tp))
  /\ (forall province_id province,
      provinces st !! province_id = Some province ->
      DBProvince.id province = province_id).

(** The unique columns of [DBUser]: the primary key, the email and the
    username. *)
Definition users_unique (st : store) : Prop :=
  NoDup (map DBUser.id (users st))
  /\ NoDup (map DBUser.email (users st))
  /\ NoDup (map DBUser.username (users st)).

(** ** Reading the store back *)

(** The reduction stored for plan [plan_id], when the plan is there. *)
Definition stored_estimate (st : store) (plan_id : string) : option (option Decimal) :=
  DBTravelPlan.estimated_tax_reduction <$> travel_plans st !! plan_id.



(** ** Fixtures of tests/conftest.py, and a backend to run examples with *)

Module Fixtures.

Local Open Scope string_scope.
Local Open Scope Z_scope.

Definition mae_hong_son : DBProvince.t :=
  DBProvince.mk 1001 "แม่ฮ่องสอน" "Mae Hong Son" "North" true
    (mkDec 1500 (-2)) (Some "จังหวัดชายแดนภาคเหนือ").

Definition bangkok : DBProvince.t :=
  DBProvince.mk 1002 "กรุงเทพมหานคร" "Bangkok" "Central" false
    (mkDec 0 (-2)) (Some "เมืองหลวง").

(** The keyed hash and the password hasher are stand-ins: any
    functions of these types can take their place. *)
Definition test_backend : Jose.Backend :=
  {| Jose.sign := fun key alg claims => key ++ "." ++ alg;
     Jose.int_of_str := fun _ => None |}.

Definition test_crypt_context : Security.CryptContext :=
  {| Security.pwd_hash := fun salt password => salt ++ "$" ++ password;
     Security.pwd_verify := fun plain hashed =>
       bool_decide (hashed = "salt$" ++ plain) |}.

Definition test_settings : UserRouter.Settings :=
  {| UserRouter.settings_ACCESS_TOKEN_EXPIRE_MINUTES := 300;
     UserRouter.settings_REFRESH_TOKEN_EXPIRE_MINUTES := 10080 |}.

Definition test_user : DBUser.t :=
  DBUser.mk "user-1" "test@example.com" "testuser" "salt$testpassword"
    "Test" "User" None None None true 0 None.

Definition other_user : DBUser.t :=
  DBUser.mk "user-2" "other@example.com" "otheruser" "salt$otherpassword"
    "Other" "User" None None None true 0 None.

(** A plan of [test_user]: budget 10000 in Mae Hong Son (15.00%). *)
Definition test_plan : DBTravelPlan.t :=
  DBTravelPlan.mk "plan-1" "user-1" 1001 1754006400000000 1754524800000000
    (Some (mkDec 10000 0)) (Some (mkDec 150000 (-2))) "planned" None 0 None.

Definition test_store : store :=
  mkStore [test_user; other_user]
    (<[1001 := mae_hong_son]> (<[1002 := bangkok]> ∅))
    (<["plan-1" := test_plan]> ∅).

(** A creation request for Mae Hong Son with the given budget. *)
Definition create_request (budget : option Decimal) : CreateTravelPlan.t :=
  CreateTravelPlan.mk 1001 1754006400000000 1754524800000000 budget None.

(** An update request that sets nothing. *)
Definition empty_update : UpdateTravelPlan.t :=
  UpdateTravelPlan.mk None None None None None.

End Fixtures.

(** * Properties *)

(** ** Decimal arithmetic within the context precision *)

Module DecFacts.

Example fix_small : fix_ (mkDec 1500 (-2)) = mkDec 1500 (-2).
Proof. reflexivity. Qed.

Example mul_15pct :
  eqb (mul (mkDec 10000 0) (div100 (mkDec 1500 (-2)))) (mkDec 150000 (-2)) = true.
Proof. reflexivity. Qed.

Example fix_half_to_even_down :
  fix_ (mkDec 12345678901234567890123456785 0)
  = mkDec 1234567890123456789012345678 1.
Proof. vm_compute. reflexivity. Qed.

Example fix_half_to_even_up :
  fix_ (mkDec 12345678901234567890123456775 0)
  = mkDec 1234567890123456789012345678 1.
Proof. vm_compute. reflexivity. Qed.

Example fix_carry :
  fix_ (mkDec (-99999999999999999999999999995) 3)
  = mkDec (-1000000000000000000000000000) 5.
Proof. vm_compute. reflexivity. Qed.

(** A coefficient that fits the precision is left alone. *)
Lemma fix_id (d : Decimal) : Z.abs (coef d) < 10 ^ prec -> fix_ d = d.
Proof.
  intros Hfit. unfold fix_.
  destruct (Z.ltb_spec (Z.abs (coef d)) (10 ^ prec)) as [_ | Hge]; [reflexivity | lia].
Qed.

(** [ndigits] counts the decimal digits. *)
Lemma ndigits_fuel_spec (fuel : nat) : forall n,
  0 < n -> n < 2 ^ (Z.of_nat fuel + 1) ->
  1 <= ndigits_fuel fuel n /\ 10 ^ (ndigits_fuel fuel n - 1) <= n < 10 ^ ndigits_fuel fuel n.
Proof.
  induction fuel as [| f IH]; intros n Hpos Hlt.
  - cbn in *. lia.
  - cbn [ndigits_fuel]. destruct (Z.ltb_spec n 10) as [Hsmall | Hbig].
    + cbn. lia.
    + assert (Hq : 0 < n / 10) by (apply Z.div_str_pos; lia).
      assert (Hqlt : n / 10 < 2 ^ (Z.of_nat f + 1)).
      { replace (Z.of_nat (S f) + 1) with (Z.succ (Z.of_nat f + 1)) in Hlt by lia.
        rewrite Z.pow_succ_r in Hlt by lia.
        apply Z.div_lt_upper_bound; lia. }
      destruct (IH (n / 10) Hq Hqlt) as (Hd & Hlo & Hhi).
      set (d := ndigits_fuel f (n / 10)) in *.
      assert (H1 : 10 ^ (1 + d - 1) = 10 * 10 ^ (d - 1)).
      { replace (1 + d - 1) with (Z.succ (d - 1)) by lia. apply Z.pow_succ_r. lia. }
      assert (H2 : 10 ^ (1 + d) = 10 * 10 ^ d).
      { replace (1 + d) with (Z.succ d) by lia. apply Z.pow_succ_r. lia. }
      rewrite H1, H2.
      pose proof (Z.div_mod n 10 ltac:(lia)) as Hdm.
      pose proof (Z.mod_pos_bound n 10 ltac:(lia)) as Hm.
      split; [lia |]. lia.
Qed.

Lemma ndigits_spec n : 0 < n -> 1 <= ndigits n /\ 10 ^ (ndigits n - 1) <= n < 10 ^ ndigits n.
Proof.
  intros Hpos. unfold ndigits. apply ndigits_fuel_spec; [exact Hpos |].
  rewrite Z2Nat.id by apply Z.log2_nonneg.
  replace (Z.log2 n + 1) with (Z.succ (Z.log2 n)) by lia.
  apply Z.log2_spec. exact Hpos.
Qed.

(** [round_half_even] picks a neighbour of [n / 10 ^ k] that is nearest
    to [n]. *)
Lemma round_half_even_nearest (n k : Z) :
  0 <= n -> 1 <= k ->
  n / 10 ^ k <= round_half_even n k <= n / 10 ^ k + 1
  /\ 2 * Z.abs (round_half_even n k * 10 ^ k - n) <= 10 ^ k.
Proof.
  intros Hn Hk. unfold round_half_even.
  assert (Hp : 10 ^ k = 10 * 10 ^ (k - 1)).
  { replace k with (Z.succ (k - 1)) at 1 by lia. apply Z.pow_succ_r. lia. }
  assert (Hp1 : 0 < 10 ^ (k - 1)) by (apply Z.pow_pos_nonneg; lia).
  pose proof (Z.div_mod n (10 ^ k) ltac:(lia)) as Hdm.
  pose proof (Z.mod_pos_bound n (10 ^ k) ltac:(lia)) as Hm.
  set (q := n / 10 ^ k) in *. set (r := n mod 10 ^ k) in *.
  set (p1 := 10 ^ (k - 1)) in *. rewrite Hp in *. 
  destruct (Z.ltb_spec (5 * p1) r) as [Hgt | Hle]; cbn [orb].
  - split; [lia |]. lia.
  - destruct (Z.eqb_spec r (5 * p1)) as [Heq | Hne]; cbn [andb].
    + destruct (Z.odd q); (split; [lia |]); lia.
    + split; [lia |]. lia.
Qed.

(** Beyond the precision, [fix_] returns a coefficient of exactly
    [prec] digits, and the number it returns is a nearest one: it is
    off by at most half a unit of the last digit kept. *)
Lemma fix_rounds (d : Decimal) :
  10 ^ prec <= Z.abs (coef d) ->
  let k := ndigits (Z.abs (coef d)) - prec in
  1 <= k
  /\ 10 ^ (prec - 1) <= Z.abs (coef (fix_ d)) < 10 ^ prec
  /\ 2 * Z.abs (coef (fix_ d) * 10 ^ (dexp (fix_ d) - dexp d) - coef d) <= 10 ^ k.
Proof.
  intros Hbig k. set (n := Z.abs (coef d)) in *.
  assert (Hnpos : 0 < n) by (assert (0 < 10 ^ prec) by (apply Z.pow_pos_nonneg; unfold prec; lia); lia).
  destruct (ndigits_spec n Hnpos) as (Hd1 & Hlo & Hhi).
  assert (Hk : 1 <= k).
  { subst k. assert (prec < ndigits n); [| lia].
    apply (Z.pow_lt_mono_r_iff 10); lia. }
  destruct (round_half_even_nearest n k ltac:(lia) Hk) as ((Hq1 & Hq2) & Hnear).
  assert (Hsplit : 10 ^ ndigits n = 10 ^ prec * 10 ^ k).
  { rewrite <- Z.pow_add_r by (unfold prec; lia). f_equal. subst k. lia. }
  assert (Hsplit1 : 10 ^ (ndigits n - 1) = 10 ^ (prec - 1) * 10 ^ k).
  { rewrite <- Z.pow_add_r by (unfold prec; lia). f_equal. subst k. lia. }
  assert (Hpk : 0 < 10 ^ k) by (apply Z.pow_pos_nonneg; lia).
  assert (Hqhi : n / 10 ^ k < 10 ^ prec).
  { apply Z.div_lt_upper_bound; lia. }
  assert (Hqlo : 10 ^ (prec - 1) <= n / 10 ^ k).
  { apply Z.div_le_lower_bound; lia. }
  assert (Hp27 : 10 ^ prec = 10 * 10 ^ (prec - 1)) by reflexivity.
  assert (Hsgn : Z.sgn (coef d) * n = coef d) by (subst n; lia).
  assert (Hs1 : Z.sgn (coef d) = 1 \/ Z.sgn (coef d) = -1) by (subst n; lia).
  split; [exact Hk |].
  unfold fix_. fold n. fold k.
  destruct (Z.ltb_spec n (10 ^ prec)) as [Habs | _]; [lia |].
  set (q := round_half_even n k) in *.
  destruct (Z.eqb_spec q (10 ^ prec)) as [Hcarry | Hno]; cbn [coef dexp].
  - split.
    + destruct Hs1 as [-> | ->]; lia.
    + replace (dexp d + k + 1 - dexp d) with (Z.succ k) by lia.
      rewrite Z.pow_succ_r by lia.
      replace (Z.sgn (coef d) * 10 ^ (prec - 1) * (10 * 10 ^ k) - coef d)
        with (Z.sgn (coef d) * (q * 10 ^ k - n)) by (rewrite Hcarry, Hp27; lia).
      rewrite Z.abs_mul. destruct Hs1 as [-> | ->]; cbn; lia.
  - split.
    + destruct Hs1 as [-> | ->]; lia.
    + replace (dexp d + k - dexp d) with k by lia.
      replace (Z.sgn (coef d) * q * 10 ^ k - coef d)
        with (Z.sgn (coef d) * (q * 10 ^ k - n)) by lia.
      rewrite Z.abs_mul. destruct Hs1 as [-> | ->]; cbn; lia.
Qed.

Lemma ten_neq_0 : ~ (10 # 1 == 0)%Q.
Proof. discriminate. Qed.

Lemma to_Q_product (a b : Decimal) :
  (to_Q (mkDec (coef a * coef b) (dexp a + dexp b)) == to_Q a * to_Q b)%Q.
Proof.
  unfold to_Q; cbn [coef dexp].
  rewrite inject_Z_mult, (Qpower_plus _ _ _ ten_neq_0). ring.
Qed.

Lemma to_Q_shift2 (a : Decimal) :
  (to_Q (mkDec (coef a) (dexp a - 2)) == to_Q a / (100 # 1))%Q.
Proof.
  unfold to_Q; cbn [coef dexp].
  replace (dexp a - 2) with (dexp a + (-2)) by lia.
  rewrite (Qpower_plus _ _ _ ten_neq_0).
  change ((10 # 1) ^ (-2))%Q with (/ (100 # 1))%Q.
  unfold Qdiv. ring.
Qed.

Lemma to_Q_zero (d : Decimal) : coef d = 0 -> (to_Q d == 0)%Q.
Proof. intros Hz. unfold to_Q. rewrite Hz. ring. Qed.

(** Within the precision, [a / 100] and [a * b] are exact. *)
Lemma div100_exact (a : Decimal) :
  Z.abs (coef a) < 10 ^ prec -> div100 a = mkDec (coef a) (dexp a - 2).
Proof. intros Hfit. unfold div100. now apply fix_id. Qed.

Lemma mul_exact (a b : Decimal) :
  Z.abs (coef a * coef b) < 10 ^ prec ->
  mul a b = mkDec (coef a * coef b) (dexp a + dexp b).
Proof. intros Hfit. unfold mul. now apply fix_id. Qed.

(** Within the precision and the exponent limits, [_fix] leaves the
    number alone; a zero stays a zero. *)
Lemma fix_in_context_exact (d : Decimal) :
  coef d <> 0 -> Z.abs (coef d) < 10 ^ prec -> Etiny <= dexp d <= Etop ->
  fix_in_context d = Some d.
Proof.
  intros Hnz Hfit Hexp. unfold fix_in_context.
  destruct (Z.eqb_spec (Z.abs (coef d)) 0) as [Habs | _]; [lia |].
  destruct (ndigits_spec (Z.abs (coef d)) ltac:(lia)) as (_ & Hlo & _).
  assert (Hdigits : ndigits (Z.abs (coef d)) <= prec).
  { assert (ndigits (Z.abs (coef d)) - 1 < prec); [| lia].
    apply (Z.pow_lt_mono_r_iff 10); [lia | unfold prec; lia | lia]. }
  destruct (Z.ltb_spec Etop (ndigits (Z.abs (coef d)) + dexp d - prec)); [lia |].
  destruct (Z.ltb_spec (dexp d)
              (Z.max (ndigits (Z.abs (coef d)) + dexp d - prec) Etiny)); [lia |].
  reflexivity.
Qed.

(** At the limits: [Decimal("1E+1000001") * Decimal("0.1500")] raises
    Overflow, and [Decimal("1E-1000026") * Decimal("0.1500")] is the
    subnormal zero [0E-1000026]. *)
Example mul_in_context_overflow :
  mul_in_context (mkDec 1 1000001) (mkDec 1500 (-4)) = None.
Proof. vm_compute. reflexivity. Qed.

Example mul_in_context_underflow :
  mul_in_context (mkDec 1 (-1000026)) (mkDec 1500 (-4)) = Some (mkDec 0 (-1000026)).
Proof. vm_compute. reflexivity. Qed.

Lemma fix_in_context_zero (d : Decimal) :
  coef d = 0 -> exists e, fix_in_context d = Some (mkDec 0 e).
Proof.
  intros Hz. unfold fix_in_context. rewrite Hz. cbn [Z.abs Z.eqb]. eauto.
Qed.

End DecFacts.

(** ** Rounding to binary64 *)

Module FloatFacts.

Import Float.

Lemma nearest_even_near (n d : Z) :
  0 <= n -> 0 < d ->
  0 <= nearest_even n d /\ 2 * Z.abs (nearest_even n d * d - n) <= d.
Proof.
  intros Hn Hd. unfold nearest_even.
  pose proof (Z.div_mod n d ltac:(lia)) as Hdm.
  pose proof (Z.mod_pos_bound n d Hd) as Hm.
  assert (Hq : 0 <= n / d) by (apply Z.div_pos; lia).
  set (q := n / d) in *. set (r := n mod d) in *.
  destruct (Z.ltb_spec d (2 * r)); cbn [orb].
  - split; [lia |]. nia.
  - destruct (Z.eqb_spec (2 * r) d); cbn [andb].
    + destruct (Z.odd q); (split; [lia |]); nia.
    + split; [lia |]. nia.
Qed.

Lemma nearest_even_unique (n d N : Z) :
  0 <= n -> 0 < d -> 2 * Z.abs (N * d - n) < d -> nearest_even n d = N.
Proof.
  intros Hn Hd Hnear. unfold nearest_even.
  pose proof (Z.div_mod n d ltac:(lia)) as Hdm.
  pose proof (Z.mod_pos_bound n d Hd) as Hm.
  set (q := n / d) in *. set (r := n mod d) in *.
  assert (Hcases : N <= q - 1 \/ N = q \/ N = q + 1 \/ q + 2 <= N) by lia.
  destruct (Z.ltb_spec d (2 * r)); cbn [orb].
  - destruct Hcases as [Hc | [Hc | [Hc | Hc]]]; nia.
  - destruct (Z.eqb_spec (2 * r) d); cbn [andb].
    + exfalso. destruct Hcases as [Hc | [Hc | [Hc | Hc]]]; nia.
    + destruct Hcases as [Hc | [Hc | [Hc | Hc]]]; nia.
Qed.

Lemma floor_log2_below (n d k : Z) :
  0 < n -> 0 < d -> 0 <= k -> n < d * 2 ^ k -> floor_log2 n d <= k - 1.
Proof.
  intros Hn Hd Hk Hlt. unfold floor_log2.
  destruct (Z.log2_spec n Hn) as [Hn1 Hn2].
  destruct (Z.log2_spec d Hd) as [Hd1 Hd2].
  pose proof (Z.log2_nonneg n) as Hln. pose proof (Z.log2_nonneg d) as Hld.
  set (a := Z.log2 n) in *. set (b := Z.log2 d) in *. clearbody a b.
  assert (Hcases : a - b <= k - 1 \/ a - b = k \/ k + 1 <= a - b) by lia.
  destruct Hcases as [Hsmall | [Heq | Hbig]].
  - destruct (scaled n d (a - b)) as [n1 d1]. clear - Hsmall. destruct (d1 <=? n1); lia.
  - rewrite Heq. unfold scaled. destruct (Z.leb_spec 0 k) as [_ | ?]; [| lia].
    destruct (Z.leb_spec (d * 2 ^ k) n); lia.
  - exfalso.
    assert (Hpa : 2 ^ a = 2 ^ (a - b) * 2 ^ b).
    { rewrite <- Z.pow_add_r by lia. f_equal. lia. }
    assert (Hpk : 2 ^ k <= 2 ^ (a - b - 1)) by (apply Z.pow_le_mono_r; lia).
    assert (Hp1 : 2 ^ (a - b) = 2 * 2 ^ (a - b - 1)).
    { replace (a - b) with (Z.succ (a - b - 1)) at 1 by lia. apply Z.pow_succ_r. lia. }
    assert (Hb1 : 2 ^ (Z.succ b) = 2 * 2 ^ b) by (apply Z.pow_succ_r; lia).
    assert (0 < 2 ^ b) by (apply Z.pow_pos_nonneg; lia).
    assert (0 < 2 ^ k) by (apply Z.pow_pos_nonneg; lia).
    assert (0 < 2 ^ (a - b - 1)) by (apply Z.pow_pos_nonneg; lia).
    assert (Hlow : d * 2 ^ k < n); [| lia].
    apply Z.lt_le_trans with (2 * 2 ^ b * 2 ^ (a - b - 1)); [| nia].
    apply Z.lt_le_trans with (2 * 2 ^ b * 2 ^ k); nia.
Qed.

Lemma of_ratio_below (n d k : Z) :
  0 < n -> 0 < d -> 0 <= k <= 1023 -> n < d * 2 ^ k ->
  exists m p,
    of_ratio n d = Some (m, p)
    /\ -1074 <= p <= Z.max (k - 53) (-1074)
    /\ 0 <= m
    /\ 2 * Z.abs (m * snd (scaled n d p) - fst (scaled n d p)) <= snd (scaled n d p).
Proof.
  intros Hn Hd Hk Hlt. unfold of_ratio.
  pose proof (floor_log2_below n d k Hn Hd ltac:(lia) Hlt) as He.
  set (p := Z.max (floor_log2 n d - 52) (-1074)).
  assert (Hp : -1074 <= p <= Z.max (k - 53) (-1074)) by lia.
  destruct (scaled n d p) as [n2 d2] eqn:Hs.
  assert (Hpos : 0 <= n2 /\ 0 < d2).
  { unfold scaled in Hs. destruct (Z.leb_spec 0 p); injection Hs as <- <-.
    - assert (0 < 2 ^ p) by (apply Z.pow_pos_nonneg; lia). nia.
    - assert (0 < 2 ^ (- p)) by (apply Z.pow_pos_nonneg; lia). nia. }
  destruct Hpos as [Hn2 Hd2].
  destruct (nearest_even_near n2 d2 Hn2 Hd2) as [Hm Hnear].
  exists (nearest_even n2 d2), p.
  destruct (Z.ltb_spec 971 p); [lia |].
  destruct (Z.eqb_spec p 971); [lia |]. cbn [orb andb].
  split; [reflexivity |]. split; [exact Hp |]. split; [exact Hm |]. rewrite Hs. exact Hnear.
Qed.

End FloatFacts.

(** ** What a Numeric column gives back *)

Module NumericFacts.

Import Float FloatFacts Numeric DecFacts.

Lemma ratio_pos (d : Decimal) :
  coef d <> 0 -> 0 < fst (ratio d) /\ 0 < snd (ratio d).
Proof.
  intros Hnz. unfold ratio. destruct (Z.leb_spec 0 (dexp d)); cbn [fst snd].
  - assert (0 < 10 ^ dexp d) by (apply Z.pow_pos_nonneg; lia). split; [nia | lia].
  - assert (0 < 10 ^ (- dexp d)) by (apply Z.pow_pos_nonneg; lia). split; lia.
Qed.

(** 15000 comes back as 15000.0000000000; 1851851835185185.1835 as
    1851851835185185.2500000000, the float nearest to it; 1E-11 as
    zero; 1E+400 as an infinity. *)
Example read_back_15000 :
  read_back (mkDec 15000 0) = Some (mkDec 150000000000000 (-10)).
Proof. vm_compute. reflexivity. Qed.

Example read_back_nearest_float :
  read_back (mkDec 18518518351851851835 (-4))
  = Some (mkDec 18518518351851852500000000 (-10)).
Proof. vm_compute. reflexivity. Qed.

Example read_back_small : read_back (mkDec 1 (-11)) = Some (mkDec 0 (-10)).
Proof. vm_compute. reflexivity. Qed.

Example read_back_infinity : read_back (mkDec 1 400) = None.
Proof. vm_compute. reflexivity. Qed.

Lemma read_back_zero (d : Decimal) : coef d = 0 -> read_back d = Some (mkDec 0 (-10)).
Proof.
  intros Hz. unfold read_back, bind_processor, of_Decimal. rewrite Hz. reflexivity.
Qed.

Lemma read_back_finite (d : Decimal) (k : Z) :
  0 <= k <= 1023 -> fst (ratio d) < snd (ratio d) * 2 ^ k ->
  exists d', read_back d = Some d'.
Proof.
  intros Hk Hlt. destruct (Z.eq_dec (coef d) 0) as [Hz | Hnz].
  - rewrite (read_back_zero d Hz). eauto.
  - destruct (ratio_pos d Hnz) as [Hn Hd].
    unfold read_back, bind_processor, of_Decimal.
    destruct (Z.eqb_spec (coef d) 0) as [| _]; [contradiction |].
    destruct (ratio d) as [n k0]. cbn [fst snd] in *.
    destruct (of_ratio_below n k0 k Hn Hd Hk Hlt) as (m & p & Hrun & _).
    rewrite Hrun. unfold result_processor, format_10f.
    destruct (scaled _ _ _). eauto.
Qed.

(** A number below [2 ^ 19] with at most ten decimals comes back from
    a Numeric column as it went in. *)
Lemma read_back_exact (d : Decimal) (N : Z) :
  coef d <> 0 ->
  fst (ratio d) < snd (ratio d) * 2 ^ 19 ->
  N * snd (ratio d) = fst (ratio d) * 10 ^ 10 ->
  read_back d = Some (mkDec (Z.sgn (coef d) * N) (-10)).
Proof.
  intros Hnz Hlt HN. destruct (ratio_pos d Hnz) as [Hn Hd].
  unfold read_back, bind_processor, of_Decimal.
  destruct (Z.eqb_spec (coef d) 0) as [| _]; [contradiction |].
  destruct (ratio d) as [n k0]. cbn [fst snd] in *.
  destruct (of_ratio_below n k0 19 Hn Hd ltac:(lia) Hlt) as (m & p & Hrun & Hp & Hm & Hnear).
  rewrite Hrun. unfold result_processor, format_10f.
  assert (Hpneg : p <= -34) by lia.
  unfold scaled in Hnear. destruct (Z.leb_spec 0 p) as [| _]; [lia |].
  cbn [fst snd] in Hnear.
  assert (Habs : Z.abs (Z.sgn (coef d) * m) = m) by lia.
  rewrite Habs. unfold scaled. destruct (Z.leb_spec 0 (- p)) as [_ |]; [| lia].
  set (P := 2 ^ (- p)) in *.
  assert (HP : 2 ^ 34 <= P) by (apply Z.pow_le_mono_r; lia).
  assert (HNpos : 0 < N) by nia.
  assert (Hround : nearest_even (m * 10 ^ 10) (1 * P) = N).
  { apply nearest_even_unique; [nia | lia |].
    assert (Hscaled : 2 * Z.abs (N * (1 * P) - m * 10 ^ 10) * k0 <= 10 ^ 10 * k0).
    { replace (2 * Z.abs (N * (1 * P) - m * 10 ^ 10) * k0)
        with (10 ^ 10 * (2 * Z.abs (m * k0 - n * P))) by nia.
      apply Z.mul_le_mono_nonneg_l; lia. }
    assert (2 * Z.abs (N * (1 * P) - m * 10 ^ 10) <= 10 ^ 10) by nia.
    assert (10 ^ 10 < 2 ^ 34) by reflexivity. lia. }
  rewrite Hround. do 2 f_equal.
  assert (m <> 0).
  { intros ->. cbn in Hround. unfold nearest_even in Hround.
    rewrite Z.div_0_l, Z.mod_0_l in Hround by lia.
    destruct (Z.ltb_spec (1 * P) (2 * 0)); [lia |].
    destruct (Z.eqb_spec (2 * 0) (1 * P)); [lia |]. cbn in Hround. lia. }
  lia.
Qed.

(** The number of a Decimal as the fraction of [ratio]. *)
Lemma to_Q_ratio (d : Decimal) :
  (to_Q d == inject_Z (Z.sgn (coef d) * fst (ratio d)) / inject_Z (snd (ratio d)))%Q.
Proof.
  unfold to_Q, ratio. destruct (Z.leb_spec 0 (dexp d)) as [Hge | Hlt]; cbn [fst snd].
  - change (10 # 1)%Q with (inject_Z 10). rewrite <- Zpower_Qpower by exact Hge.
    replace (Z.sgn (coef d) * (Z.abs (coef d) * 10 ^ dexp d))
      with (coef d * 10 ^ dexp d) by lia.
    rewrite inject_Z_mult. change (inject_Z 1) with 1%Q. field.
  - replace (dexp d) with (- - dexp d) at 1 by lia.
    rewrite Qpower_opp. change (10 # 1)%Q with (inject_Z 10).
    rewrite <- Zpower_Qpower by lia.
    replace (Z.sgn (coef d) * Z.abs (coef d)) with (coef d) by lia.
    reflexivity.
Qed.

Lemma inject_Z_pos_neq (z : Z) : 0 < z -> ~ (inject_Z z == 0)%Q.
Proof.
  intros Hpos Heq. unfold Qeq in Heq. cbn in Heq. lia.
Qed.

(** What [read_back_exact] returns is the number that was written. *)
Lemma to_Q_read_back (d : Decimal) (N : Z) :
  coef d <> 0 ->
  N * snd (ratio d) = fst (ratio d) * 10 ^ 10 ->
  (to_Q (mkDec (Z.sgn (coef d) * N) (-10)) == to_Q d)%Q.
Proof.
  intros Hnz HN. destruct (ratio_pos d Hnz) as [Hn Hd].
  rewrite (to_Q_ratio d). unfold to_Q at 1. cbn [coef dexp].
  change ((10 # 1) ^ (-10))%Q with (/ inject_Z (10 ^ 10))%Q.
  assert (Hk : ~ (inject_Z (snd (ratio d)) == 0)%Q) by now apply inject_Z_pos_neq.
  assert (H10 : ~ (inject_Z (10 ^ 10) == 0)%Q) by (apply inject_Z_pos_neq; reflexivity).
  assert (Hcross : (inject_Z (Z.sgn (coef d) * N) * inject_Z (snd (ratio d))
                    == inject_Z (Z.sgn (coef d) * fst (ratio d)) * inject_Z (10 ^ 10))%Q).
  { rewrite <- !inject_Z_mult. apply inject_Z_injective. nia. }
  field_simplify_eq; [| split; assumption]. 
  rewrite Hcross. ring.
Qed.

(** Comparisons of numbers, read on the fraction. *)
Lemma to_Q_lt_ratio (d : Decimal) (z : Z) :
  0 < coef d -> (to_Q d < inject_Z z)%Q -> fst (ratio d) < snd (ratio d) * z.
Proof.
  intros Hpos Hlt. destruct (ratio_pos d ltac:(lia)) as [Hn Hk].
  rewrite (to_Q_ratio d) in Hlt.
  replace (Z.sgn (coef d)) with 1 in Hlt by lia. rewrite Z.mul_1_l in Hlt.
  apply (Qmult_lt_r _ _ (inject_Z (snd (ratio d)))) in Hlt;
    [| change 0%Q with (inject_Z 0); rewrite <- Zlt_Qlt; exact Hk].
  unfold Qdiv in Hlt.
  rewrite <- Qmult_assoc, (Qmult_comm (/ _)), Qmult_inv_r, Qmult_1_r in Hlt
    by (apply inject_Z_pos_neq; lia).
  rewrite <- inject_Z_mult, <- Zlt_Qlt in Hlt. lia.
Qed.

Lemma to_Q_le_ratio (d : Decimal) (z : Z) :
  0 < coef d -> (to_Q d <= inject_Z z)%Q -> fst (ratio d) <= snd (ratio d) * z.
Proof.
  intros Hpos Hle. destruct (ratio_pos d ltac:(lia)) as [Hn Hk].
  rewrite (to_Q_ratio d) in Hle.
  replace (Z.sgn (coef d)) with 1 in Hle by lia. rewrite Z.mul_1_l in Hle.
  apply (Qmult_le_r _ _ (inject_Z (snd (ratio d)))) in Hle;
    [| change 0%Q with (inject_Z 0); rewrite <- Zlt_Qlt; exact Hk].
  unfold Qdiv in Hle.
  rewrite <- Qmult_assoc, (Qmult_comm (/ _)), Qmult_inv_r, Qmult_1_r in Hle
    by (apply inject_Z_pos_neq; lia).
  rewrite <- inject_Z_mult, <- Zle_Qle in Hle. lia.
Qed.

(** A number that is at most [z < 10 ^ j] has an exponent below [j]. *)
Lemma ratio_dexp_upper (d : Decimal) (z j : Z) :
  coef d <> 0 -> fst (ratio d) <= snd (ratio d) * z -> 0 <= j -> z < 10 ^ j ->
  dexp d < j.
Proof.
  intros Hnz Hle Hj Hz. unfold ratio in Hle.
  destruct (Z.leb_spec 0 (dexp d)) as [Hge | Hneg]; cbn [fst snd] in Hle; [| lia].
  assert (Hp : 0 < 10 ^ dexp d) by (apply Z.pow_pos_nonneg; lia).
  apply (Z.pow_lt_mono_r_iff 10); [lia | lia | nia].
Qed.

(** A number with at most ten decimals is a whole number of units
    [10 ^ -10]. *)
Lemma multiple_ratio (d : Decimal) :
  multiple_of_pow10 d (-10) = true ->
  exists N, N * snd (ratio d) = fst (ratio d) * 10 ^ 10.
Proof.
  unfold multiple_of_pow10, ratio. intros Hm.
  destruct (Z.leb_spec (-10) (dexp d)) as [Hge | Hlt].
  - destruct (Z.leb_spec 0 (dexp d)); cbn [fst snd].
    + eexists. rewrite Z.mul_1_r. reflexivity.
    + exists (Z.abs (coef d) * 10 ^ (dexp d + 10)).
      rewrite <- Z.mul_assoc, <- Z.pow_add_r by lia. do 2 f_equal. lia.
  - apply Z.eqb_eq in Hm. destruct (Z.leb_spec 0 (dexp d)); [lia |]. cbn [fst snd].
    set (M := 10 ^ (-10 - dexp d)) in *.
    assert (HM : 0 < M) by (apply Z.pow_pos_nonneg; lia).
    assert (Hsplit : 10 ^ (- dexp d) = M * 10 ^ 10).
    { unfold M. rewrite <- Z.pow_add_r by lia. f_equal. lia. }
    assert (Hdiv : (M | Z.abs (coef d))).
    { apply Z.divide_abs_r. apply Z.mod_divide; [lia | exact Hm]. }
    destruct Hdiv as [q Hq]. exists q. rewrite Hsplit, Hq. ring.
Qed.

Lemma to_Q_pos (d : Decimal) : 0 < coef d -> (0 < to_Q d)%Q.
Proof.
  intros Hpos. unfold to_Q. apply Qmult_lt_0_compat.
  - change 0%Q with (inject_Z 0). rewrite <- Zlt_Qlt. exact Hpos.
  - apply Qpower_0_lt. reflexivity.
Qed.

(** A positive number below 524288 with at most ten decimals is read
    back from a Numeric column as the same number, written with ten
    decimals. *)
Lemma read_back_exact_value (d : Decimal) :
  0 < coef d -> (to_Q d < 524288 # 1)%Q -> multiple_of_pow10 d (-10) = true ->
  exists d',
    read_back d = Some d'
    /\ (to_Q d' == to_Q d)%Q
    /\ dexp d' = -10
    /\ 0 < coef d' < 2 ^ 19 * 10 ^ 10.
Proof.
  intros Hpos Hsmall Hdec.
  assert (Hlt : fst (ratio d) < snd (ratio d) * 2 ^ 19) by now apply to_Q_lt_ratio.
  destruct (multiple_ratio d Hdec) as [N HN].
  destruct (ratio_pos d ltac:(lia)) as [Hn Hk].
  exists (mkDec (Z.sgn (coef d) * N) (-10)).
  split; [apply read_back_exact; [lia | exact Hlt | exact HN] |].
  split; [apply to_Q_read_back; [lia | exact HN] |].
  split; [reflexivity |]. cbn [coef].
  replace (Z.sgn (coef d)) with 1 by lia. nia.
Qed.

(** With at most ten decimals and at most [prec] digits, the exponent
    is not far below zero. *)
Lemma multiple_dexp_lower (d : Decimal) :
  coef d <> 0 -> Z.abs (coef d) < 10 ^ prec -> multiple_of_pow10 d (-10) = true ->
  -10 - prec < dexp d.
Proof.
  unfold multiple_of_pow10. intros Hnz Hfit Hm.
  destruct (Z.leb_spec (-10) (dexp d)) as [Hge | Hlt]; [unfold prec; lia |].
  apply Z.eqb_eq in Hm.
  assert (HM : 0 < 10 ^ (-10 - dexp d)) by (apply Z.pow_pos_nonneg; lia).
  assert (Hdiv : (10 ^ (-10 - dexp d) | Z.abs (coef d))).
  { apply Z.divide_abs_r. apply Z.mod_divide; [lia | exact Hm]. }
  apply Z.divide_pos_le in Hdiv; [| lia].
  assert (-10 - dexp d < prec); [| lia].
  apply (Z.pow_lt_mono_r_iff 10); [lia | unfold prec; lia | lia].
Qed.

End NumericFacts.

(** ** Travel plans *)

Module TravelFacts.

Import TravelRouter DecFacts NumericFacts.
Local Open Scope string_scope.
Local Open Scope Z_scope.

(** A creation is committed when the province exists, the id is fresh,
    the reduction is computed without Overflow and both Numeric
    columns are read back. *)
Lemma create_travel_plan_commits st new_id now current_user travel_plan province
    estimated budget' estimated' :
  provinces st !! CreateTravelPlan.province_id travel_plan = Some province ->
  travel_plans st !! new_id = None ->
  estimate_of_request (CreateTravelPlan.budget travel_plan) province = Some estimated ->
  Numeric.read_back_nullable (CreateTravelPlan.budget travel_plan) = Some budget' ->
  Numeric.read_back_nullable estimated = Some estimated' ->
  exists resp row,
    create_travel_plan st new_id now current_user travel_plan
    = (Return resp, set_travel_plans st (<[new_id := row]> (travel_plans st)))
    /\ DBTravelPlan.estimated_tax_reduction row = estimated'
    /\ DBTravelPlan.budget row = budget'
    /\ DBTravelPlan.status row = "planned"
    /\ DBTravelPlan.user_id row = User.id current_user
    /\ estimated_reduction (tax_benefits resp)
       = float_or_0 (DBTravelPlan.estimated_tax_reduction row)
    /\ TravelPlan.estimated_tax_reduction (TravelRouter.travel_plan resp)
       = DBTravelPlan.estimated_tax_reduction row
    /\ TravelPlan.status (TravelRouter.travel_plan resp) = "planned"
    /\ DBTravelPlan.id row = new_id
    /\ DBTravelPlan.province_id row = CreateTravelPlan.province_id travel_plan.
Proof.
  intros Hprov Hfresh Hest Hbudget Hread. unfold create_travel_plan.
  rewrite Hprov, Hest, Hfresh, Hbudget, Hread. eexists. eexists.
  split; [reflexivity |]. cbn. auto 10.
Qed.

(** What a creation that returns has done. *)
Lemma create_travel_plan_returns st new_id now current_user travel_plan resp st' :
  create_travel_plan st new_id now current_user travel_plan = (Return resp, st') ->
  exists province row,
    provinces st !! CreateTravelPlan.province_id travel_plan = Some province
    /\ travel_plans st !! new_id = None
    /\ st' = set_travel_plans st (<[new_id := row]> (travel_plans st))
    /\ TravelRouter.travel_plan resp = travel_plan_model row province
    /\ DBTravelPlan.id row = new_id
    /\ DBTravelPlan.user_id row = User.id current_user
    /\ DBTravelPlan.province_id row = CreateTravelPlan.province_id travel_plan
    /\ DBTravelPlan.status row = "planned".
Proof.
  unfold create_travel_plan.
  destruct (provinces st !! CreateTravelPlan.province_id travel_plan)
    as [province |]; [| discriminate].
  destruct (estimate_of_request _ _) as [estimated |]; [| discriminate].
  destruct (travel_plans st !! new_id); [discriminate |].
  destruct (Numeric.read_back_nullable (CreateTravelPlan.budget travel_plan));
    [| discriminate].
  destruct (Numeric.read_back_nullable estimated); [| discriminate].
  intros [= <- <-]. eexists. eexists. cbn. auto 10.
Qed.

(** A creation that raises has stored nothing. *)
Lemma create_travel_plan_raises st new_id now current_user travel_plan e st' :
  create_travel_plan st new_id now current_user travel_plan = (Raise e, st') ->
  st' = st.
Proof.
  unfold create_travel_plan.
  destruct (provinces st !! CreateTravelPlan.province_id travel_plan);
    [| now intros [= _ <-]].
  destruct (estimate_of_request _ _) as [estimated |]; [| now intros [= _ <-]].
  destruct (travel_plans st !! new_id); [now intros [= _ <-] |].
  destruct (Numeric.read_back_nullable (CreateTravelPlan.budget travel_plan));
    [| now intros [= _ <-]].
  destruct (Numeric.read_back_nullable estimated); [discriminate | now intros [= _ <-]].
Qed.

Lemma stored_estimate_insert st plan_id row :
  stored_estimate (set_travel_plans st (<[plan_id := row]> (travel_plans st))) plan_id
  = Some (DBTravelPlan.estimated_tax_reduction row).
Proof.
  unfold stored_estimate; cbn. now rewrite lookup_insert_eq.
Qed.


Lemma truthy_nonzero (d : Decimal) : coef d <> 0 -> truthy d = true.
Proof.
  intros Hnz. unfold truthy. destruct (Z.eqb_spec (coef d) 0); [contradiction | reflexivity].
Qed.

Lemma truthy_zero (d : Decimal) : coef d = 0 -> truthy d = false.
Proof. intros Hz. unfold truthy. now rewrite Hz. Qed.

Lemma truthy_false_zero (d : Decimal) : truthy d = false -> coef d = 0.
Proof.
  unfold truthy. destruct (Z.eqb_spec (coef d) 0); [auto | discriminate].
Qed.

(** [budget * (rate / 100)] is the exact product when the coefficients
    fit the precision. *)
Lemma tax_reduction_exact (budget : Decimal) (province : DBProvince.t) :
  let rate := DBProvince.tax_reduction_percentage province in
  Z.abs (coef rate) < 10 ^ prec ->
  Z.abs (coef budget * coef rate) < 10 ^ prec ->
  (to_Q (tax_reduction budget province) == to_Q budget * to_Q rate / (100 # 1))%Q.
Proof.
  intros rate Hrate Hprod. unfold tax_reduction. fold rate.
  rewrite (div100_exact rate Hrate).
  rewrite mul_exact by exact Hprod.
  rewrite (to_Q_product budget (mkDec (coef rate) (dexp rate - 2))).
  rewrite (to_Q_shift2 rate). unfold Qdiv. ring.
Qed.

(** At rate zero the reduction is zero, whatever the budget. *)
Lemma tax_reduction_rate_zero (budget : Decimal) (province : DBProvince.t) :
  coef (DBProvince.tax_reduction_percentage province) = 0 ->
  (to_Q (tax_reduction budget province) == 0)%Q.
Proof.
  intros Hz. unfold tax_reduction.
  rewrite div100_exact by (rewrite Hz; reflexivity).
  rewrite mul_exact by (cbn [coef]; rewrite Hz, Z.mul_0_r; reflexivity).
  apply to_Q_zero. cbn [coef]. rewrite Hz. lia.
Qed.

(** The same product with the exponent limits: nothing is raised and
    nothing is rounded when the coefficients fit the precision and the
    exponents of the rate over 100 and of the product are within the
    limits. *)
Lemma tax_reduction_in_context_exact (budget : Decimal) (province : DBProvince.t) :
  let rate := DBProvince.tax_reduction_percentage province in
  coef budget <> 0 -> coef rate <> 0 ->
  Z.abs (coef budget * coef rate) < 10 ^ prec ->
  Etiny <= dexp rate - 2 <= Etop ->
  Etiny <= dexp budget + dexp rate - 2 <= Etop ->
  tax_reduction_in_context budget province = Some (tax_reduction budget province)
  /\ tax_reduction budget province
     = mkDec (coef budget * coef rate) (dexp budget + (dexp rate - 2)).
Proof.
  intros rate Hb Hr Hprod Hre Hpe.
  assert (Hrate : Z.abs (coef rate) < 10 ^ prec) by nia.
  unfold tax_reduction_in_context, tax_reduction. fold rate.
  rewrite (div100_exact rate Hrate). rewrite mul_exact by exact Hprod.
  unfold div100_in_context.
  rewrite fix_in_context_exact by (cbn [coef dexp]; auto).
  unfold mul_in_context. cbn [coef dexp].
  rewrite fix_in_context_exact by (cbn [coef dexp]; first [exact Hprod | nia | lia]).
  auto.
Qed.

Lemma tax_reduction_in_context_rate_zero (budget : Decimal) (province : DBProvince.t) :
  coef (DBProvince.tax_reduction_percentage province) = 0 ->
  exists e, tax_reduction_in_context budget province = Some (mkDec 0 e).
Proof.
  intros Hz. unfold tax_reduction_in_context, div100_in_context.
  destruct (fix_in_context_zero
              (mkDec (coef (DBProvince.tax_reduction_percentage province))
                 (dexp (DBProvince.tax_reduction_percentage province) - 2)) Hz)
    as [e ->].
  unfold mul_in_context. cbn [coef dexp]. apply fix_in_context_zero.
  cbn [coef]. lia.
Qed.

(** The reduction as the handlers store it: computed in the context,
    written to its column and read back. For a budget [b > 0] that a
    float can hold and a rate [r] from 0 to 100, it is the number
    [b * r / 100] when the product of the coefficients has at most 28
    digits and that number is below 524288 and has at most ten
    decimals. *)
Lemma reduction_stored_exact (b : Decimal) (province : DBProvince.t) :
  let rate := DBProvince.tax_reduction_percentage province in
  0 < coef b -> 0 <= coef rate ->
  (to_Q b < inject_Z (2 ^ 1023))%Q ->
  (to_Q rate <= 100 # 1)%Q ->
  Z.abs (coef b * coef rate) < 10 ^ prec ->
  (to_Q b * to_Q rate / (100 # 1) < 524288 # 1)%Q ->
  multiple_of_pow10 (tax_reduction b province) (-10) = true ->
  exists computed estimate,
    tax_reduction_in_context b province = Some computed
    /\ Numeric.read_back computed = Some estimate
    /\ (to_Q estimate == to_Q b * to_Q rate / (100 # 1))%Q.
Proof.
  intros rate Hpos Hrpos Hfin Hr100 Hprod Hsmall Hdec.
  destruct (Z.eq_dec (coef rate) 0) as [Hr0 | Hrnz].
  { destruct (tax_reduction_in_context_rate_zero b province Hr0) as [e He].
    exists (mkDec 0 e), (mkDec 0 (-10)). split; [exact He |].
    split; [now apply read_back_zero |].
    rewrite (to_Q_zero rate Hr0), (to_Q_zero (mkDec 0 (-10))) by reflexivity.
    unfold Qdiv. ring. }
  assert (Hrate : Z.abs (coef rate) < 10 ^ prec) by nia.
  pose proof (tax_reduction_exact b province Hrate Hprod) as Hexact.
  fold rate in Hexact.
  assert (Hp : tax_reduction b province
               = mkDec (coef b * coef rate) (dexp b + (dexp rate - 2))).
  { unfold tax_reduction. fold rate. rewrite (div100_exact rate Hrate).
    now rewrite mul_exact. }
  set (p := tax_reduction b province) in *.
  assert (Hpcoef : 0 < coef p) by (rewrite Hp; cbn [coef]; nia).
  assert (Hpfit : Z.abs (coef p) < 10 ^ prec) by (rewrite Hp; exact Hprod).
  assert (Hpexp : dexp p = dexp b + (dexp rate - 2)) by now rewrite Hp.
  (* the exponents are far from the limits *)
  assert (Hbexp : dexp b < 309).
  { apply (ratio_dexp_upper b (2 ^ 1023)); [lia | | lia | vm_compute; reflexivity].
    apply Z.lt_le_incl. now apply to_Q_lt_ratio. }
  assert (Hrexp : dexp rate < 3).
  { apply (ratio_dexp_upper rate 100); [lia | | lia | reflexivity].
    apply to_Q_le_ratio; [lia | exact Hr100]. }
  pose proof (multiple_dexp_lower p ltac:(lia) Hpfit Hdec) as Hplow.
  assert (Hlimits : Etiny <= dexp rate - 2 <= Etop
                    /\ Etiny <= dexp b + dexp rate - 2 <= Etop).
  { unfold Etiny, Etop, Emin, Emax, prec in *. lia. }
  destruct Hlimits as [Hre Hpe].
  destruct (tax_reduction_in_context_exact b province ltac:(lia) Hrnz Hprod Hre Hpe)
    as [Hctx _].
  fold p in Hctx.
  (* the column gives the product back *)
  assert (Hpsmall : (to_Q p < 524288 # 1)%Q) by (rewrite Hexact; exact Hsmall).
  destruct (read_back_exact_value p Hpcoef Hpsmall Hdec) as (estimate & Hread & Hval & _).
  exists p, estimate. split; [exact Hctx |]. split; [exact Hread |].
  now rewrite Hval.
Qed.

(** C2. A caller who does not own a plan gets 404 "Travel plan not
    found" from reading, updating and deleting it, the store is left
    as it was, and the three answers are those given for a plan id
    that is not in the table. *)
Theorem ownership_isolation st now current_user plan_id tp upd :
  travel_plans st !! plan_id = Some tp ->
  DBTravelPlan.user_id tp <> User.id current_user ->
  get_travel_plan st current_user plan_id = Raise travel_plan_not_found
  /\ update_travel_plan st now current_user plan_id upd
     = (Raise travel_plan_not_found, st)
  /\ delete_travel_plan st current_user plan_id = (Raise travel_plan_not_found, st)
  /\ forall missing, travel_plans st !! missing = None ->
       get_travel_plan st current_user missing = Raise travel_plan_not_found
       /\ update_travel_plan st now current_user missing upd
          = (Raise travel_plan_not_found, st)
       /\ delete_travel_plan st current_user missing
          = (Raise travel_plan_not_found, st).
Proof.
  intros Hrow Hother.
  unfold get_travel_plan, update_travel_plan, delete_travel_plan.
  rewrite Hrow.
  destruct (decide (DBTravelPlan.user_id tp = User.id current_user)) as [Heq | _];
    [contradiction |].
  repeat split; intros; try reflexivity;
    match goal with
    | Hnone : travel_plans st !! ?k = None |- _ => rewrite Hnone; reflexivity
    end.
Qed.

Lemma ownership_isolation_witness :
  get_travel_plan Fixtures.test_store (UserRouter.user_model Fixtures.other_user)
    "plan-1" = Raise travel_plan_not_found
  /\ update_travel_plan Fixtures.test_store 0
       (UserRouter.user_model Fixtures.other_user) "plan-1" Fixtures.empty_update
     = (Raise travel_plan_not_found, Fixtures.test_store)
  /\ delete_travel_plan Fixtures.test_store
       (UserRouter.user_model Fixtures.other_user) "plan-1"
     = (Raise travel_plan_not_found, Fixtures.test_store).
Proof.
  destruct (ownership_isolation Fixtures.test_store 0
              (UserRouter.user_model Fixtures.other_user) "plan-1"
              Fixtures.test_plan Fixtures.empty_update)
    as (Hget & Hupdate & Hdelete & _).
  - reflexivity.
  - discriminate.
  - auto.
Defined.

(** C10. Creating a plan in an existing province with a budget equal
    to zero stores no estimate (None, not 0), while the [tax_benefits]
    of the response report [float(0)]. *)
Theorem create_zero_budget_leaves_estimate_unset
    st new_id now current_user travel_plan province budget :
  provinces st !! CreateTravelPlan.province_id travel_plan = Some province ->
  travel_plans st !! new_id = None ->
  CreateTravelPlan.budget travel_plan = Some budget ->
  coef budget = 0 ->
  exists resp st',
    create_travel_plan st new_id now current_user travel_plan = (Return resp, st')
    /\ stored_estimate st' new_id = Some None
    /\ TravelPlan.estimated_tax_reduction (TravelRouter.travel_plan resp) = None
    /\ estimated_reduction (tax_benefits resp) = float_of_int 0.
Proof.
  intros Hprov Hfresh Hbudget Hzero.
  destruct (create_travel_plan_commits st new_id now current_user travel_plan
              province None (Some (mkDec 0 (-10))) None Hprov Hfresh)
    as (resp & row & Hrun & Hest & _ & _ & _ & Hfloat & Hresp & _).
  - unfold estimate_of_request. now rewrite Hbudget, (truthy_zero budget Hzero).
  - rewrite Hbudget. cbn [Numeric.read_back_nullable].
    now rewrite (read_back_zero budget Hzero).
  - reflexivity.
  - exists resp; eexists. split; [exact Hrun |].
    rewrite stored_estimate_insert, Hresp, Hfloat, Hest. auto.
Qed.

Lemma create_zero_budget_leaves_estimate_unset_witness :
  exists resp st',
    create_travel_plan Fixtures.test_store "plan-2" 0
      (UserRouter.user_model Fixtures.test_user)
      (Fixtures.create_request (Some (mkDec 0 (-2)))) = (Return resp, st')
    /\ stored_estimate st' "plan-2" = Some None
    /\ TravelPlan.estimated_tax_reduction (TravelRouter.travel_plan resp) = None
    /\ estimated_reduction (tax_benefits resp) = float_of_int 0.
Proof.
  apply (create_zero_budget_leaves_estimate_unset Fixtures.test_store "plan-2" 0
           (UserRouter.user_model Fixtures.test_user)
           (Fixtures.create_request (Some (mkDec 0 (-2))))
           Fixtures.mae_hong_son (mkDec 0 (-2)));
    reflexivity.
Defined.




Example create_15000_at_15_percent :
  exists estimate,
    stored_estimate
      (snd (create_travel_plan Fixtures.test_store "plan-2" 0
              (UserRouter.user_model Fixtures.test_user)
              (Fixtures.create_request (Some (mkDec 15000 0)))))
      "plan-2" = Some (Some estimate)
    /\ eqb estimate (mkDec 225000 (-2)) = true.
Proof. eexists. split; vm_compute; reflexivity. Qed.

(** A budget of 1E+1000001 at 15.00%: the product overflows, the
    handler raises and nothing is stored. *)
Example create_overflow :
  create_travel_plan Fixtures.test_store "plan-2" 0
    (UserRouter.user_model Fixtures.test_user)
    (Fixtures.create_request (Some (mkDec 1 1000001)))
  = (Raise DecimalOverflow, Fixtures.test_store).
Proof. vm_compute. reflexivity. Qed.


(** *** Updates *)

(** What the owner's update does, whatever its outcome: it raises and
    leaves the store as it was, or it commits a row [tp'] made of the
    loaded row and of the request. *)
Lemma update_travel_plan_cases st now current_user plan_id tp upd :
  travel_plans st !! plan_id = Some tp ->
  DBTravelPlan.user_id tp = User.id current_user ->
  let result := update_travel_plan st now current_user plan_id upd in
  (snd result = st
   /\ ((fst result = Raise IntegrityError
        /\ (UpdateTravelPlan.start_date upd = Some None
            \/ UpdateTravelPlan.end_date upd = Some None
            \/ UpdateTravelPlan.status upd = Some None))
       \/ (exists b,
             UpdateTravelPlan.budget upd = Some (Some b)
             /\ truthy b = true
             /\ (fst result = Raise DecimalOverflow
                 \/ fst result = Raise ValidationError
                 \/ (fst result = Raise AttributeError
                     /\ provinces st !! DBTravelPlan.province_id tp = None)))))
  \/ (exists tp',
        snd result = set_travel_plans st (<[plan_id := tp']> (travel_plans st))
        /\ fst result
           = match provinces st !! DBTravelPlan.province_id tp with
             | Some province => Return (travel_plan_model tp' province)
             | None => Raise AttributeError
             end
        /\ DBTravelPlan.id tp' = DBTravelPlan.id tp
        /\ DBTravelPlan.user_id tp' = DBTravelPlan.user_id tp
        /\ DBTravelPlan.province_id tp' = DBTravelPlan.province_id tp
        /\ DBTravelPlan.created_at tp' = DBTravelPlan.created_at tp
        /\ setattr_required (UpdateTravelPlan.start_date upd) (DBTravelPlan.start_date tp)
           = Some (DBTravelPlan.start_date tp')
        /\ setattr_required (UpdateTravelPlan.end_date upd) (DBTravelPlan.end_date tp)
           = Some (DBTravelPlan.end_date tp')
        /\ setattr_required (UpdateTravelPlan.status upd) (DBTravelPlan.status tp)
           = Some (DBTravelPlan.status tp')
        /\ DBTravelPlan.notes tp'
           = setattr_nullable (UpdateTravelPlan.notes upd) (DBTravelPlan.notes tp)
        /\ match UpdateTravelPlan.budget upd with
           | Some budget => Numeric.read_back_nullable budget = Some (DBTravelPlan.budget tp')
           | None =>
               DBTravelPlan.budget tp' = DBTravelPlan.budget tp
               /\ DBTravelPlan.estimated_tax_reduction tp'
                  = DBTravelPlan.estimated_tax_reduction tp
           end).
Proof.
  intros Hrow Howner. cbv zeta. unfold update_travel_plan. rewrite Hrow.
  destruct (decide (DBTravelPlan.user_id tp = User.id current_user)) as [_ | Hne];
    [| contradiction].
  destruct upd as [sd ed bu stt no]; cbn [UpdateTravelPlan.start_date
    UpdateTravelPlan.end_date UpdateTravelPlan.budget UpdateTravelPlan.status
    UpdateTravelPlan.notes].
  destruct sd as [[sd |] |], ed as [[ed |] |], stt as [[stt |] |], bu as [[bu |] |];
    cbn [setattr_required setattr_nullable Numeric.read_back_nullable
           set_travel_plans provinces DBTravelPlan.province_id];
    repeat case_match; simplify_eq/=;
    try match goal with
        | Hz : truthy ?b = false, Hr : Some <$> Numeric.read_back ?b = None |- _ =>
            rewrite (read_back_zero b (truthy_false_zero b Hz)) in Hr; discriminate Hr
        end;
    first [ right; eexists; split; [reflexivity |]; cbn; auto 15
          | left; split; [reflexivity |];
            first [ left; split; [reflexivity | auto]
                  | right; eexists; split; [reflexivity |]; split; [assumption |];
                    auto ] ].
Qed.

(** What the owner's update leaves in the table, whatever its
    outcome. *)
Lemma update_travel_plan_row st now current_user plan_id tp upd :
  travel_plans st !! plan_id = Some tp ->
  DBTravelPlan.user_id tp = User.id current_user ->
  exists tp',
    travel_plans (snd (update_travel_plan st now current_user plan_id upd)) !! plan_id
    = Some tp'
    /\ DBTravelPlan.id tp' = DBTravelPlan.id tp
    /\ DBTravelPlan.user_id tp' = DBTravelPlan.user_id tp
    /\ DBTravelPlan.province_id tp' = DBTravelPlan.province_id tp
    /\ DBTravelPlan.created_at tp' = DBTravelPlan.created_at tp
    /\ (UpdateTravelPlan.start_date upd = None ->
        DBTravelPlan.start_date tp' = DBTravelPlan.start_date tp)
    /\ (UpdateTravelPlan.end_date upd = None ->
        DBTravelPlan.end_date tp' = DBTravelPlan.end_date tp)
    /\ (UpdateTravelPlan.budget upd = None ->
        DBTravelPlan.budget tp' = DBTravelPlan.budget tp
        /\ DBTravelPlan.estimated_tax_reduction tp'
           = DBTravelPlan.estimated_tax_reduction tp)
    /\ (UpdateTravelPlan.notes upd = None ->
        DBTravelPlan.notes tp' = DBTravelPlan.notes tp)
    /\ (DBTravelPlan.status tp' = DBTravelPlan.status tp
        \/ UpdateTravelPlan.status upd = Some (Some (DBTravelPlan.status tp'))).
Proof.
  intros Hrow Howner.
  destruct (update_travel_plan_cases st now current_user plan_id tp upd Hrow Howner)
    as [[Hsame _] | (tp' & Hstore & _ & Hid & Huser & Hprov & Hcreated & Hsd & Hed
                     & Hst & Hno & Hbu)].
  - exists tp. rewrite Hsame. auto 12.
  - exists tp'. rewrite Hstore. cbn [set_travel_plans travel_plans].
    rewrite lookup_insert_eq. split; [reflexivity |].
    repeat match goal with |- _ /\ _ => split end; try assumption.
    + intros Hnone. rewrite Hnone in Hsd. cbn in Hsd. congruence.
    + intros Hnone. rewrite Hnone in Hed. cbn in Hed. congruence.
    + intros Hnone. now rewrite Hnone in Hbu.
    + intros Hnone. now rewrite Hno, Hnone.
    + destruct (UpdateTravelPlan.status upd) as [[s |] |]; cbn in Hst;
        [right | discriminate | left]; congruence.
Qed.

(** What an update that returns has done. *)
Lemma update_travel_plan_returns_row st now current_user plan_id upd resp st' :
  update_travel_plan st now current_user plan_id upd = (Return resp, st') ->
  exists tp tp' province,
    travel_plans st !! plan_id = Some tp
    /\ DBTravelPlan.user_id tp = User.id current_user
    /\ provinces st !! DBTravelPlan.province_id tp = Some province
    /\ st' = set_travel_plans st (<[plan_id := tp']> (travel_plans st))
    /\ resp = travel_plan_model tp' province
    /\ DBTravelPlan.id tp' = DBTravelPlan.id tp
    /\ DBTravelPlan.user_id tp' = DBTravelPlan.user_id tp
    /\ DBTravelPlan.province_id tp' = DBTravelPlan.province_id tp
    /\ setattr_required (UpdateTravelPlan.status upd) (DBTravelPlan.status tp)
       = Some (DBTravelPlan.status tp').
Proof.
  intros Hrun.
  destruct (travel_plans st !! plan_id) as [tp |] eqn:Hrow;
    [| unfold update_travel_plan in Hrun; rewrite Hrow in Hrun; discriminate].
  destruct (decide (DBTravelPlan.user_id tp = User.id current_user)) as [Howner | Hne];
    [| unfold update_travel_plan in Hrun; rewrite Hrow in Hrun;
       destruct (decide (DBTravelPlan.user_id tp = User.id current_user));
       [contradiction | discriminate]].
  destruct (update_travel_plan_cases st now current_user plan_id tp upd Hrow Howner)
    as [[_ [[He _] | (b & _ & _ & [He | [He | [He _]]])]]
       | (tp' & Hstore & Hout & Hid & Huser & Hprov & _ & _ & _ & Hst & _)];
    rewrite Hrun in *; cbn [fst snd] in *; try discriminate.
  destruct (provinces st !! DBTravelPlan.province_id tp) as [province |] eqn:Hlook;
    [| discriminate].
  injection Hout as ->. exists tp, tp', province.
  repeat match goal with |- _ /\ _ => split end; auto.
Qed.

(** The store after an update, whatever its outcome and whoever the
    caller. *)
Lemma update_travel_plan_store st now current_user plan_id upd :
  snd (update_travel_plan st now current_user plan_id upd) = st
  \/ exists tp tp',
       travel_plans st !! plan_id = Some tp
       /\ snd (update_travel_plan st now current_user plan_id upd)
          = set_travel_plans st (<[plan_id := tp']> (travel_plans st))
       /\ DBTravelPlan.id tp' = DBTravelPlan.id tp
       /\ DBTravelPlan.province_id tp' = DBTravelPlan.province_id tp.
Proof.
  destruct (travel_plans st !! plan_id) as [tp |] eqn:Hrow;
    [| left; unfold update_travel_plan; now rewrite Hrow].
  destruct (decide (DBTravelPlan.user_id tp = User.id current_user)) as [Howner | Hne].
  - destruct (update_travel_plan_cases st now current_user plan_id tp upd Hrow Howner)
      as [[Hsame _] | (tp' & Hstore & _ & Hid & _ & Hprov & _)].
    + now left.
    + right. exists tp, tp'. auto.
  - left. unfold update_travel_plan. rewrite Hrow.
    destruct (decide (DBTravelPlan.user_id tp = User.id current_user));
      [contradiction | reflexivity].
Qed.

(** The store after a creation, whatever its outcome. *)
Lemma create_travel_plan_store st new_id now current_user travel_plan :
  snd (create_travel_plan st new_id now current_user travel_plan) = st
  \/ exists row province,
       provinces st !! CreateTravelPlan.province_id travel_plan = Some province
       /\ snd (create_travel_plan st new_id now current_user travel_plan)
          = set_travel_plans st (<[new_id := row]> (travel_plans st))
       /\ DBTravelPlan.id row = new_id
       /\ DBTravelPlan.province_id row = CreateTravelPlan.province_id travel_plan.
Proof.
  destruct (create_travel_plan st new_id now current_user travel_plan)
    as [[resp | e] st'] eqn:Hrun.
  - destruct (create_travel_plan_returns _ _ _ _ _ _ _ Hrun)
      as (province & row & Hprov & _ & -> & _ & Hid & _ & Hpid & _).
    right. exists row, province. auto.
  - left. cbn [snd]. exact (create_travel_plan_raises _ _ _ _ _ _ _ Hrun).
Qed.

(** C6. An update by the owner leaves every field it does not supply
    as it was: [id], [user_id], [province_id] and [created_at] cannot
    be supplied and never change, the estimate changes only with a
    supplied budget, and an update that supplies only [status] leaves
    the nine other fields of the claim untouched. *)
Theorem partial_update_frame st now current_user plan_id tp upd :
  travel_plans st !! plan_id = Some tp ->
  DBTravelPlan.user_id tp = User.id current_user ->
  exists tp',
    travel_plans (snd (update_travel_plan st now current_user plan_id upd)) !! plan_id
    = Some tp'
    /\ DBTravelPlan.id tp' = DBTravelPlan.id tp
    /\ DBTravelPlan.user_id tp' = DBTravelPlan.user_id tp
    /\ DBTravelPlan.province_id tp' = DBTravelPlan.province_id tp
    /\ DBTravelPlan.created_at tp' = DBTravelPlan.created_at tp
    /\ (UpdateTravelPlan.start_date upd = None ->
        DBTravelPlan.start_date tp' = DBTravelPlan.start_date tp)
    /\ (UpdateTravelPlan.end_date upd = None ->
        DBTravelPlan.end_date tp' = DBTravelPlan.end_date tp)
    /\ (UpdateTravelPlan.budget upd = None ->
        DBTravelPlan.budget tp' = DBTravelPlan.budget tp
        /\ DBTravelPlan.estimated_tax_reduction tp'
           = DBTravelPlan.estimated_tax_reduction tp)
    /\ (UpdateTravelPlan.status upd = None ->
        DBTravelPlan.status tp' = DBTravelPlan.status tp)
    /\ (UpdateTravelPlan.notes upd = None ->
        DBTravelPlan.notes tp' = DBTravelPlan.notes tp)
    /\ (UpdateTravelPlan.start_date upd = None ->
        UpdateTravelPlan.end_date upd = None ->
        UpdateTravelPlan.budget upd = None ->
        UpdateTravelPlan.notes upd = None ->
        DBTravelPlan.budget tp' = DBTravelPlan.budget tp
        /\ DBTravelPlan.notes tp' = DBTravelPlan.notes tp
        /\ DBTravelPlan.start_date tp' = DBTravelPlan.start_date tp
        /\ DBTravelPlan.end_date tp' = DBTravelPlan.end_date tp
        /\ DBTravelPlan.estimated_tax_reduction tp'
           = DBTravelPlan.estimated_tax_reduction tp
        /\ DBTravelPlan.province_id tp' = DBTravelPlan.province_id tp
        /\ DBTravelPlan.user_id tp' = DBTravelPlan.user_id tp
        /\ DBTravelPlan.id tp' = DBTravelPlan.id tp
        /\ DBTravelPlan.created_at tp' = DBTravelPlan.created_at tp).
Proof.
  intros Hrow Howner.
  destruct (update_travel_plan_row st now current_user plan_id tp upd Hrow Howner)
    as (tp' & Hrow' & Hid & Huser & Hprov & Hcreated & Hsd & Hed & Hbu & Hno & Hst).
  exists tp'. split; [exact Hrow' |].
  repeat match goal with |- _ /\ _ => split end; auto.
  - intros Hunset. destruct Hst as [Hsame | Hset]; [exact Hsame |].
    rewrite Hunset in Hset. discriminate.
  - intros Hs He Hb Hn. destruct (Hbu Hb) as [Hbudget Hest]. auto 10.
Qed.

(** Only the status is supplied ("completed"): the rest of the
    fixture plan stays. *)
Lemma partial_update_frame_witness :
  exists tp',
    travel_plans
      (snd (update_travel_plan Fixtures.test_store 5
              (UserRouter.user_model Fixtures.test_user) "plan-1"
              (UpdateTravelPlan.mk None None None (Some (Some "completed")) None)))
      !! "plan-1" = Some tp'
    /\ DBTravelPlan.budget tp' = Some (mkDec 10000 0)
    /\ DBTravelPlan.estimated_tax_reduction tp' = Some (mkDec 150000 (-2))
    /\ DBTravelPlan.start_date tp' = 1754006400000000.
Proof.
  destruct (partial_update_frame Fixtures.test_store 5
              (UserRouter.user_model Fixtures.test_user) "plan-1" Fixtures.test_plan
              (UpdateTravelPlan.mk None None None (Some (Some "completed")) None))
    as (tp' & Hrow' & _ & _ & _ & _ & _ & _ & _ & _ & _ & Hframe).
  - reflexivity.
  - reflexivity.
  - destruct Hframe as (Hb & _ & Hs & _ & He & _); try reflexivity.
    exists tp'. rewrite Hb, He, Hs. auto.
Defined.

(** An update by the owner that supplies a budget other than zero and
    no null for a NOT NULL column is committed when the reduction is
    computed without Overflow and both Numeric columns are read
    back. *)
Lemma update_travel_plan_commits st now current_user plan_id tp upd b province
    computed budget' estimated' :
  travel_plans st !! plan_id = Some tp ->
  DBTravelPlan.user_id tp = User.id current_user ->
  UpdateTravelPlan.start_date upd <> Some None ->
  UpdateTravelPlan.end_date upd <> Some None ->
  UpdateTravelPlan.status upd <> Some None ->
  UpdateTravelPlan.budget upd = Some (Some b) ->
  truthy b = true ->
  provinces st !! DBTravelPlan.province_id tp = Some province ->
  tax_reduction_in_context b province = Some computed ->
  Numeric.read_back b = Some budget' ->
  Numeric.read_back computed = Some estimated' ->
  exists tp',
    update_travel_plan st now current_user plan_id upd
    = (Return (travel_plan_model tp' province),
       set_travel_plans st (<[plan_id := tp']> (travel_plans st)))
    /\ DBTravelPlan.budget tp' = Some budget'
    /\ DBTravelPlan.estimated_tax_reduction tp' = Some estimated'.
Proof.
  intros Hrow Howner Hsd Hed Hst Hb Htrue Hprov Hctx Hbudget Hread.
  unfold update_travel_plan. rewrite Hrow.
  destruct (decide (DBTravelPlan.user_id tp = User.id current_user)) as [_ | Hne];
    [| contradiction].
  rewrite Hb. cbn [setattr_nullable]. rewrite Htrue, Hprov, Hctx.
  cbn [Numeric.read_back_nullable]. rewrite Hbudget, Hread.
  destruct (UpdateTravelPlan.start_date upd) as [[sd |] |]; try congruence;
    destruct (UpdateTravelPlan.end_date upd) as [[ed |] |]; try congruence;
    destruct (UpdateTravelPlan.status upd) as [[stt |] |]; try congruence;
    cbn [setattr_required fmap option_fmap option_map set_travel_plans provinces
           DBTravelPlan.province_id];
    rewrite Hprov; eexists; (split; [reflexivity |]); split; reflexivity.
Qed.

(** A supplied budget other than zero is followed by a fresh estimate
    against the plan's province: the number [b * r / 100], under the
    conditions of [reduction_stored_exact]. *)
Lemma update_recomputes_estimate st now current_user plan_id tp upd b province :
  travel_plans st !! plan_id = Some tp ->
  DBTravelPlan.user_id tp = User.id current_user ->
  UpdateTravelPlan.start_date upd <> Some None ->
  UpdateTravelPlan.end_date upd <> Some None ->
  UpdateTravelPlan.status upd <> Some None ->
  UpdateTravelPlan.budget upd = Some (Some b) ->
  provinces st !! DBTravelPlan.province_id tp = Some province ->
  let rate := DBProvince.tax_reduction_percentage province in
  0 < coef b -> 0 <= coef rate ->
  (to_Q b < inject_Z (2 ^ 1023))%Q ->
  (to_Q rate <= 100 # 1)%Q ->
  Z.abs (coef b * coef rate) < 10 ^ prec ->
  (to_Q b * to_Q rate / (100 # 1) < 524288 # 1)%Q ->
  multiple_of_pow10 (tax_reduction b province) (-10) = true ->
  exists estimate,
    stored_estimate (snd (update_travel_plan st now current_user plan_id upd)) plan_id
    = Some (Some estimate)
    /\ (to_Q estimate == to_Q b * to_Q rate / (100 # 1))%Q.
Proof.
  intros Hrow Howner Hsd Hed Hst Hb Hprov rate Hpos Hrpos Hfin Hr100 Hprod Hsmall Hdec.
  destruct (reduction_stored_exact b province Hpos Hrpos Hfin Hr100 Hprod Hsmall Hdec)
    as (computed & estimate & Hctx & Hread & Hval).
  destruct (read_back_finite b 1023 ltac:(lia) (to_Q_lt_ratio b _ Hpos Hfin))
    as [b' Hb'].
  destruct (update_travel_plan_commits st now current_user plan_id tp upd b province
              computed b' estimate Hrow Howner Hsd Hed Hst Hb
              (truthy_nonzero b ltac:(lia)) Hprov Hctx Hb' Hread)
    as (tp' & Hrun & _ & Hest).
  exists estimate. split; [| exact Hval].
  rewrite Hrun. cbn [snd]. now rewrite stored_estimate_insert, Hest.
Qed.

(** Scenario 3 of the specification: the budget of the fixture plan
    goes from 10000 to 20000 at 15.00%, the estimate becomes 3000. *)
Example update_20000_at_15_percent :
  exists estimate,
    stored_estimate
      (snd (update_travel_plan Fixtures.test_store 5
              (UserRouter.user_model Fixtures.test_user) "plan-1"
              (UpdateTravelPlan.mk None None (Some (Some (mkDec 20000 0))) None None)))
      "plan-1" = Some (Some estimate)
    /\ eqb estimate (mkDec 300000 (-2)) = true.
Proof. eexists. split; vm_compute; reflexivity. Qed.

(** The same budget of 1E+1000001 in an update: Overflow, and the row
    stays as it was. *)
Example update_overflow :
  update_travel_plan Fixtures.test_store 5
    (UserRouter.user_model Fixtures.test_user) "plan-1"
    (UpdateTravelPlan.mk None None (Some (Some (mkDec 1 1000001))) None None)
  = (Raise DecimalOverflow, Fixtures.test_store).
Proof. vm_compute. reflexivity. Qed.

(** C7 (failing input). The owner sets the budget of the fixture plan
    (budget 10000, estimate 1500.00, rate 15.00%) to zero: the update
    is committed, the budget is read back as zero ([0E-10]) and the
    estimate is still 1500.00, which is not [0 * 15.00 / 100]. *)
Theorem update_budget_zero_keeps_stale_estimate :
  let upd := UpdateTravelPlan.mk None None (Some (Some (mkDec 0 0))) None None in
  let result := update_travel_plan Fixtures.test_store 5
                  (UserRouter.user_model Fixtures.test_user) "plan-1" upd in
  (exists resp, fst result = Return resp
                /\ TravelPlan.budget resp = Some (mkDec 0 (-10))
                /\ TravelPlan.estimated_tax_reduction resp = Some (mkDec 150000 (-2)))
  /\ DBTravelPlan.budget <$> travel_plans (snd result) !! "plan-1"
     = Some (Some (mkDec 0 (-10)))
  /\ stored_estimate (snd result) "plan-1" = Some (Some (mkDec 150000 (-2)))
  /\ ~ (to_Q (mkDec 150000 (-2))
        == to_Q (mkDec 0 0)
           * to_Q (DBProvince.tax_reduction_percentage Fixtures.mae_hong_son)
           / (100 # 1))%Q.
Proof.
  cbv zeta. split; [| split; [| split]].
  - eexists. split; [vm_compute; reflexivity |]. split; reflexivity.
  - vm_compute. reflexivity.
  - vm_compute. reflexivity.
  - vm_compute. discriminate.
Qed.

(** The same happens when the budget is set to null: the estimate of
    the old budget stays. *)
Example update_budget_null_keeps_stale_estimate :
  let upd := UpdateTravelPlan.mk None None (Some None) None None in
  let st' := snd (update_travel_plan Fixtures.test_store 5
                    (UserRouter.user_model Fixtures.test_user) "plan-1" upd) in
  DBTravelPlan.budget <$> travel_plans st' !! "plan-1" = Some None
  /\ stored_estimate st' "plan-1" = Some (Some (mkDec 150000 (-2))).
Proof. split; vm_compute; reflexivity. Qed.

(** *** Status *)





End TravelFacts.

(** ** Tokens *)

Module SecurityFacts.

Import Jose Security.
Local Open Scope string_scope.
Local Open Scope Z_scope.

Section WithBackend.
Context `{Backend}.

(** The claims of an issued token. *)
Lemma issued_claims_lookup (data : gmap string value) (exp : Z) (kind : string) :
  let claims := <["type" := VStr kind]> (<["exp" := VInt exp]> data) in
  claims !! "exp" = Some (VInt exp)
  /\ claims !! "type" = Some (VStr kind)
  /\ forall name, name <> "exp" -> name <> "type" -> claims !! name = data !! name.
Proof.
  cbv zeta. split; [| split].
  - rewrite lookup_insert_ne by discriminate. apply lookup_insert_eq.
  - apply lookup_insert_eq.
  - intros name Hexp Htype.
    rewrite lookup_insert_ne by congruence. now rewrite lookup_insert_ne by congruence.
Qed.

Lemma first_error_In (checks : list (option JWTError)) (e : JWTError) :
  In (Some e) checks -> exists e', first_error checks = Some e'.
Proof.
  induction checks as [| [e0 |] rest IH]; cbn [first_error].
  - intros [].
  - intros _. now exists e0.
  - intros [Habs | Hin]; [discriminate | now apply IH].
Qed.

(** A token whose expiry second is over is refused, whatever else it
    claims. *)
Lemma validate_claims_expired now (claims : gmap string value) v exp :
  claims !! "exp" = Some v -> as_int v = Some exp -> exp < timegm now ->
  exists e, validate_claims now claims = Some e.
Proof.
  intros Hlook Hint Hpast. unfold validate_claims.
  apply first_error_In with (e := ExpiredSignatureError).
  right; right; left. unfold validate_exp. rewrite Hlook, Hint.
  destruct (Z.ltb_spec exp (timegm now)); [reflexivity | lia].
Qed.

(** The checks passed by a token that carries a subject, a type and
    an expiry and nothing else. *)
Lemma validate_claims_issued now (u kind : string) (exp : Z) :
  validate_claims now
    (<["type" := VStr kind]> (<["exp" := VInt exp]> {[ "sub" := VStr u ]}))
  = if exp <? timegm now then Some ExpiredSignatureError else None.
Proof.
  pose proof (issued_claims_lookup {[ "sub" := VStr u ]} exp kind) as Hlook.
  cbv zeta in Hlook. destruct Hlook as (Hexp & Htype & Hother).
  unfold validate_claims, validate_iat, validate_nbf, validate_exp, validate_aud,
    validate_str, validate_at_hash.
  rewrite Hexp.
  rewrite !Hother by discriminate.
  rewrite lookup_singleton_eq.
  rewrite !lookup_singleton_ne by discriminate.
  cbn [as_int first_error]. now destruct (exp <? timegm now).
Qed.

Lemma decode_encode now (claims : gmap string value) :
  decode now (encode claims SECRET_KEY ALGORITHM) SECRET_KEY [ALGORITHM]
  = match validate_claims now claims with
    | Some e => inl e
    | None => inr claims
    end.
Proof.
  unfold decode, encode.
  destruct (decide (ALGORITHM ∈ [ALGORITHM])) as [_ | Hnot];
    [| exfalso; apply Hnot; constructor].
  destruct (decide (sign SECRET_KEY ALGORITHM claims = sign SECRET_KEY ALGORITHM claims));
    [reflexivity | contradiction].
Qed.

(** What verification answers for a token issued for [u] with kind
    [kind] and expiry second [exp]. *)
Lemma verify_issued now (u kind token_type : string) (exp : Z) :
  verify_token now
    (encode (<["type" := VStr kind]> (<["exp" := VInt exp]> {[ "sub" := VStr u ]}))
       SECRET_KEY ALGORITHM)
    token_type
  = if exp <? timegm now then None
    else if decide (kind = token_type) then Some (VStr u) else None.
Proof.
  unfold verify_token. rewrite decode_encode, validate_claims_issued.
  destruct (exp <? timegm now); [reflexivity |].
  pose proof (issued_claims_lookup {[ "sub" := VStr u ]} exp kind) as Hlook.
  cbv zeta in Hlook. destruct Hlook as (_ & Htype & Hother).
  rewrite Htype, Hother by discriminate. rewrite lookup_singleton_eq.
  destruct (decide (kind = token_type)) as [-> | Hne].
  - destruct (decide (Some (VStr token_type) = Some (VStr token_type)));
      [reflexivity | contradiction].
  - destruct (decide (Some (VStr kind) = Some (VStr token_type))) as [Heq | _];
      [congruence | reflexivity].
Qed.

(** C1 (amended). A token issued for [u] as an access token at
    [now] is verified at [now'] as an access token, and the answer
    is [u], when its expiry second is not over; whatever the ttl
    and the two instants, it is not verified as a refresh token,
    and a refresh token is not verified as an access token. *)
Theorem token_kinds_do_not_mix (u : string) (ttl : option Z) (now now' : Z) :
  let data : gmap string value := {[ "sub" := VStr u ]} in
  (timegm now' <= timegm (expiry now ttl ACCESS_TOKEN_EXPIRE_MINUTES) ->
   verify_token now' (create_access_token now data ttl) "access" = Some (VStr u))
  /\ verify_token now' (create_access_token now data ttl) "refresh" = None
  /\ verify_token now' (create_refresh_token now data ttl) "access" = None.
Proof.
  cbv zeta. unfold create_access_token, create_refresh_token.
  rewrite !verify_issued. split; [| split].
  - intros Hlive.
    destruct (Z.ltb_spec (timegm (expiry now ttl ACCESS_TOKEN_EXPIRE_MINUTES))
                (timegm now')); [lia |].
    destruct (decide ("access" = "access")); [reflexivity | contradiction].
  - destruct (_ <? _); [reflexivity |].
    destruct (decide ("access" = "refresh")); [discriminate | reflexivity].
  - destruct (_ <? _); [reflexivity |].
    destruct (decide ("refresh" = "access")); [discriminate | reflexivity].
Qed.

Lemma timegm_before (issued now ttl : Z) :
  issued <= now -> ttl <= -1000000 -> timegm (issued + ttl) < timegm now.
Proof.
  intros Hle Httl. unfold timegm. Z.div_mod_to_equations. lia.
Qed.

Lemma verify_token_decode_error now t token_type e :
  decode now t SECRET_KEY [ALGORITHM] = inl e -> verify_token now t token_type = None.
Proof. intros Herr. unfold verify_token. now rewrite Herr. Qed.

Lemma verify_token_expired now alg (claims : gmap string value) signature token_type
    v exp :
  claims !! "exp" = Some v -> as_int v = Some exp -> exp < timegm now ->
  verify_token now (Compact alg claims signature) token_type = None.
Proof.
  intros Hlook Hint Hpast.
  destruct (validate_claims_expired now claims v exp Hlook Hint Hpast) as [e He].
  unfold verify_token, decode.
  destruct (decide (alg ∈ [ALGORITHM])); [| reflexivity].
  destruct (decide (signature = sign SECRET_KEY alg claims)); [| reflexivity].
  now rewrite He.
Qed.

(** C4 (amended). Verification has one failure answer, [None]: it is
    given for every [JWTError] raised by the decoding, so for a
    string that is not a token, for a signature that does not
    match, and for an expiry second that is over; and a token
    issued with a ttl of minus one second or less is refused at
    every later instant, whatever its other claims. *)
Theorem verification_failures_are_uniform (now : Z) (token_type : string) :
  (forall t e,
      decode now t SECRET_KEY [ALGORITHM] = inl e ->
      verify_token now t token_type = None)
  /\ (forall raw, verify_token now (Malformed raw) token_type = None)
  /\ (forall alg claims signature,
      signature <> sign SECRET_KEY alg claims ->
      verify_token now (Compact alg claims signature) token_type = None)
  /\ (forall alg (claims : gmap string value) signature v exp,
      claims !! "exp" = Some v -> as_int v = Some exp -> exp < timegm now ->
      verify_token now (Compact alg claims signature) token_type = None)
  /\ (forall issued data ttl,
      issued <= now -> ttl <= -1000000 ->
      verify_token now (create_access_token issued data (Some ttl)) token_type = None
      /\ verify_token now (create_refresh_token issued data (Some ttl)) token_type
         = None).
Proof.
  split; [| split; [| split; [| split]]].
  - intros t e. apply verify_token_decode_error.
  - intros raw. reflexivity.
  - intros alg claims signature Hforged. unfold verify_token, decode.
    destruct (decide (alg ∈ [ALGORITHM])); [| reflexivity].
    destruct (decide (signature = sign SECRET_KEY alg claims));
      [contradiction | reflexivity].
  - intros alg claims signature v exp. apply verify_token_expired.
  - intros issued data ttl Hle Httl.
    assert (Hexpiry : forall m, expiry issued (Some ttl) m = issued + ttl).
    { intros m. unfold expiry. destruct (Z.eqb_spec ttl 0); [lia | reflexivity]. }
    unfold create_access_token, create_refresh_token, encode.
    rewrite !Hexpiry.
    split; eapply verify_token_expired;
      try (apply issued_claims_lookup); try reflexivity;
      now apply timegm_before.
Qed.

End WithBackend.

(** The access token of the login of [testuser], presented five
    minutes later. *)
Lemma token_kinds_do_not_mix_witness :
  verify_token (H := Fixtures.test_backend) 300000000
    (create_access_token (H := Fixtures.test_backend) 0
       {[ "sub" := VStr "testuser" ]} (Some (minutes 300)))
    "access" = Some (VStr "testuser").
Proof.
  destruct (token_kinds_do_not_mix (H := Fixtures.test_backend)
              "testuser" (Some (minutes 300)) 0 300000000) as (Hlive & _ & _).
  apply Hlive. vm_compute. discriminate.
Defined.

(** C1 as stated fails: with a ttl of minus one second the access
    token is not verified as an access token. *)
Lemma expired_access_token_is_refused :
  verify_token (H := Fixtures.test_backend) 1000000000
    (create_access_token (H := Fixtures.test_backend) 1000000000
       {[ "sub" := VStr "testuser" ]} (Some (-1000000)))
    "access" <> Some (VStr "testuser").
Proof. vm_compute. discriminate. Qed.

(** A token issued with a ttl of minus one second, presented at once. *)
Lemma verification_failures_are_uniform_witness :
  verify_token (H := Fixtures.test_backend) 1000000000
    (create_access_token (H := Fixtures.test_backend) 1000000000
       {[ "sub" := VStr "testuser" ]} (Some (-1000000)))
    "access" = None.
Proof.
  destruct (verification_failures_are_uniform (H := Fixtures.test_backend)
              1000000000 "access") as (_ & _ & _ & _ & Hissued).
  apply (Hissued 1000000000 {[ "sub" := VStr "testuser" ]} (-1000000)); lia.
Defined.

(** C4 as stated fails for a negative ttl of less than a second: the
    expiry is stored in whole seconds, so the token issued at 1.5 s
    with a ttl of minus one microsecond is still verified at 1.5 s. *)
Lemma negative_ttl_token_is_accepted :
  verify_token (H := Fixtures.test_backend) 1500000
    (create_access_token (H := Fixtures.test_backend) 1500000
       {[ "sub" := VStr "testuser" ]} (Some (-1)))
    "access" = Some (VStr "testuser").
Proof. vm_compute. reflexivity. Qed.

End SecurityFacts.

(** ** Registration and login *)

Module UserFacts.

Import Jose Security UserRouter.
Local Open Scope string_scope.
Local Open Scope Z_scope.

Lemma first_by_email_found st (u : DBUser.t) :
  u ∈ users st -> exists u', first_by_email st (DBUser.email u) = Some u'.
Proof.
  intros Hin. unfold first_by_email.
  destruct (find _ (users st)) as [u' |] eqn:Hfind; [now exists u' |].
  apply list_elem_of_In in Hin.
  pose proof (find_none _ _ Hfind u Hin) as Hno. cbn in Hno.
  now rewrite bool_decide_eq_true_2 in Hno.
Qed.

Section WithBackend.
Context `{Backend} `{CryptContext} `{Settings}.

(** C8. Registering with the email of a stored principal fails with
    400 "Email already registered", whatever the requested
    username (the email is looked up first), and the store is left
    as it was. *)
Theorem register_duplicate_email st new_id now salt user_info (u : DBUser.t) :
  u ∈ users st ->
  DBUser.email u = RegisteredUser.email user_info ->
  register st new_id now salt user_info = (Raise email_already_registered, st).
Proof.
  intros Hin Hemail. unfold register.
  destruct (first_by_email_found st u Hin) as [u' Hfound].
  rewrite <- Hemail, Hfound. reflexivity.
Qed.

(** The second check: a free email with a taken username. *)
Lemma register_duplicate_username st new_id now salt user_info (u : DBUser.t) :
  first_by_email st (RegisteredUser.email user_info) = None ->
  first_by_username st (RegisteredUser.username user_info) = Some u ->
  register st new_id now salt user_info = (Raise username_already_taken, st).
Proof. intros Hemail Huser. unfold register. now rewrite Hemail, Huser. Qed.

(** C3. A login whose username is unknown and a login whose
    password does not verify against the stored hash raise the same
    exception: 401, "Incorrect username or password", with the same
    header. *)
Theorem login_failures_indistinguishable st now_access now_refresh user_login :
  first_by_username st (UserLogin.username user_login) = None
  \/ (exists u,
        first_by_username st (UserLogin.username user_login) = Some u
        /\ verify_password (UserLogin.password user_login)
             (DBUser.hashed_password u) = false) ->
  login st now_access now_refresh user_login = Raise incorrect_username_or_password.
Proof.
  intros [Hunknown | (u & Hknown & Hwrong)]; unfold login.
  - now rewrite Hunknown.
  - now rewrite Hknown, Hwrong.
Qed.

End WithBackend.

(** A second account with the email of [testuser] and another
    username. *)
Lemma register_duplicate_email_witness :
  register (H0 := Fixtures.test_crypt_context) Fixtures.test_store "user-3" 7 "salt"
    (RegisteredUser.mk "test@example.com" "differentusername" "password123"
       "Different" "User" None None None)
  = (Raise email_already_registered, Fixtures.test_store).
Proof.
  apply (register_duplicate_email (H0 := Fixtures.test_crypt_context)
           Fixtures.test_store "user-3" 7 "salt" _ Fixtures.test_user).
  - unfold Fixtures.test_store; cbn [users]. constructor.
  - reflexivity.
Defined.

(** An unknown username, and [testuser] with a wrong password. *)
Lemma login_failures_indistinguishable_witness :
  login (H := Fixtures.test_backend) (H0 := Fixtures.test_crypt_context)
    (H1 := Fixtures.test_settings) Fixtures.test_store 0 0
    (UserLogin.mk "nobody" "testpassword")
  = Raise incorrect_username_or_password
  /\ login (H := Fixtures.test_backend) (H0 := Fixtures.test_crypt_context)
       (H1 := Fixtures.test_settings) Fixtures.test_store 0 0
       (UserLogin.mk "testuser" "wrongpassword")
     = Raise incorrect_username_or_password.
Proof.
  split;
    apply (login_failures_indistinguishable (H := Fixtures.test_backend)
             (H0 := Fixtures.test_crypt_context) (H1 := Fixtures.test_settings)).
  - left. reflexivity.
  - right. exists Fixtures.test_user. split; reflexivity.
Defined.

(** The fixture login goes through and its access token is verified. *)
Example login_test_user :
  exists resp,
    login (H := Fixtures.test_backend) (H0 := Fixtures.test_crypt_context)
      (H1 := Fixtures.test_settings) Fixtures.test_store 0 0
      (UserLogin.mk "testuser" "testpassword") = Return resp
    /\ verify_token (H := Fixtures.test_backend) 1000000 (access_token resp) "access"
       = Some (VStr "testuser")
    /\ verify_token (H := Fixtures.test_backend) 1000000 (refresh_token resp) "access"
       = None.
Proof. eexists. split; [vm_compute; reflexivity |]. split; vm_compute; reflexivity. Qed.

End UserFacts.

(** ** Tokens: soundness and lifetime *)

Module TokenFacts.

Import Jose Security.
Local Open Scope string_scope.
Local Open Scope Z_scope.

Section WithBackend.
Context `{Backend}.

Lemma first_error_None (checks : list (option JWTError)) :
  first_error checks = None -> Forall (fun c => c = None) checks.
Proof.
  induction checks as [| [e |] rest IH]; cbn [first_error]; intros Hnone.
  - constructor.
  - discriminate.
  - constructor; [reflexivity | now apply IH].
Qed.

(** What [jwt.decode] guarantees about the claims it returns. *)
Lemma decode_inr now t (claims : gmap string value) :
  decode now t SECRET_KEY [ALGORITHM] = inr claims ->
  t = Compact ALGORITHM claims (sign SECRET_KEY ALGORITHM claims)
  /\ validate_claims now claims = None.
Proof.
  unfold decode. destruct t as [raw | alg c signature]; [discriminate |].
  destruct (decide (alg ∈ [ALGORITHM])) as [Halg | _]; [| discriminate].
  apply list_elem_of_singleton in Halg. subst alg.
  destruct (decide (signature = sign SECRET_KEY ALGORITHM c)) as [-> | _];
    [| discriminate].
  destruct (validate_claims now c) eqn:Hvalid; [discriminate |].
  intros [= <-]. auto.
Qed.

(** X1. Soundness of verification: a subject is returned only for an
    envelope signed with HS256 under the secret key, whose subject is
    that string, whose type claim is the expected kind, and whose
    expiry second, if it has one, is not over. *)
Theorem verify_token_sound now t token_type v :
  verify_token now t token_type = Some v ->
  exists (claims : gmap string value) (u : string),
    t = Compact ALGORITHM claims (sign SECRET_KEY ALGORITHM claims)
    /\ v = VStr u
    /\ claims !! "sub" = Some (VStr u)
    /\ claims !! "type" = Some (VStr token_type)
    /\ forall x exp, claims !! "exp" = Some x -> as_int x = Some exp -> timegm now <= exp.
Proof.
  unfold verify_token.
  destruct (decode now t SECRET_KEY [ALGORITHM]) as [e | claims] eqn:Hdec;
    [discriminate |].
  destruct (decode_inr now t claims Hdec) as [-> Hvalid].
  destruct (claims !! "sub") as [sub |] eqn:Hsub; [| discriminate].
  destruct (decide (claims !! "type" = Some (VStr token_type))) as [Htype | _];
    [| discriminate].
  intros [= <-].
  apply first_error_None in Hvalid.
  inversion Hvalid as [| ? ? _ Hrest]; subst.
  inversion Hrest as [| ? ? _ Hrest2]; subst.
  inversion Hrest2 as [| ? ? Hexp Hrest3]; subst.
  inversion Hrest3 as [| ? ? _ Hrest4]; subst.
  inversion Hrest4 as [| ? ? Hsubcheck _]; subst.
  unfold validate_str in Hsubcheck. rewrite Hsub in Hsubcheck.
  destruct sub as [u | z]; [| discriminate].
  exists claims, u. repeat split; auto.
  intros x exp Hx Hint. unfold validate_exp in Hexp. rewrite Hx, Hint in Hexp.
  destruct (Z.ltb_spec exp (timegm now)); [discriminate | lia].
Qed.

(** X2. The lifetime of an issued token: it is accepted as its own
    kind exactly as long as its expiry second is not over, for access
    and for refresh tokens; and a ttl of zero is not an immediate
    expiry: it gives the token of the default lifetime. *)
Theorem issued_token_lifetime (u : string) (ttl : option Z) (now now' : Z) :
  let data : gmap string value := {[ "sub" := VStr u ]} in
  (verify_token now' (create_access_token now data ttl) "access" = Some (VStr u)
   <-> timegm now' <= timegm (expiry now ttl ACCESS_TOKEN_EXPIRE_MINUTES))
  /\ (verify_token now' (create_refresh_token now data ttl) "refresh" = Some (VStr u)
      <-> timegm now' <= timegm (expiry now ttl REFRESH_TOKEN_EXPIRE_MINUTES))
  /\ create_access_token now data (Some 0) = create_access_token now data None
  /\ create_refresh_token now data (Some 0) = create_refresh_token now data None.
Proof.
  cbv zeta. unfold create_access_token, create_refresh_token.
  rewrite !SecurityFacts.verify_issued.
  split; [| split; [| split; reflexivity]].
  - destruct (Z.ltb_spec (timegm (expiry now ttl ACCESS_TOKEN_EXPIRE_MINUTES))
                (timegm now')) as [Hover | Hlive].
    + split; [discriminate | lia].
    + destruct (decide ("access" = "access")); [| contradiction].
      split; [intros _; exact Hlive | reflexivity].
  - destruct (Z.ltb_spec (timegm (expiry now ttl REFRESH_TOKEN_EXPIRE_MINUTES))
                (timegm now')) as [Hover | Hlive].
    + split; [discriminate | lia].
    + destruct (decide ("refresh" = "refresh")); [| contradiction].
      split; [intros _; exact Hlive | reflexivity].
Qed.

End WithBackend.

(** The access token of the fixture login is sound. *)
Lemma verify_token_sound_witness :
  exists (claims : gmap string value) (u : string),
    create_access_token (H := Fixtures.test_backend) 0
      {[ "sub" := VStr "testuser" ]} (Some (minutes 300))
    = Compact ALGORITHM claims
        (sign (Backend := Fixtures.test_backend) SECRET_KEY ALGORITHM claims)
    /\ VStr "testuser" = VStr u
    /\ claims !! "sub" = Some (VStr u)
    /\ claims !! "type" = Some (VStr "access")
    /\ forall x exp, claims !! "exp" = Some x ->
         as_int (H := Fixtures.test_backend) x = Some exp -> timegm 300000000 <= exp.
Proof.
  apply (verify_token_sound (H := Fixtures.test_backend) 300000000
           (create_access_token (H := Fixtures.test_backend) 0
              {[ "sub" := VStr "testuser" ]} (Some (minutes 300)))
           "access" (VStr "testuser")).
  vm_compute. reflexivity.
Defined.

End TokenFacts.

(** ** The authentication gateway *)

Module DepsFacts.

Import Jose Security UserRouter Deps.
Local Open Scope string_scope.
Local Open Scope Z_scope.

Lemma first_by_username_spec st name (u : DBUser.t) :
  first_by_username st name = Some u -> u ∈ users st /\ DBUser.username u = name.
Proof.
  unfold first_by_username. intros Hfind. apply find_some in Hfind as [Hin Hp].
  split; [now apply list_elem_of_In |].
  now apply bool_decide_eq_true_1 in Hp.
Qed.

Lemma first_by_username_again st name (u : DBUser.t) :
  first_by_username st name = Some u ->
  first_by_username st (DBUser.username u) = Some u.
Proof.
  intros Hfind. destruct (first_by_username_spec st name u Hfind) as [_ ->].
  exact Hfind.
Qed.

Section WithBackend.
Context `{Backend} `{CryptContext} `{Settings}.

(** X3. The gateway answers with a principal only for a verified
    access token whose subject is the username of a stored, active
    user, and the answer is the public view of that user; every
    refusal is the 401 "Could not validate credentials", except for a
    verified token of a stored inactive user, which is the 400
    "Inactive user". *)
Theorem get_current_user_outcomes st now credentials :
  match get_current_user st now credentials with
  | Return view =>
      exists u, u ∈ users st
        /\ verify_token now credentials "access" = Some (VStr (DBUser.username u))
        /\ DBUser.is_active u = true
        /\ view = user_model u
  | Raise e =>
      e = credentials_exception
      \/ (e = inactive_user
          /\ exists u, u ∈ users st
               /\ verify_token now credentials "access"
                  = Some (VStr (DBUser.username u))
               /\ DBUser.is_active u = false)
  end.
Proof.
  unfold get_current_user.
  destruct (verify_token now credentials "access") as [[s | z] |]; [| now left ..].
  destruct (first_by_username st s) as [u |] eqn:Hfind; [| now left].
  destruct (first_by_username_spec st s u Hfind) as [Hin <-].
  destruct (DBUser.is_active u) eqn:Hactive; cbn [negb].
  - exists u. auto.
  - right. split; [reflexivity |]. exists u. auto.
Qed.

(** X4. A principal returned by [get_current_user] passes
    [get_current_active_user] unchanged: the second check never
    fires. *)
Theorem get_current_active_user_after_gateway st now credentials view :
  get_current_user st now credentials = Return view ->
  get_current_active_user view = Return view.
Proof.
  intros Hrun. pose proof (get_current_user_outcomes st now credentials) as Hout.
  rewrite Hrun in Hout. destruct Hout as (u & _ & _ & Hactive & ->).
  unfold get_current_active_user, user_model. cbn [User.is_active].
  now rewrite Hactive.
Qed.

(** X5. Login, then the gateway: for a stored, active user and the
    right password, login returns tokens, and presenting the access
    token while its expiry second is not over gives back the user of
    the login response. *)
Theorem login_then_get_current_user st now_access now_refresh now' user_login u :
  first_by_username st (UserLogin.username user_login) = Some u ->
  verify_password (UserLogin.password user_login) (DBUser.hashed_password u) = true ->
  DBUser.is_active u = true ->
  timegm now'
  <= timegm (expiry now_access (Some (minutes settings_ACCESS_TOKEN_EXPIRE_MINUTES))
               ACCESS_TOKEN_EXPIRE_MINUTES) ->
  exists resp,
    login st now_access now_refresh user_login = Return resp
    /\ user resp = user_model u
    /\ get_current_user st now' (access_token resp) = Return (user resp).
Proof.
  intros Hfind Hpw Hactive Hlive. unfold login.
  rewrite Hfind, Hpw, Hactive. cbn [negb].
  eexists. split; [reflexivity |]. cbn [user access_token].
  split; [reflexivity |].
  unfold get_current_user, create_access_token.
  rewrite SecurityFacts.verify_issued.
  destruct (Z.ltb_spec
              (timegm (expiry now_access
                         (Some (minutes settings_ACCESS_TOKEN_EXPIRE_MINUTES))
                         ACCESS_TOKEN_EXPIRE_MINUTES))
              (timegm now')); [lia |].
  destruct (decide ("access" = "access")); [| contradiction].
  rewrite (first_by_username_again st _ u Hfind), Hactive. reflexivity.
Qed.

(** X6. The refresh token of a login is never accepted by the gateway,
    at any instant: it is refused with the 401 of an invalid
    credential. *)
Theorem refresh_token_never_authenticates st now_access now_refresh now' user_login resp :
  login st now_access now_refresh user_login = Return resp ->
  get_current_user st now' (refresh_token resp) = Raise credentials_exception.
Proof.
  unfold login.
  destruct (first_by_username st (UserLogin.username user_login)) as [u |];
    [| discriminate].
  destruct (negb (verify_password _ _)); [discriminate |].
  destruct (negb (DBUser.is_active u)); [discriminate |].
  intros [= <-]. cbn [refresh_token].
  unfold get_current_user, create_refresh_token.
  rewrite SecurityFacts.verify_issued.
  destruct (_ <? _); [reflexivity |].
  destruct (decide ("refresh" = "access")); [discriminate | reflexivity].
Qed.

End WithBackend.

Lemma get_current_active_user_after_gateway_witness :
  get_current_active_user (user_model Fixtures.test_user)
  = Return (user_model Fixtures.test_user).
Proof.
  apply (get_current_active_user_after_gateway (H := Fixtures.test_backend)
           Fixtures.test_store 1000000
           (create_access_token (H := Fixtures.test_backend) 0
              {[ "sub" := VStr "testuser" ]} (Some (minutes 300)))).
  vm_compute. reflexivity.
Defined.

Lemma login_then_get_current_user_witness :
  exists resp,
    login (H := Fixtures.test_backend) (H0 := Fixtures.test_crypt_context)
      (H1 := Fixtures.test_settings) Fixtures.test_store 0 0
      (UserLogin.mk "testuser" "testpassword") = Return resp
    /\ user resp = user_model Fixtures.test_user
    /\ get_current_user (H := Fixtures.test_backend) Fixtures.test_store 60000000
         (access_token resp) = Return (user resp).
Proof.
  apply (login_then_get_current_user (H := Fixtures.test_backend)
           (H0 := Fixtures.test_crypt_context) (H1 := Fixtures.test_settings)
           Fixtures.test_store 0 0 60000000 (UserLogin.mk "testuser" "testpassword")
           Fixtures.test_user).
  - reflexivity.
  - reflexivity.
  - reflexivity.
  - vm_compute. discriminate.
Defined.

Lemma refresh_token_never_authenticates_witness :
  exists resp,
    login (H := Fixtures.test_backend) (H0 := Fixtures.test_crypt_context)
      (H1 := Fixtures.test_settings) Fixtures.test_store 0 0
      (UserLogin.mk "testuser" "testpassword") = Return resp
    /\ get_current_user (H := Fixtures.test_backend) Fixtures.test_store 60000000
         (refresh_token resp) = Raise credentials_exception.
Proof.
  eexists. split; [vm_compute; reflexivity |].
  eapply (refresh_token_never_authenticates (H := Fixtures.test_backend)
            (H0 := Fixtures.test_crypt_context) (H1 := Fixtures.test_settings)
            Fixtures.test_store 0 0 60000000 (UserLogin.mk "testuser" "testpassword")).
  vm_compute. reflexivity.
Defined.

End DepsFacts.

(** ** The listing of travel plans and the tax information *)

Module TravelReadFacts.

Import TravelRouter TravelRouterRead.
Local Open Scope string_scope.
Local Open Scope Z_scope.




#[local] Instance created_later_first_trans : Transitive created_later_first.
Proof. unfold created_later_first. intros a b c Hab Hbc. lia. Qed.

#[local] Instance created_later_first_total : Total created_later_first.
Proof. unfold created_later_first. intros a b. lia. Qed.

(** X8. The listing is ordered by creation time, latest first: every
    plan was created no earlier than all the plans listed after it. *)
Theorem listing_is_latest_first st clock current_user status_filter :
  StronglySorted
    (fun a b : TravelPlan.t => TravelPlan.created_at b <= TravelPlan.created_at a)
    (TravelPlanListResponse.travel_plans
       (get_user_travel_plans st clock current_user status_filter)).
Proof.
  unfold get_user_travel_plans. cbn [TravelPlanListResponse.travel_plans].
  apply (StronglySorted_fmap _ created_later_first).
  - intros a b Hab. exact Hab.
  - unfold user_plan_rows. apply StronglySorted_merge_sort; apply _.
Qed.

Lemma foldl_count_status (tps : list TravelPlan.t) :
  forall (m : gmap string nat) (s : string),
    foldl count_status m tps !! s
    = match length (filter (fun tp => TravelPlan.status tp = s) tps) with
      | O => m !! s
      | S n => Some (default 0%nat (m !! s) + S n)%nat
      end.
Proof.
  induction tps as [| tp rest IH]; intros m s; cbn [foldl].
  - reflexivity.
  - rewrite IH. unfold count_status. rewrite filter_cons.
    destruct (decide (TravelPlan.status tp = s)) as [Heq | Hne].
    + subst s. rewrite !lookup_insert_eq. cbn [length default id].
      destruct (length (filter _ rest)); f_equal; lia.
    + rewrite !lookup_insert_ne by exact Hne. reflexivity.
Qed.

(** X9. [plans_by_status] counts the listed plans by status: a status
    carried by [n > 0] listed plans maps to [n], and a status carried
    by none is not a key. *)
Theorem plans_by_status_counts st clock current_user status_filter (s : string) :
  let resp := get_user_travel_plans st clock current_user status_filter in
  TravelPlanListResponse.plans_by_status resp !! s
  = match length (filter (fun tp => TravelPlan.status tp = s)
                    (TravelPlanListResponse.travel_plans resp)) with
    | O => None
    | S n => Some (S n)
    end.
Proof.
  cbv zeta. unfold get_user_travel_plans.
  cbn [TravelPlanListResponse.travel_plans TravelPlanListResponse.plans_by_status].
  rewrite foldl_count_status, lookup_empty. reflexivity.
Qed.

Lemma elem_of_upcoming clock (tps : list TravelPlan.t) :
  forall i tp,
    tp ∈ upcoming clock i tps ->
    tp ∈ tps
    /\ (TravelPlan.status tp = "planned" \/ TravelPlan.status tp = "confirmed")
    /\ exists j, (i <= j)%nat /\ clock j < TravelPlan.start_date tp.
Proof.
  induction tps as [| hd rest IH]; intros i tp; cbn [upcoming].
  - intros Hin. now apply elem_of_nil in Hin.
  - destruct (Z.ltb_spec (clock i) (TravelPlan.start_date hd)) as [Hlater | _];
      cbn [andb];
      [destruct (bool_decide_reflect (TravelPlan.status hd ∈ ["planned"; "confirmed"]))
         as [Hstatus | _] |].
    + intros Hin. apply elem_of_cons in Hin as [-> | Hin].
      * split; [left |]. split; [| exists i; split; [lia | exact Hlater]].
        apply elem_of_cons in Hstatus as [-> | Hstatus]; [now left |].
        apply elem_of_cons in Hstatus as [-> | Hstatus]; [now right |].
        now apply elem_of_nil in Hstatus.
      * destruct (IH (S i) tp Hin) as (Hrest & Hst & j & Hj & Hclock).
        split; [now right |]. split; [exact Hst |]. exists j. split; [lia | exact Hclock].
    + intros Hin. destruct (IH (S i) tp Hin) as (Hrest & Hst & j & Hj & Hclock).
      split; [now right |]. split; [exact Hst |]. exists j. split; [lia | exact Hclock].
    + intros Hin. destruct (IH (S i) tp Hin) as (Hrest & Hst & j & Hj & Hclock).
      split; [now right |]. split; [exact Hst |]. exists j. split; [lia | exact Hclock].
Qed.

(** X10. [upcoming_trips] holds at most five plans, each of them a
    listed plan with status "planned" or "confirmed" that starts after
    a clock read of the request; when no read is before [since], each
    starts after [since]. *)
Theorem upcoming_trips_are_future_plans st clock current_user status_filter :
  let resp := get_user_travel_plans st clock current_user status_filter in
  (length (TravelPlanListResponse.upcoming_trips resp) <= 5)%nat
  /\ forall tp,
       tp ∈ TravelPlanListResponse.upcoming_trips resp ->
       tp ∈ TravelPlanListResponse.travel_plans resp
       /\ (TravelPlan.status tp = "planned" \/ TravelPlan.status tp = "confirmed")
       /\ forall since, (forall i, since <= clock i) -> since < TravelPlan.start_date tp.
Proof.
  cbv zeta. unfold get_user_travel_plans.
  cbn [TravelPlanListResponse.travel_plans TravelPlanListResponse.upcoming_trips].
  split.
  - rewrite length_take. lia.
  - intros tp Hin. apply elem_of_take in Hin as (i & Hlook & _).
    apply list_elem_of_lookup_2 in Hlook.
    destruct (elem_of_upcoming clock _ 0%nat tp Hlook) as (Hlisted & Hstatus & j & _ & Hclock).
    repeat split; auto. intros since Hsince. specialize (Hsince j). lia.
Qed.

End TravelReadFacts.

(** ** The life of a travel plan *)

Module TravelLifecycleFacts.

Import TravelRouter TravelRouterRead DecFacts NumericFacts TravelFacts.
Local Open Scope string_scope.
Local Open Scope Z_scope.

(** What the owner reads when the province of the plan exists. *)
Lemma get_travel_plan_owner st current_user plan_id tp province :
  travel_plans st !! plan_id = Some tp ->
  DBTravelPlan.user_id tp = User.id current_user ->
  provinces st !! DBTravelPlan.province_id tp = Some province ->
  get_travel_plan st current_user plan_id = Return (travel_plan_model tp province).
Proof.
  intros Hrow Howner Hprov. unfold get_travel_plan. rewrite Hrow.
  destruct (decide (DBTravelPlan.user_id tp = User.id current_user)); [| contradiction].
  now rewrite Hprov.
Qed.

(** X11. Creation, then reading: after a creation that returns, the
    owner reads the plan back by its new id and gets the plan of the
    creation response. *)
Theorem create_then_get st new_id now current_user travel_plan resp st' :
  create_travel_plan st new_id now current_user travel_plan = (Return resp, st') ->
  get_travel_plan st' current_user new_id = Return (TravelRouter.travel_plan resp).
Proof.
  intros Hrun.
  destruct (create_travel_plan_returns _ _ _ _ _ _ _ Hrun)
    as (province & row & Hprov & _ & -> & -> & _ & Huser & Hpid & _).
  apply get_travel_plan_owner; cbn [set_travel_plans travel_plans provinces].
  - apply lookup_insert_eq.
  - exact Huser.
  - now rewrite Hpid.
Qed.

(** X12. Updating, then reading: after an update that returns, the
    owner reads the plan back and gets the plan of the update
    response. *)
Theorem update_then_get st now current_user plan_id upd resp st' :
  update_travel_plan st now current_user plan_id upd = (Return resp, st') ->
  get_travel_plan st' current_user plan_id = Return resp.
Proof.
  intros Hrun.
  destruct (update_travel_plan_returns_row _ _ _ _ _ _ _ Hrun)
    as (tp & tp' & province & _ & Howner & Hprov & -> & -> & _ & Huser & Hpid & _).
  apply get_travel_plan_owner; cbn [set_travel_plans travel_plans provinces].
  - apply lookup_insert_eq.
  - now rewrite Huser.
  - now rewrite Hpid.
Qed.

(** X13. Deletion: after a deletion that returns, the plan is gone
    (reading it and deleting it again both answer 404 "Travel plan not
    found"), and every other plan is still stored as it was. *)
Theorem delete_removes_only_that_plan st current_user plan_id msg st' :
  delete_travel_plan st current_user plan_id = (Return msg, st') ->
  travel_plans st' !! plan_id = None
  /\ get_travel_plan st' current_user plan_id = Raise travel_plan_not_found
  /\ delete_travel_plan st' current_user plan_id = (Raise travel_plan_not_found, st')
  /\ (forall other, other <> plan_id -> travel_plans st' !! other = travel_plans st !! other)
  /\ users st' = users st
  /\ provinces st' = provinces st.
Proof.
  unfold delete_travel_plan at 1.
  destruct (travel_plans st !! plan_id) as [tp |]; [| discriminate].
  destruct (decide (DBTravelPlan.user_id tp = User.id current_user)); [| discriminate].
  intros [= <- <-].
  assert (Hgone : travel_plans (set_travel_plans st (delete plan_id (travel_plans st)))
                  !! plan_id = None) by (cbn; apply lookup_delete_eq).
  split; [exact Hgone |].
  unfold get_travel_plan, delete_travel_plan. rewrite Hgone.
  repeat split; try reflexivity.
  intros other Hne. cbn. now apply lookup_delete_ne.
Qed.

(** X14. The three writing handlers touch one row: whatever their
    outcome, creating, updating and deleting a plan leave the users,
    the province catalogue and every plan stored under another id as
    they were. *)
Theorem plan_writes_touch_one_row st new_id now current_user plan_id travel_plan upd :
  let created := snd (create_travel_plan st new_id now current_user travel_plan) in
  let updated := snd (update_travel_plan st now current_user plan_id upd) in
  let deleted := snd (delete_travel_plan st current_user plan_id) in
  (users created = users st /\ provinces created = provinces st
   /\ forall other, other <> new_id ->
        travel_plans created !! other = travel_plans st !! other)
  /\ (users updated = users st /\ provinces updated = provinces st
      /\ forall other, other <> plan_id ->
           travel_plans updated !! other = travel_plans st !! other)
  /\ (users deleted = users st /\ provinces deleted = provinces st
      /\ forall other, other <> plan_id ->
           travel_plans deleted !! other = travel_plans st !! other).
Proof.
  cbv zeta. split; [| split].
  - destruct (create_travel_plan_store st new_id now current_user travel_plan)
      as [-> | (row & province & _ & -> & _)]; [auto |].
    cbn. repeat split. intros other Hne. now apply lookup_insert_ne.
  - destruct (update_travel_plan_store st now current_user plan_id upd)
      as [-> | (tp & tp' & _ & -> & _)]; [auto |].
    cbn. repeat split. intros other Hne. now apply lookup_insert_ne.
  - unfold delete_travel_plan.
    destruct (travel_plans st !! plan_id) as [tp |]; [| now cbn].
    destruct (decide (DBTravelPlan.user_id tp = User.id current_user)); [| now cbn].
    cbn. repeat split. intros other Hne. now apply lookup_delete_ne.
Qed.

Lemma create_then_get_witness :
  let result :=
    create_travel_plan Fixtures.test_store "plan-2" 0
      (UserRouter.user_model Fixtures.test_user)
      (Fixtures.create_request (Some (mkDec 15000 0))) in
  exists resp,
    fst result = Return resp
    /\ get_travel_plan (snd result) (UserRouter.user_model Fixtures.test_user) "plan-2"
       = Return (TravelRouter.travel_plan resp).
Proof.
  cbv zeta.
  destruct (create_travel_plan Fixtures.test_store "plan-2" 0
              (UserRouter.user_model Fixtures.test_user)
              (Fixtures.create_request (Some (mkDec 15000 0))))
    as [[resp | e] st'] eqn:Hrun.
  - exists resp. split; [reflexivity |].
    exact (create_then_get _ _ _ _ _ _ _ Hrun).
  - exfalso. vm_compute in Hrun. discriminate Hrun.
Defined.

Lemma update_then_get_witness :
  let result :=
    update_travel_plan Fixtures.test_store 5
      (UserRouter.user_model Fixtures.test_user) "plan-1"
      (UpdateTravelPlan.mk None None (Some (Some (mkDec 20000 0)))
         (Some (Some "confirmed")) None) in
  exists resp,
    fst result = Return resp
    /\ get_travel_plan (snd result) (UserRouter.user_model Fixtures.test_user) "plan-1"
       = Return resp.
Proof.
  cbv zeta.
  destruct (update_travel_plan Fixtures.test_store 5
              (UserRouter.user_model Fixtures.test_user) "plan-1"
              (UpdateTravelPlan.mk None None (Some (Some (mkDec 20000 0)))
                 (Some (Some "confirmed")) None)) as [[resp | e] st'] eqn:Hrun.
  - exists resp. split; [reflexivity |].
    exact (update_then_get _ _ _ _ _ _ _ Hrun).
  - exfalso. vm_compute in Hrun. discriminate Hrun.
Defined.

Lemma delete_removes_only_that_plan_witness :
  let result :=
    delete_travel_plan Fixtures.test_store (UserRouter.user_model Fixtures.test_user)
      "plan-1" in
  exists msg,
    fst result = Return msg
    /\ travel_plans (snd result) !! "plan-1" = None
    /\ get_travel_plan (snd result) (UserRouter.user_model Fixtures.test_user) "plan-1"
       = Raise travel_plan_not_found.
Proof.
  cbv zeta.
  destruct (delete_travel_plan Fixtures.test_store
              (UserRouter.user_model Fixtures.test_user) "plan-1")
    as [[msg | e] st'] eqn:Hrun.
  - exists msg. split; [reflexivity |].
    destruct (delete_removes_only_that_plan _ _ _ _ _ Hrun) as (Hgone & Hget & _).
    split; [exact Hgone | exact Hget].
  - exfalso. vm_compute in Hrun. discriminate Hrun.
Defined.

(** The tax information of an owner's plan whose province exists. *)
Lemma get_travel_plan_tax_info_owner st current_user plan_id tp province :
  travel_plans st !! plan_id = Some tp ->
  DBTravelPlan.user_id tp = User.id current_user ->
  provinces st !! DBTravelPlan.province_id tp = Some province ->
  exists info,
    get_travel_plan_tax_info st current_user plan_id = Return info
    /\ TravelPlanWithTaxInfo.estimated_tax_reduction info
       = DBTravelPlan.estimated_tax_reduction tp
    /\ TravelPlanWithTaxInfo.status info = DBTravelPlan.status tp
    /\ TravelPlanWithTaxInfo.actual_tax_savings info
       = match DBTravelPlan.budget tp with
         | Some budget =>
             if truthy budget && bool_decide (DBTravelPlan.status tp = "completed")
             then Some (tax_reduction budget province)
             else None
         | None => None
         end.
Proof.
  intros Hrow Howner Hprov. unfold get_travel_plan_tax_info. rewrite Hrow.
  destruct (decide (DBTravelPlan.user_id tp = User.id current_user)); [| contradiction].
  rewrite Hprov. eexists. split; [reflexivity |]. cbn. auto.
Qed.



(** X16. The tax information is as closed as the plan itself: for a
    plan of another user the answer is the 404 "Travel plan not found"
    that a missing id gets. *)
Theorem tax_info_ownership_isolation st current_user plan_id tp :
  travel_plans st !! plan_id = Some tp ->
  DBTravelPlan.user_id tp <> User.id current_user ->
  get_travel_plan_tax_info st current_user plan_id = Raise travel_plan_not_found
  /\ forall missing, travel_plans st !! missing = None ->
       get_travel_plan_tax_info st current_user missing = Raise travel_plan_not_found.
Proof.
  intros Hrow Hother. unfold get_travel_plan_tax_info. rewrite Hrow.
  destruct (decide (DBTravelPlan.user_id tp = User.id current_user)); [contradiction |].
  split; [reflexivity |]. intros missing ->. reflexivity.
Qed.

Lemma tax_info_ownership_isolation_witness :
  get_travel_plan_tax_info Fixtures.test_store
    (UserRouter.user_model Fixtures.other_user) "plan-1" = Raise travel_plan_not_found.
Proof.
  destruct (tax_info_ownership_isolation Fixtures.test_store
              (UserRouter.user_model Fixtures.other_user) "plan-1" Fixtures.test_plan)
    as [Hown _].
  - reflexivity.
  - discriminate.
  - exact Hown.
Defined.

(** X17. Create, complete, ask: for a budget [b > 0] below 524288
    with at most ten decimals, at a rate [r > 0] of at most 100 whose
    coefficient has at most 12 digits, and when the reduction
    [b * r / 100] has at most ten decimals, the plan created with that
    budget and then marked "completed" by its owner shows actual
    savings equal to the estimate stored at creation, both being the
    number [b * r / 100]. *)
Theorem completed_plan_actual_equals_estimate
    st new_id now now' current_user travel_plan province budget :
  provinces st !! CreateTravelPlan.province_id travel_plan = Some province ->
  travel_plans st !! new_id = None ->
  CreateTravelPlan.budget travel_plan = Some budget ->
  let rate := DBProvince.tax_reduction_percentage province in
  0 < coef budget -> 0 < coef rate ->
  (to_Q budget < 524288 # 1)%Q ->
  (to_Q rate <= 100 # 1)%Q ->
  Z.abs (coef budget * coef rate) < 10 ^ prec ->
  Z.abs (coef rate) < 10 ^ 12 ->
  multiple_of_pow10 budget (-10) = true ->
  multiple_of_pow10 (tax_reduction budget province) (-10) = true ->
  let created := snd (create_travel_plan st new_id now current_user travel_plan) in
  let completed :=
    snd (update_travel_plan created now' current_user new_id
           (UpdateTravelPlan.mk None None None (Some (Some "completed")) None)) in
  exists info estimate actual,
    get_travel_plan_tax_info completed current_user new_id = Return info
    /\ TravelPlanWithTaxInfo.status info = "completed"
    /\ TravelPlanWithTaxInfo.estimated_tax_reduction info = Some estimate
    /\ TravelPlanWithTaxInfo.actual_tax_savings info = Some actual
    /\ (to_Q estimate == to_Q budget * to_Q rate / (100 # 1))%Q
    /\ (to_Q actual == to_Q budget * to_Q rate / (100 # 1))%Q.
Proof.
  intros Hprov Hfresh Hbudget rate Hbpos Hrpos Hbsmall Hr100 Hprod Hrdigits Hbdec Hpdec.
  cbv zeta.
  assert (Hrate : Z.abs (coef rate) < 10 ^ prec) by nia.
  pose proof (tax_reduction_exact budget province Hrate Hprod) as Hexact.
  fold rate in Hexact.
  assert (Hp : tax_reduction budget province
               = mkDec (coef budget * coef rate) (dexp budget + (dexp rate - 2))).
  { unfold tax_reduction. fold rate. rewrite (div100_exact rate Hrate).
    now rewrite mul_exact. }
  set (p := tax_reduction budget province) in *.
  assert (Hpcoef : 0 < coef p) by (rewrite Hp; cbn [coef]; nia).
  assert (Hpfit : Z.abs (coef p) < 10 ^ prec) by (rewrite Hp; exact Hprod).
  (* the reduction is at most the budget *)
  assert (Hpsmall : (to_Q p < 524288 # 1)%Q).
  { rewrite Hexact. apply Qle_lt_trans with (to_Q budget); [| exact Hbsmall].
    apply Qle_shift_div_r; [reflexivity |].
    apply Qmult_le_l; [now apply to_Q_pos | exact Hr100]. }
  (* the exponents are far from the limits *)
  assert (Hbexp : dexp budget < 6).
  { apply (ratio_dexp_upper budget 524288); [lia | | lia | reflexivity].
    apply Z.lt_le_incl. now apply to_Q_lt_ratio. }
  assert (Hrexp : dexp rate < 3).
  { apply (ratio_dexp_upper rate 100); [lia | | lia | reflexivity].
    apply to_Q_le_ratio; [lia | exact Hr100]. }
  pose proof (multiple_dexp_lower p ltac:(lia) Hpfit Hpdec) as Hplow.
  assert (Hpexp : dexp p = dexp budget + (dexp rate - 2)) by now rewrite Hp.
  assert (Hlimits : Etiny <= dexp rate - 2 <= Etop
                    /\ Etiny <= dexp budget + dexp rate - 2 <= Etop).
  { unfold Etiny, Etop, Emin, Emax, prec in *. lia. }
  destruct Hlimits as [Hre Hpe].
  assert (Hrnz : coef rate <> 0) by lia.
  destruct (tax_reduction_in_context_exact budget province ltac:(lia) Hrnz
              Hprod Hre Hpe) as [Hctx _].
  fold p in Hctx.
  (* both columns give their number back *)
  destruct (read_back_exact_value budget Hbpos Hbsmall Hbdec)
    as (b' & Hb' & Hb'val & Hb'exp & Hb'coef).
  destruct (read_back_exact_value p Hpcoef Hpsmall Hpdec)
    as (estimate & Hest & Hestval & _).
  destruct (create_travel_plan_commits st new_id now current_user travel_plan
              province (Some p) (Some b') (Some estimate) Hprov Hfresh)
    as (resp & row & Hrun & Hrowest & Hrowbudget & _ & Hrowuser & _ & _ & _
        & Hrowid & Hrowprov).
  { unfold estimate_of_request. rewrite Hbudget, truthy_nonzero by lia.
    now rewrite Hctx. }
  { rewrite Hbudget. cbn [Numeric.read_back_nullable]. now rewrite Hb'. }
  { cbn [Numeric.read_back_nullable]. now rewrite Hest. }
  rewrite Hrun. cbn [snd].
  set (created := set_travel_plans st (<[new_id := row]> (travel_plans st))).
  assert (Hcreated : travel_plans created !! new_id = Some row)
    by (cbn; apply lookup_insert_eq).
  (* the update sets the status and nothing else *)
  destruct (update_travel_plan_cases created now' current_user new_id row
              (UpdateTravelPlan.mk None None None (Some (Some "completed")) None)
              Hcreated Hrowuser)
    as [[_ [[_ Hnull] | (b & Hb & _)]]
       | (tp' & Hstore & _ & _ & Huser' & Hprov' & _ & _ & _ & Hst & _ & Hkeep)].
  { cbn in Hnull. destruct Hnull as [Hnull | [Hnull | Hnull]]; discriminate. }
  { discriminate. }
  cbn in Hst, Hkeep. destruct Hkeep as [Hbudget' Hest'].
  rewrite Hstore.
  destruct (get_travel_plan_tax_info_owner
              (set_travel_plans created (<[new_id := tp']> (travel_plans created)))
              current_user new_id tp' province)
    as (info & Hinfo & Hinfoest & Hinfost & Hinfoact).
  { cbn. apply lookup_insert_eq. }
  { congruence. }
  { cbn [set_travel_plans provinces created]. rewrite Hprov', Hrowprov. exact Hprov. }
  injection Hst as Hst.
  rewrite Hbudget', Hrowbudget, <- Hst in Hinfoact.
  rewrite truthy_nonzero, bool_decide_eq_true_2 in Hinfoact by (lia || reflexivity).
  cbn [andb] in Hinfoact.
  exists info, estimate, (tax_reduction b' province).
  split; [exact Hinfo |]. split; [now rewrite Hinfost, <- Hst |].
  split; [now rewrite Hinfoest, Hest', Hrowest |]. split; [exact Hinfoact |].
  split; [now rewrite Hestval |].
  rewrite tax_reduction_exact; fold rate.
  - now rewrite Hb'val.
  - exact Hrate.
  - assert (2 ^ 19 * 10 ^ 10 * 10 ^ 12 < 10 ^ prec) by reflexivity. nia.
Qed.

(** The test of the repository: budget 12000 at 15.00%, completed. *)
Lemma completed_plan_actual_equals_estimate_witness :
  exists info estimate actual,
    get_travel_plan_tax_info
      (snd (update_travel_plan
              (snd (create_travel_plan Fixtures.test_store "plan-2" 0
                      (UserRouter.user_model Fixtures.test_user)
                      (Fixtures.create_request (Some (mkDec 12000 0)))))
              5 (UserRouter.user_model Fixtures.test_user) "plan-2"
              (UpdateTravelPlan.mk None None None (Some (Some "completed")) None)))
      (UserRouter.user_model Fixtures.test_user) "plan-2" = Return info
    /\ TravelPlanWithTaxInfo.status info = "completed"
    /\ TravelPlanWithTaxInfo.estimated_tax_reduction info = Some estimate
    /\ TravelPlanWithTaxInfo.actual_tax_savings info = Some actual
    /\ (to_Q estimate == to_Q (mkDec 12000 0) * to_Q (mkDec 1500 (-2)) / (100 # 1))%Q
    /\ (to_Q actual == to_Q (mkDec 12000 0) * to_Q (mkDec 1500 (-2)) / (100 # 1))%Q.
Proof.
  apply (completed_plan_actual_equals_estimate Fixtures.test_store "plan-2" 0 5
           (UserRouter.user_model Fixtures.test_user)
           (Fixtures.create_request (Some (mkDec 12000 0)))
           Fixtures.mae_hong_son (mkDec 12000 0)).
  - reflexivity.
  - reflexivity.
  - reflexivity.
  - cbn. lia.
  - cbn. lia.
  - vm_compute. reflexivity.
  - vm_compute. discriminate.
  - vm_compute. reflexivity.
  - vm_compute. reflexivity.
  - vm_compute. reflexivity.
  - vm_compute. reflexivity.
Defined.

End TravelLifecycleFacts.

(** ** Keys of the store *)

Module StoreInvariantFacts.

Import TravelRouter TravelFacts.
Local Open Scope string_scope.
Local Open Scope Z_scope.

Lemma keys_consistent_insert st plan_id (row : DBTravelPlan.t) :
  store_keys_consistent st ->
  DBTravelPlan.id row = plan_id ->
  is_Some (provinces st !! DBTravelPlan.province_id row) ->
  store_keys_consistent (set_travel_plans st (<[plan_id := row]> (travel_plans st))).
Proof.
  intros [Hplans Hprovs] Hid Hfk. split; [| exact Hprovs].
  intros k tp. cbn [set_travel_plans travel_plans provinces].
  destruct (decide (plan_id = k)) as [<- | Hne].
  - rewrite lookup_insert_eq. intros [= <-]. auto.
  - rewrite lookup_insert_ne by exact Hne. apply Hplans.
Qed.

Lemma foldl_add_province_lookup (rows : list DBProvince.t) :
  forall (table : gmap Z DBProvince.t) k p,
    foldl Database.add_province table rows !! k = Some p ->
    table !! k = Some p \/ (p ∈ rows /\ DBProvince.id p = k).
Proof.
  induction rows as [| row rest IH]; intros table k p; cbn [foldl].
  - now left.
  - intros Hlook. apply IH in Hlook as [Hlook | [Hin Hid]].
    + unfold Database.add_province in Hlook.
      destruct (decide (DBProvince.id row = k)) as [<- | Hne].
      * rewrite lookup_insert_eq in Hlook. injection Hlook as <-.
        right. split; [left | reflexivity].
      * rewrite lookup_insert_ne in Hlook by exact Hne. now left.
    + right. split; [now right | exact Hid].
Qed.

(** X18. Keys stay consistent: creating, updating and deleting a plan
    and seeding the catalogue keep every plan stored under its own id
    and pointing to a province of the catalogue, and every province
    stored under its own id. *)
Theorem keys_stay_consistent st new_id now current_user plan_id travel_plan upd :
  store_keys_consistent st ->
  store_keys_consistent (snd (create_travel_plan st new_id now current_user travel_plan))
  /\ store_keys_consistent (snd (update_travel_plan st now current_user plan_id upd))
  /\ store_keys_consistent (snd (delete_travel_plan st current_user plan_id))
  /\ store_keys_consistent (Database.init_provinces_data st).
Proof.
  intros Hwf. split; [| split; [| split]].
  - destruct (create_travel_plan_store st new_id now current_user travel_plan)
      as [-> | (row & province & Hprov & -> & Hid & Hpid)]; [exact Hwf |].
    apply keys_consistent_insert; [exact Hwf | exact Hid |].
    rewrite Hpid, Hprov. eauto.
  - destruct (update_travel_plan_store st now current_user plan_id upd)
      as [-> | (tp & tp' & Hrow & -> & Hid & Hpid)]; [exact Hwf |].
    destruct (proj1 Hwf plan_id tp Hrow) as [Hkey Hfk].
    apply keys_consistent_insert; [exact Hwf | congruence |].
    now rewrite Hpid.
  - unfold delete_travel_plan.
    destruct (travel_plans st !! plan_id) as [tp |]; [| exact Hwf].
    destruct (decide (DBTravelPlan.user_id tp = User.id current_user)); [| exact Hwf].
    cbn [snd]. destruct Hwf as [Hplans Hprovs]. split; [| exact Hprovs].
    intros k row. cbn [set_travel_plans travel_plans provinces].
    destruct (decide (plan_id = k)) as [<- | Hne].
    + rewrite lookup_delete_eq. discriminate.
    + rewrite lookup_delete_ne by exact Hne. apply Hplans.
  - unfold Database.init_provinces_data.
    destruct (decide (map_to_list (provinces st) = [])) as [Hempty | _]; [| exact Hwf].
    apply map_to_list_empty_iff in Hempty.
    destruct Hwf as [Hplans Hprovs]. split; cbn [travel_plans provinces].
    + intros k tp Hrow. destruct (Hplans k tp Hrow) as [Hid [p Hfk]].
      rewrite Hempty, lookup_empty in Hfk. discriminate.
    + intros k p Hlook. apply foldl_add_province_lookup in Hlook as [Hold | [_ Hid]].
      * now apply Hprovs.
      * exact Hid.
Qed.


Lemma fixture_keys_consistent : store_keys_consistent Fixtures.test_store.
Proof.
  split.
  - intros k tp Hrow. unfold Fixtures.test_store in Hrow. cbn [travel_plans] in Hrow.
    destruct (decide ("plan-1" = k)) as [<- | Hne].
    + rewrite lookup_insert_eq in Hrow. injection Hrow as <-.
      split; [reflexivity |]. vm_compute. eauto.
    + rewrite lookup_insert_ne, lookup_empty in Hrow by exact Hne. discriminate.
  - intros k p Hlook. unfold Fixtures.test_store in Hlook. cbn [provinces] in Hlook.
    destruct (decide (1001 = k)) as [<- | Hne1].
    + rewrite lookup_insert_eq in Hlook. now injection Hlook as <-.
    + rewrite lookup_insert_ne in Hlook by exact Hne1.
      destruct (decide (1002 = k)) as [<- | Hne2].
      * rewrite lookup_insert_eq in Hlook. now injection Hlook as <-.
      * rewrite lookup_insert_ne, lookup_empty in Hlook by exact Hne2. discriminate.
Defined.

Lemma keys_stay_consistent_witness :
  store_keys_consistent
    (snd (create_travel_plan Fixtures.test_store "plan-2" 0
            (UserRouter.user_model Fixtures.test_user)
            (Fixtures.create_request (Some (mkDec 15000 0))))).
Proof.
  destruct (keys_stay_consistent Fixtures.test_store "plan-2" 0
              (UserRouter.user_model Fixtures.test_user) "plan-1"
              (Fixtures.create_request (Some (mkDec 15000 0))) Fixtures.empty_update
              fixture_keys_consistent) as [Hcreate _].
  exact Hcreate.
Defined.


End StoreInvariantFacts.

(** ** Profile, password and registration *)

Module AccountFacts.

Import Security UserRouter UserRouterAccount.
Local Open Scope string_scope.
Local Open Scope Z_scope.

Lemma get_by_id_spec st user_id (u : DBUser.t) :
  get_by_id st user_id = Some u -> u ∈ users st /\ DBUser.id u = user_id.
Proof.
  unfold get_by_id. intros Hfind. apply find_some in Hfind as [Hin Hp].
  split; [now apply list_elem_of_In |]. now apply bool_decide_eq_true_1 in Hp.
Qed.

(** Reading back the row that was saved. *)
Lemma get_by_id_save_user st user_id (u u' : DBUser.t) :
  get_by_id st user_id = Some u ->
  DBUser.id u' = user_id ->
  get_by_id (save_user st u') user_id = Some u'.
Proof.
  unfold get_by_id, save_user. cbn [users set_users]. intros Hfind Hid.
  induction (users st) as [| hd rest IH]; [discriminate |].
  cbn [find map] in *.
  destruct (bool_decide_reflect (DBUser.id hd = user_id)) as [Hhd | Hhd].
  - rewrite (bool_decide_eq_true_2 (DBUser.id hd = DBUser.id u')) by congruence.
    now rewrite (bool_decide_eq_true_2 (DBUser.id u' = user_id)).
  - rewrite (bool_decide_eq_false_2 (DBUser.id hd = DBUser.id u')) by congruence.
    rewrite (bool_decide_eq_false_2 (DBUser.id hd = user_id)) by exact Hhd.
    now apply IH.
Qed.

(** The rows after a save: the saved row, and the rows of other ids. *)
Lemma elem_of_save_user st (u' v : DBUser.t) :
  v ∈ users (save_user st u') ->
  v = u' \/ (v ∈ users st /\ DBUser.id v <> DBUser.id u').
Proof.
  unfold save_user. cbn [users set_users]. rewrite list_elem_of_In, in_map_iff.
  intros (w & Hw & Hin). apply list_elem_of_In in Hin.
  destruct (bool_decide_reflect (DBUser.id w = DBUser.id u')) as [Heq | Hne].
  - now left.
  - right. subst v. auto.
Qed.

(** Looking a user up by name after a save that kept the name. *)
Lemma first_by_username_save_user st (u u' : DBUser.t) :
  first_by_username st (DBUser.username u) = Some u ->
  DBUser.id u' = DBUser.id u ->
  DBUser.username u' = DBUser.username u ->
  first_by_username (save_user st u') (DBUser.username u) = Some u'.
Proof.
  unfold first_by_username, save_user. cbn [users set_users]. intros Hfind Hid Hname.
  induction (users st) as [| hd rest IH]; [discriminate |].
  cbn [find map] in *.
  destruct (bool_decide_reflect (DBUser.id hd = DBUser.id u')) as [Hsame | Hdiff].
  - now rewrite bool_decide_eq_true_2.
  - destruct (bool_decide_reflect (DBUser.username hd = DBUser.username u))
      as [Hhd | Hhd].
    + injection Hfind as ->. congruence.
    + now apply IH.
Qed.

Section WithBackend.
Context `{Jose.Backend} `{CryptContext} `{Settings}.

(** X20. Self-service only: [change_password] and [update_user] for a
    path id that is not the caller's id answer 403 "Not enough
    permissions", and [change_password] with an old password that does
    not verify answers 400 "Incorrect old password"; in each case the
    store is left as it was. *)
Theorem account_changes_are_self_service
    st now salt current_user user_id password_update user_update :
  (User.id current_user <> user_id ->
   change_password st now salt current_user user_id password_update
   = (Raise not_enough_permissions, st)
   /\ update_user st now current_user user_id user_update
      = (Raise not_enough_permissions, st))
  /\ (forall u,
        User.id current_user = user_id ->
        get_by_id st user_id = Some u ->
        verify_password (ChangedPassword.old_password password_update)
          (DBUser.hashed_password u) = false ->
        change_password st now salt current_user user_id password_update
        = (Raise incorrect_old_password, st)).
Proof.
  unfold change_password, update_user. split.
  - intros Hother.
    destruct (decide (User.id current_user = user_id)); [contradiction | auto].
  - intros u Hself Hrow Hwrong.
    destruct (decide (User.id current_user = user_id)); [| contradiction].
    now rewrite Hrow, Hwrong.
Qed.

(** X21. What a password change that returns has done: the caller is
    the user of the path, the old password verified, the row of that
    id now holds the hash of the new password and the stamp of the
    change with every other field as before, the rows of other ids are
    rows of the old table, and provinces and plans are untouched. *)
Theorem change_password_effect st now salt current_user user_id password_update msg st' :
  change_password st now salt current_user user_id password_update = (Return msg, st') ->
  User.id current_user = user_id
  /\ exists u,
       get_by_id st user_id = Some u
       /\ verify_password (ChangedPassword.old_password password_update)
            (DBUser.hashed_password u) = true
       /\ get_by_id st' user_id
          = Some (DBUser.mk (DBUser.id u) (DBUser.email u) (DBUser.username u)
                    (get_password_hash salt (ChangedPassword.new_password password_update))
                    (DBUser.first_name u) (DBUser.last_name u) (DBUser.phone u)
                    (DBUser.date_of_birth u) (DBUser.national_id u)
                    (DBUser.is_active u) (DBUser.created_at u) (Some now))
       /\ (forall v, v ∈ users st' -> DBUser.id v <> user_id -> v ∈ users st)
       /\ length (users st') = length (users st)
       /\ provinces st' = provinces st
       /\ travel_plans st' = travel_plans st.
Proof.
  unfold change_password.
  destruct (decide (User.id current_user = user_id)) as [Hself |]; [| discriminate].
  destruct (get_by_id st user_id) as [u |] eqn:Hrow; [| discriminate].
  destruct (verify_password _ _) eqn:Hold; [| discriminate]. cbn [negb].
  intros [= <- <-]. split; [exact Hself |]. exists u.
  destruct (get_by_id_spec st user_id u Hrow) as [_ Hid].
  repeat split; auto.
  - now apply (get_by_id_save_user st user_id u).
  - intros v Hin Hne. apply elem_of_save_user in Hin as [-> | [Hin _]]; [| exact Hin].
    cbn in Hne. congruence.
  - unfold save_user. cbn [users set_users]. apply length_map.
Qed.

(** X22. A new password works at once: after a password change that
    returns, for an active user found by username, whose new password
    verifies against its own hash, login with the username and the new
    password returns tokens for that user. *)
Theorem change_password_then_login
    st now salt current_user user_id password_update msg st' u now_access now_refresh :
  change_password st now salt current_user user_id password_update = (Return msg, st') ->
  get_by_id st user_id = Some u ->
  first_by_username st (DBUser.username u) = Some u ->
  DBUser.is_active u = true ->
  pwd_verify (ChangedPassword.new_password password_update)
    (pwd_hash salt (ChangedPassword.new_password password_update)) = true ->
  exists resp,
    login st' now_access now_refresh
      (UserLogin.mk (DBUser.username u) (ChangedPassword.new_password password_update))
    = Return resp
    /\ User.id (user resp) = user_id
    /\ User.username (user resp) = DBUser.username u.
Proof.
  unfold change_password.
  destruct (decide (User.id current_user = user_id)); [| discriminate].
  intros Hrun Hrow Hname Hactive Hlaw. rewrite Hrow in Hrun.
  destruct (negb (verify_password _ _)); [discriminate |].
  injection Hrun as _ <-.
  destruct (get_by_id_spec st user_id u Hrow) as [_ Hid].
  unfold login. cbn [UserLogin.username UserLogin.password].
  rewrite (first_by_username_save_user st u) by (cbn; auto || reflexivity).
  cbn [DBUser.hashed_password DBUser.is_active]. unfold verify_password, get_password_hash.
  rewrite Hlaw, Hactive. cbn [negb].
  eexists. split; [reflexivity |]. cbn. auto.
Qed.

End WithBackend.

(** X23. A profile update cannot change who the user is: after an
    update that returns, the row of the path id keeps its id, email,
    username, password hash, national id, active flag and creation
    time; each profile field the request did not mention is as before;
    and the answer is the public view of the stored row. *)
Theorem update_user_keeps_identity st now current_user user_id user_update view st' :
  update_user st now current_user user_id user_update = (Return view, st') ->
  exists u u',
    get_by_id st user_id = Some u
    /\ get_by_id st' user_id = Some u'
    /\ view = user_model u'
    /\ DBUser.id u' = DBUser.id u
    /\ DBUser.email u' = DBUser.email u
    /\ DBUser.username u' = DBUser.username u
    /\ DBUser.hashed_password u' = DBUser.hashed_password u
    /\ DBUser.national_id u' = DBUser.national_id u
    /\ DBUser.is_active u' = DBUser.is_active u
    /\ DBUser.created_at u' = DBUser.created_at u
    /\ (UpdatedUser.first_name user_update = None ->
        DBUser.first_name u' = DBUser.first_name u)
    /\ (UpdatedUser.last_name user_update = None ->
        DBUser.last_name u' = DBUser.last_name u)
    /\ (UpdatedUser.phone user_update = None -> DBUser.phone u' = DBUser.phone u)
    /\ (UpdatedUser.date_of_birth user_update = None ->
        DBUser.date_of_birth u' = DBUser.date_of_birth u).
Proof.
  unfold update_user.
  destruct (decide (User.id current_user = user_id)); [| discriminate].
  destruct (get_by_id st user_id) as [u |] eqn:Hrow; [| discriminate].
  destruct (get_by_id_spec st user_id u Hrow) as [_ Hid].
  destruct user_update as [fn ln ph dob]; cbn [UpdatedUser.first_name
    UpdatedUser.last_name UpdatedUser.phone UpdatedUser.date_of_birth].
  destruct (TravelRouter.setattr_required fn (DBUser.first_name u)) as [fn' |] eqn:Hfn;
    [| discriminate].
  destruct (TravelRouter.setattr_required ln (DBUser.last_name u)) as [ln' |] eqn:Hln;
    [| discriminate].
  intros [= <- <-]. exists u. eexists.
  split; [reflexivity |].
  split; [apply (get_by_id_save_user st user_id u); [exact Hrow | exact Hid] |].
  cbn. repeat split; auto; intros ->; cbn in *; congruence.
Qed.

Lemma same_id_same_row (l : list DBUser.t) (u v : DBUser.t) :
  NoDup (map DBUser.id l) -> u ∈ l -> v ∈ l -> DBUser.id u = DBUser.id v -> u = v.
Proof.
  induction l as [| hd rest IH]; intros Hnodup Hu Hv Hid.
  - now apply elem_of_nil in Hu.
  - cbn [map] in Hnodup. apply NoDup_cons in Hnodup as [Hfresh Hrest].
    apply elem_of_cons in Hu as [-> | Hu]; apply elem_of_cons in Hv as [-> | Hv].
    + reflexivity.
    + exfalso. apply Hfresh. rewrite Hid. apply list_elem_of_fmap. now exists v.
    + exfalso. apply Hfresh. rewrite <- Hid. apply list_elem_of_fmap. now exists u.
    + now apply IH.
Qed.

(** A save that keeps a column keeps the column of the whole table. *)
Lemma save_user_keeps_column {A : Type} (f : DBUser.t -> A) st (u u' : DBUser.t) :
  NoDup (map DBUser.id (users st)) ->
  u ∈ users st ->
  DBUser.id u' = DBUser.id u ->
  f u' = f u ->
  map f (users (save_user st u')) = map f (users st).
Proof.
  intros Hnodup Hin Hid Hf. unfold save_user. cbn [users set_users].
  rewrite map_map. apply map_ext_in. intros w Hw. apply list_elem_of_In in Hw.
  destruct (bool_decide_reflect (DBUser.id w = DBUser.id u')) as [Hsame | _];
    [| reflexivity].
  rewrite Hf. f_equal. apply (same_id_same_row (users st)); auto. congruence.
Qed.

Lemma save_user_keeps_unique st (u u' : DBUser.t) :
  users_unique st ->
  u ∈ users st ->
  DBUser.id u' = DBUser.id u ->
  DBUser.email u' = DBUser.email u ->
  DBUser.username u' = DBUser.username u ->
  users_unique (save_user st u').
Proof.
  intros (Hids & Hemails & Hnames) Hin Hid Hemail Hname. unfold users_unique.
  rewrite (save_user_keeps_column DBUser.id st u u'),
    (save_user_keeps_column DBUser.email st u u'),
    (save_user_keeps_column DBUser.username st u u'); auto.
Qed.

Lemma find_app_None (p : DBUser.t -> bool) (l1 l2 : list DBUser.t) :
  find p l1 = None -> find p (l1 ++ l2) = find p l2.
Proof.
  induction l1 as [| hd rest IH]; cbn [find app]; [reflexivity |].
  destruct (p hd); [discriminate | exact IH].
Qed.

Lemma find_none_not_in {A : Type} (f : DBUser.t -> A) `{EqDecision A} (l : list DBUser.t)
    (x : A) :
  find (fun u => bool_decide (f u = x)) l = None -> x ∉ map f l.
Proof.
  intros Hfind Hin. apply list_elem_of_In, in_map_iff in Hin as (u & Hu & Hin).
  pose proof (find_none _ _ Hfind u Hin) as Hno. cbn in Hno.
  now rewrite bool_decide_eq_true_2 in Hno.
Qed.

Section WithBackend.
Context `{Jose.Backend} `{CryptContext} `{Settings}.

(** X24. Unique columns stay unique: if no two stored users share an
    id, an email or a username, the same holds after a registration,
    after a password change and after a profile update, whatever
    their outcome. *)
Theorem users_stay_unique
    st new_id now salt user_info current_user user_id password_update user_update :
  users_unique st ->
  users_unique (snd (register st new_id now salt user_info))
  /\ users_unique (snd (change_password st now salt current_user user_id password_update))
  /\ users_unique (snd (update_user st now current_user user_id user_update)).
Proof.
  intros Huniq. split; [| split].
  - unfold register.
    destruct (first_by_email st (RegisteredUser.email user_info)) eqn:Hemail;
      [exact Huniq |].
    destruct (first_by_username st (RegisteredUser.username user_info)) eqn:Hname;
      [exact Huniq |].
    destruct (existsb _ (users st)) eqn:Hid; [exact Huniq |]. cbn [snd].
    destruct Huniq as (Hids & Hemails & Hnames).
    unfold users_unique. cbn [users set_users]. rewrite !map_app. cbn [map].
    repeat split; apply NoDup_app; (split; [assumption |]);
      (split; [| apply NoDup_singleton]); intros x Hx Hnew;
      apply list_elem_of_singleton in Hnew; subst x; revert Hx.
    + intros Hx. apply list_elem_of_In, in_map_iff in Hx as (u & Hu & Hin).
      assert (Hex : existsb (fun u => bool_decide (DBUser.id u = new_id)) (users st)
                    = true).
      { apply existsb_exists. exists u. split; [exact Hin |].
        now apply bool_decide_eq_true_2. }
      congruence.
    + now apply (find_none_not_in DBUser.email).
    + now apply (find_none_not_in DBUser.username).
  - unfold change_password.
    destruct (decide (User.id current_user = user_id)); [| exact Huniq].
    destruct (get_by_id st user_id) as [u |] eqn:Hrow; [| exact Huniq].
    destruct (negb (verify_password _ _)); [exact Huniq |]. cbn [snd].
    destruct (get_by_id_spec st user_id u Hrow) as [Hin _].
    now apply (save_user_keeps_unique st u).
  - unfold update_user.
    destruct (decide (User.id current_user = user_id)); [| exact Huniq].
    destruct (get_by_id st user_id) as [u |] eqn:Hrow; [| exact Huniq].
    destruct (get_by_id_spec st user_id u Hrow) as [Hin _].
    destruct (TravelRouter.setattr_required _ (DBUser.first_name u)); [| exact Huniq].
    destruct (TravelRouter.setattr_required _ (DBUser.last_name u)); [| exact Huniq].
    cbn [snd]. now apply (save_user_keeps_unique st u).
Qed.

(** X25. Register, then use the account: after a registration that
    returns, the new user is read back by id as the view of the
    registration response, and, when the password verifies against
    the hash just made, login with the registered username and
    password returns tokens for that view. *)
Theorem register_then_login st new_id now salt user_info resp st' now_access now_refresh :
  register st new_id now salt user_info = (Return resp, st') ->
  get_user st' (reg_user resp) new_id = Return (reg_user resp)
  /\ (pwd_verify (RegisteredUser.password user_info)
        (pwd_hash salt (RegisteredUser.password user_info)) = true ->
      exists login_resp,
        login st' now_access now_refresh
          (UserLogin.mk (RegisteredUser.username user_info)
             (RegisteredUser.password user_info)) = Return login_resp
        /\ user login_resp = reg_user resp).
Proof.
  unfold register.
  destruct (first_by_email st (RegisteredUser.email user_info)); [discriminate |].
  destruct (first_by_username st (RegisteredUser.username user_info)) eqn:Hname;
    [discriminate |].
  destruct (existsb _ (users st)) eqn:Hid; [discriminate |].
  intros [= <- <-]. cbn [reg_user]. split.
  - unfold get_user, get_by_id. cbn [users set_users].
    assert (Hnone : find (fun u => bool_decide (DBUser.id u = new_id)) (users st) = None).
    { destruct (find _ (users st)) as [u |] eqn:Hfind; [| reflexivity].
      apply find_some in Hfind as [Hin Hp].
      assert (Hex : existsb (fun u => bool_decide (DBUser.id u = new_id)) (users st)
                    = true) by (apply existsb_exists; eauto).
      congruence. }
    rewrite (find_app_None _ _ _ Hnone). cbn [find DBUser.id].
    now rewrite bool_decide_eq_true_2.
  - intros Hlaw. unfold login, first_by_username in *.
    cbn [users set_users UserLogin.username UserLogin.password].
    rewrite (find_app_None _ _ _ Hname). cbn [find DBUser.username].
    rewrite bool_decide_eq_true_2 by reflexivity.
    cbn [DBUser.hashed_password DBUser.is_active]. unfold verify_password, get_password_hash.
    rewrite Hlaw. cbn [negb]. eexists. split; reflexivity.
Qed.

End WithBackend.

Lemma fixture_users_unique : users_unique Fixtures.test_store.
Proof.
  unfold users_unique, Fixtures.test_store. cbn.
  repeat split; repeat (apply NoDup_cons; split; [| ]); try apply NoDup_nil_2;
    intros Hin;
    repeat (apply elem_of_cons in Hin as [Heq | Hin]; [discriminate Heq |]);
    now apply elem_of_nil in Hin.
Defined.

Lemma change_password_effect_witness :
  let result :=
    change_password (H := Fixtures.test_crypt_context) Fixtures.test_store 9 "salt"
      (user_model Fixtures.test_user) "user-1"
      (ChangedPassword.mk "testpassword" "newtestpassword123") in
  exists msg,
    fst result = Return msg
    /\ length (users (snd result)) = length (users Fixtures.test_store)
    /\ travel_plans (snd result) = travel_plans Fixtures.test_store.
Proof.
  cbv zeta.
  destruct (change_password (H := Fixtures.test_crypt_context) Fixtures.test_store 9
              "salt" (user_model Fixtures.test_user) "user-1"
              (ChangedPassword.mk "testpassword" "newtestpassword123"))
    as [[msg | e] st'] eqn:Hrun.
  - exists msg. split; [reflexivity |].
    destruct (change_password_effect _ _ _ _ _ _ _ _ Hrun)
      as (_ & u & _ & _ & _ & _ & Hlen & _ & Hplans).
    split; [exact Hlen | exact Hplans].
  - exfalso. vm_compute in Hrun. discriminate Hrun.
Defined.

Lemma change_password_then_login_witness :
  let result :=
    change_password (H := Fixtures.test_crypt_context) Fixtures.test_store 9 "salt"
      (user_model Fixtures.test_user) "user-1"
      (ChangedPassword.mk "testpassword" "newtestpassword123") in
  exists resp,
    login (H := Fixtures.test_backend) (H0 := Fixtures.test_crypt_context)
      (H1 := Fixtures.test_settings) (snd result) 10 10
      (UserLogin.mk "testuser" "newtestpassword123") = Return resp
    /\ User.id (user resp) = "user-1"
    /\ User.username (user resp) = "testuser".
Proof.
  cbv zeta.
  destruct (change_password (H := Fixtures.test_crypt_context) Fixtures.test_store 9
              "salt" (user_model Fixtures.test_user) "user-1"
              (ChangedPassword.mk "testpassword" "newtestpassword123"))
    as [[msg | e] st'] eqn:Hrun.
  - cbn [snd].
    apply (change_password_then_login (H := Fixtures.test_backend)
             (H0 := Fixtures.test_crypt_context) (H1 := Fixtures.test_settings)
             _ _ _ _ _ _ _ _ Fixtures.test_user 10 10 Hrun); reflexivity.
  - exfalso. vm_compute in Hrun. discriminate Hrun.
Defined.

Lemma update_user_keeps_identity_witness :
  let result :=
    update_user Fixtures.test_store 9 (user_model Fixtures.test_user) "user-1"
      (UpdatedUser.mk (Some (Some "Updated")) (Some (Some "Name"))
         (Some (Some "0987654321")) None) in
  exists view u u',
    fst result = Return view
    /\ get_by_id Fixtures.test_store "user-1" = Some u
    /\ get_by_id (snd result) "user-1" = Some u'
    /\ view = user_model u'
    /\ DBUser.hashed_password u' = DBUser.hashed_password u
    /\ DBUser.email u' = DBUser.email u.
Proof.
  cbv zeta.
  destruct (update_user Fixtures.test_store 9 (user_model Fixtures.test_user) "user-1"
              (UpdatedUser.mk (Some (Some "Updated")) (Some (Some "Name"))
                 (Some (Some "0987654321")) None))
    as [[view | e] st'] eqn:Hrun.
  - destruct (update_user_keeps_identity _ _ _ _ _ _ _ Hrun)
      as (u & u' & Hu & Hu' & Hview & _ & Hemail & _ & Hhash & _).
    exists view, u, u'. auto 10.
  - exfalso. vm_compute in Hrun. discriminate Hrun.
Defined.

Lemma users_stay_unique_witness :
  users_unique
    (snd (register (H0 := Fixtures.test_crypt_context) Fixtures.test_store "user-3" 7
            "salt"
            (RegisteredUser.mk "newuser@example.com" "newuser" "newpassword123"
               "New" "User" (Some "0812345678") None None))).
Proof.
  edestruct (users_stay_unique (H0 := Fixtures.test_crypt_context)
               Fixtures.test_store "user-3" 7 "salt"
               (RegisteredUser.mk "newuser@example.com" "newuser" "newpassword123"
                  "New" "User" (Some "0812345678") None None)
               (user_model Fixtures.test_user) "user-1"
               (ChangedPassword.mk "testpassword" "newtestpassword123")
               (UpdatedUser.mk None None None None)
               fixture_users_unique) as [Hreg _].
  exact Hreg.
Defined.

Lemma register_then_login_witness :
  let user_info :=
    RegisteredUser.mk "newuser@example.com" "newuser" "newpassword123"
      "New" "User" (Some "0812345678") None None in
  let result :=
    register (H0 := Fixtures.test_crypt_context) Fixtures.test_store "user-3" 7 "salt"
      user_info in
  exists resp,
    fst result = Return resp
    /\ get_user (snd result) (reg_user resp) "user-3" = Return (reg_user resp)
    /\ exists login_resp,
         login (H := Fixtures.test_backend) (H0 := Fixtures.test_crypt_context)
           (H1 := Fixtures.test_settings) (snd result) 8 8
           (UserLogin.mk "newuser" "newpassword123") = Return login_resp
         /\ user login_resp = reg_user resp.
Proof.
  cbv zeta.
  destruct (register (H0 := Fixtures.test_crypt_context) Fixtures.test_store "user-3" 7
              "salt"
              (RegisteredUser.mk "newuser@example.com" "newuser" "newpassword123"
                 "New" "User" (Some "0812345678") None None))
    as [[resp | e] st'] eqn:Hrun.
  - exists resp. split; [reflexivity |].
    destruct (register_then_login (H := Fixtures.test_backend)
                (H0 := Fixtures.test_crypt_context) (H1 := Fixtures.test_settings)
                _ _ _ _ _ _ _ 8 8 Hrun) as [Hget Hlogin].
    split; [exact Hget |]. apply Hlogin. reflexivity.
  - exfalso. vm_compute in Hrun. discriminate Hrun.
Defined.

End AccountFacts.

(** ** The province catalogue *)

Module ProvinceFacts.

Import TravelRouter ProvinceRouter.
Local Open Scope string_scope.
Local Open Scope Z_scope.

Lemma elem_of_province_rows st (p : DBProvince.t) :
  p ∈ province_rows st <-> exists k, provinces st !! k = Some p.
Proof.
  unfold province_rows. rewrite list_elem_of_In, in_map_iff. split.
  - intros ([k p0] & <- & Hin). apply list_elem_of_In, elem_of_map_to_list in Hin.
    now exists k.
  - intros [k Hlook]. exists (k, p). split; [reflexivity |].
    now apply list_elem_of_In, elem_of_map_to_list.
Qed.

Lemma elem_of_listed_rows st region secondary_only (p : DBProvince.t) :
  p ∈ listed_rows st region secondary_only
  <-> p ∈ province_rows st
      /\ (forall r, region = Some r -> r <> "" -> DBProvince.region p = r)
      /\ (forall flag, secondary_only = Some flag ->
            DBProvince.is_secondary_province p = flag).
Proof.
  unfold listed_rows. rewrite merge_sort_Permutation.
  assert (Hregion : forall q : DBProvince.t,
    q ∈ match region with
        | Some r =>
            if decide (r = "") then province_rows st
            else filter (fun p => DBProvince.region p = r) (province_rows st)
        | None => province_rows st
        end
    <-> q ∈ province_rows st
        /\ (forall r, region = Some r -> r <> "" -> DBProvince.region q = r)).
  { intros q. destruct region as [r |]; [destruct (decide (r = "")) as [-> | Hne] |].
    - split; [intros Hin; split; [exact Hin |]; intros r [= <-]; contradiction | tauto].
    - rewrite list_elem_of_filter. split.
      + intros [Hr Hin]. split; [exact Hin |]. now intros r' [= <-].
      + intros [Hin Hr]. split; [now apply Hr | exact Hin].
    - split; [intros Hin; split; [exact Hin | discriminate] | tauto]. }
  destruct secondary_only as [flag |].
  - rewrite list_elem_of_filter, Hregion. split.
    + intros (Hflag & Hin & Hr). repeat split; auto. now intros flag' [= <-].
    + intros (Hin & Hr & Hflag). repeat split; auto.
  - rewrite Hregion. split.
    + intros (Hin & Hr). repeat split; auto. discriminate.
    + intros (Hin & Hr & _). auto.
Qed.

(** X26. The province listing applies exactly its filters: a province
    is listed when and only when it is in the catalogue, its region is
    the region asked for (a missing or empty region asks for nothing)
    and its secondary flag is the flag asked for (if any);
    [total_count] is the length of the list. *)
Theorem province_listing_applies_filters st region secondary_only :
  let resp := get_all_provinces st region secondary_only in
  (forall view,
      view ∈ ProvinceListResponse.provinces resp
      <-> exists k province,
            provinces st !! k = Some province
            /\ (forall r, region = Some r -> r <> "" -> DBProvince.region province = r)
            /\ (forall flag, secondary_only = Some flag ->
                  DBProvince.is_secondary_province province = flag)
            /\ view = province_model province)
  /\ ProvinceListResponse.total_count resp
     = length (ProvinceListResponse.provinces resp).
Proof.
  cbv zeta. unfold get_all_provinces.
  cbn [ProvinceListResponse.provinces ProvinceListResponse.total_count].
  split; [| reflexivity].
  intros view. rewrite list_elem_of_In, in_map_iff. split.
  - intros (p & <- & Hin). apply list_elem_of_In, elem_of_listed_rows in Hin
      as (Hrow & Hr & Hflag).
    apply elem_of_province_rows in Hrow as [k Hlook]. exists k, p. auto.
  - intros (k & p & Hlook & Hr & Hflag & ->). exists p. split; [reflexivity |].
    apply list_elem_of_In, elem_of_listed_rows. repeat split; auto.
    apply elem_of_province_rows. now exists k.
Qed.

Lemma length_filter_province_model (rows : list DBProvince.t) :
  length (filter (fun view => Province.is_secondary_province view = true)
            (map province_model rows))
  = length (filter (fun p => DBProvince.is_secondary_province p = true) rows).
Proof.
  induction rows as [| p rest IH]; [reflexivity |].
  cbn [map]. rewrite !filter_cons. cbn [province_model Province.is_secondary_province].
  destruct (decide (DBProvince.is_secondary_province p = true)); cbn [length]; lia.
Qed.

Lemma filter_all {A : Type} (P : A -> Prop) `{forall x, Decision (P x)} (l : list A) :
  (forall x, x ∈ l -> P x) -> filter P l = l.
Proof.
  induction l as [| x rest IH]; intros Hall; [reflexivity |].
  rewrite filter_cons. destruct (decide (P x)) as [_ | Hnot].
  - f_equal. apply IH. intros y Hy. apply Hall. now right.
  - exfalso. apply Hnot, Hall. now left.
Qed.

Lemma filter_none {A : Type} (P : A -> Prop) `{forall x, Decision (P x)} (l : list A) :
  (forall x, x ∈ l -> ~ P x) -> filter P l = [].
Proof.
  induction l as [| x rest IH]; intros Hnone; [reflexivity |].
  rewrite filter_cons. destruct (decide (P x)) as [Hyes | _].
  - exfalso. apply (Hnone x); [now left | exact Hyes].
  - apply IH. intros y Hy. apply Hnone. now right.
Qed.

(** X27. [secondary_province_count] is the number of listed provinces
    flagged secondary: it never exceeds [total_count], it equals
    [total_count] under [secondary_only = true] and it is zero under
    [secondary_only = false]. *)
Theorem secondary_count_counts_listed st region secondary_only :
  let resp := get_all_provinces st region secondary_only in
  ProvinceListResponse.secondary_province_count resp
  = length (filter (fun view => Province.is_secondary_province view = true)
              (ProvinceListResponse.provinces resp))
  /\ (ProvinceListResponse.secondary_province_count resp
      <= ProvinceListResponse.total_count resp)%nat
  /\ (secondary_only = Some true ->
      ProvinceListResponse.secondary_province_count resp
      = ProvinceListResponse.total_count resp)
  /\ (secondary_only = Some false ->
      ProvinceListResponse.secondary_province_count resp = 0%nat).
Proof.
  cbv zeta. unfold get_all_provinces.
  cbn [ProvinceListResponse.provinces ProvinceListResponse.total_count
         ProvinceListResponse.secondary_province_count].
  rewrite length_filter_province_model, length_map.
  split; [reflexivity |]. split; [apply length_filter |]. split.
  - intros ->. rewrite filter_all; [reflexivity |].
    intros p Hin. apply elem_of_listed_rows in Hin as (_ & _ & Hflag). now apply Hflag.
  - intros ->. rewrite filter_none; [reflexivity |].
    intros p Hin. apply elem_of_listed_rows in Hin as (_ & _ & Hflag).
    rewrite (Hflag false eq_refl). discriminate.
Qed.

(** The order of [sorted] on strings is a total order. *)
Lemma string_le_cases (a b : string) :
  string_le a b <-> OrderedTypeEx.String_as_OT.lt a b \/ a = b.
Proof.
  unfold string_le, String.leb.
  destruct (String.compare a b) eqn:Hcmp.
  - apply OrderedTypeEx.String_as_OT.cmp_eq in Hcmp. tauto.
  - apply OrderedTypeEx.String_as_OT.cmp_lt in Hcmp. tauto.
  - split; [discriminate |]. intros [Hlt | Heq].
    + apply OrderedTypeEx.String_as_OT.cmp_lt in Hlt.
      unfold OrderedTypeEx.String_as_OT.cmp in Hlt. congruence.
    + apply OrderedTypeEx.String_as_OT.cmp_eq in Heq.
      unfold OrderedTypeEx.String_as_OT.cmp in Heq. congruence.
Qed.

#[local] Instance string_le_trans : Transitive string_le.
Proof.
  intros a b c Hab Hbc. apply string_le_cases in Hab, Hbc. apply string_le_cases.
  destruct Hab as [Hab | ->]; destruct Hbc as [Hbc | ->]; auto.
  left. eapply OrderedTypeEx.String_as_OT.lt_trans; eassumption.
Qed.

#[local] Instance string_le_total : Total string_le.
Proof. intros a b. apply String.leb_total. Qed.

#[local] Instance string_le_antisym : AntiSymm eq string_le.
Proof. intros a b. apply String.leb_antisym. Qed.

(** X28. The regions of the listing are the regions of the listed
    provinces, each once, in increasing order; and [get_regions] is the
    [regions] of the unfiltered listing. *)
Theorem regions_are_sorted_and_distinct st region secondary_only :
  let resp := get_all_provinces st region secondary_only in
  NoDup (ProvinceListResponse.regions resp)
  /\ Sorted string_le (ProvinceListResponse.regions resp)
  /\ (forall r,
        r ∈ ProvinceListResponse.regions resp
        <-> exists view, view ∈ ProvinceListResponse.provinces resp
                         /\ Province.region view = r)
  /\ get_regions st = ProvinceListResponse.regions (get_all_provinces st None None).
Proof.
  cbv zeta. unfold get_all_provinces, get_regions.
  cbn [ProvinceListResponse.provinces ProvinceListResponse.regions].
  split; [| split; [| split]].
  - rewrite merge_sort_Permutation. apply NoDup_remove_dups.
  - apply Sorted_merge_sort; apply _.
  - intros r. rewrite merge_sort_Permutation, elem_of_remove_dups.
    change (map DBProvince.region) with (fmap (M := list) DBProvince.region).
    change (map province_model) with (fmap (M := list) province_model).
    rewrite list_elem_of_fmap. split.
    + intros (p & -> & Hin). exists (province_model p). split; [| reflexivity].
      apply list_elem_of_fmap. now exists p.
    + intros (view & Hin & <-). apply list_elem_of_fmap in Hin as (p & -> & Hin).
      now exists p.
  - apply (Sorted_unique string_le); try apply _.
    + apply Sorted_merge_sort; apply _.
    + apply Sorted_merge_sort; apply _.
    + rewrite !merge_sort_Permutation. apply NoDup_Permutation.
      * apply NoDup_remove_dups.
      * apply NoDup_remove_dups.
      * intros r. rewrite !elem_of_remove_dups, !list_elem_of_In, !in_map_iff.
        split; intros (p & <- & Hin); exists p; (split; [reflexivity |]);
          apply list_elem_of_In; apply list_elem_of_In in Hin.
        -- apply elem_of_listed_rows. repeat split; auto; discriminate.
        -- now apply elem_of_listed_rows in Hin as (Hin & _).
Qed.

#[local] Instance listing_order_total : Total listing_order.
Proof.
  intros a b. unfold listing_order, listed_before.
  set (ra := to_Q (DBProvince.tax_reduction_percentage a)).
  set (rb := to_Q (DBProvince.tax_reduction_percentage b)).
  destruct (Qle_bool ra rb) eqn:Hab; [| now left].
  destruct (Qle_bool rb ra) eqn:Hba; [| now right].
  apply Qle_bool_iff in Hab, Hba.
  assert (Heq : (ra == rb)%Q) by now apply Qle_antisym.
  assert (Hab' : Qeq_bool ra rb = true) by now apply Qeq_bool_iff.
  assert (Hba' : Qeq_bool rb ra = true) by (apply Qeq_bool_iff; now symmetry).
  rewrite Hab', Hba'. cbn [negb orb andb]. apply String.leb_total.
Qed.

(** X29. The province listing is ordered by rate, highest first: no
    listed province has a lower rate than the one listed right after
    it. *)
Theorem province_listing_highest_rate_first st region secondary_only :
  Sorted
    (fun a b : Province.t =>
       (to_Q (Province.tax_reduction_percentage b)
        <= to_Q (Province.tax_reduction_percentage a))%Q)
    (ProvinceListResponse.provinces (get_all_provinces st region secondary_only)).
Proof.
  unfold get_all_provinces. cbn [ProvinceListResponse.provinces].
  apply (Sorted_fmap _ listing_order).
  - intros a b. unfold listing_order, listed_before. cbn [province_model
      Province.tax_reduction_percentage].
    set (ra := to_Q (DBProvince.tax_reduction_percentage a)).
    set (rb := to_Q (DBProvince.tax_reduction_percentage b)).
    intros Hbefore. apply orb_true_iff in Hbefore as [Hlt | Heq].
    + apply negb_true_iff in Hlt.
      destruct (Qlt_le_dec rb ra) as [Hlt' | Hle]; [now apply Qlt_le_weak |].
      apply Qle_bool_iff in Hle. congruence.
    + apply andb_true_iff in Heq as [Heq _]. apply Qeq_bool_iff in Heq.
      rewrite Heq. apply Qle_refl.
  - unfold listed_rows. apply Sorted_merge_sort. apply _.
Qed.

End ProvinceFacts.

(** ** The seed of the province table *)

Module DatabaseFacts.

Import ProvinceRouter Database.
Local Open Scope string_scope.
Local Open Scope Z_scope.

Lemma seeded_table_not_empty (table : gmap Z DBProvince.t) :
  map_to_list (foldl add_province table provinces_data) <> [].
Proof.
  intros Hempty. apply map_to_list_empty_iff in Hempty.
  assert (Hlook : foldl add_province table provinces_data !! 10 = None)
    by (rewrite Hempty; apply lookup_empty).
  cbn [foldl provinces_data] in Hlook. unfold add_province at 1 in Hlook.
  cbn [DBProvince.id] in Hlook. rewrite lookup_insert_eq in Hlook. discriminate.
Qed.

Lemma seeded_lookup (k : Z) :
  is_Some (foldl add_province (∅ : gmap Z DBProvince.t) provinces_data !! k)
  <-> 1 <= k <= 10.
Proof.
  cbn [foldl provinces_data]. unfold add_province. cbn [DBProvince.id].
  repeat match goal with
  | |- context [ <[?i := _]> _ !! k ] =>
      destruct (decide (i = k)) as [<- | ?];
      [ rewrite lookup_insert_eq; split; [lia | eauto]
      | rewrite lookup_insert_ne by assumption ]
  end.
  rewrite lookup_empty. split; [intros [? ?]; discriminate | lia].
Qed.

(** X30. Seeding the province table happens once: it leaves the users
    and the plans alone, it leaves a table that has a row as it is, a
    second run changes nothing, and after seeding an empty table
    [get_province] answers for exactly the ids 1 to 10. *)
Theorem init_provinces_data_seeds_once st :
  users (init_provinces_data st) = users st
  /\ travel_plans (init_provinces_data st) = travel_plans st
  /\ (map_to_list (provinces st) <> [] -> init_provinces_data st = st)
  /\ init_provinces_data (init_provinces_data st) = init_provinces_data st
  /\ (map_to_list (provinces st) = [] ->
      forall province_id,
        (exists province,
            get_province (init_provinces_data st) province_id = Return province
            /\ Province.id province = province_id)
        <-> 1 <= province_id <= 10).
Proof.
  destruct (decide (map_to_list (provinces st) = [])) as [Hempty | Hrows].
  - assert (Hinit : init_provinces_data st
                    = mkStore (users st)
                        (foldl add_province (provinces st) provinces_data)
                        (travel_plans st)).
    { unfold init_provinces_data.
      destruct (decide (map_to_list (provinces st) = [])); [reflexivity | contradiction]. }
    rewrite Hinit. cbn [users travel_plans].
    split; [reflexivity |]. split; [reflexivity |].
    split; [contradiction |]. split.
    + unfold init_provinces_data. cbn [provinces users travel_plans].
      destruct (decide (map_to_list (foldl add_province (provinces st) provinces_data) = []))
        as [Hagain | _]; [| reflexivity].
      now apply seeded_table_not_empty in Hagain.
    + intros _ province_id. unfold get_province. cbn [provinces].
      apply map_to_list_empty_iff in Hempty. rewrite Hempty.
      rewrite <- seeded_lookup.
      destruct (foldl add_province ∅ provinces_data !! province_id)
        as [province |] eqn:Hlook.
      * split; [eauto |]. intros _. exists (TravelRouter.province_model province).
        split; [reflexivity |]. cbn [TravelRouter.province_model Province.id].
        apply StoreInvariantFacts.foldl_add_province_lookup in Hlook
          as [Hold | [_ Hid]]; [| exact Hid].
        rewrite lookup_empty in Hold. discriminate.
      * split.
        -- intros (province & Hret & _). discriminate.
        -- intros [? ?]. discriminate.
  - assert (Hinit : init_provinces_data st = st).
    { unfold init_provinces_data.
      destruct (decide (map_to_list (provinces st) = [])); [contradiction | reflexivity]. }
    rewrite !Hinit.
    split; [reflexivity |]. split; [reflexivity |]. split; [reflexivity |].
    split; [reflexivity | contradiction].
Qed.

End DatabaseFacts.
